(** * FilmSupply submission harvester: a shallow embedding of
      [OLD/harv.py] and [OLD/harv_titles_votes.py]

    The two scripts share their listing stage (fetch_page,
    fetch_all_submissions) and the vote-scanning loop; they differ in how
    records are prepared, which fields the detail stage fills, and how the
    rows are written.  The embedding keeps Python's dynamic values: what
    [response.json()] returns is a [value], a record is a [VDict], and an
    operation applied to a value of the wrong shape raises, as it does in
    Python.

    Conventions of the model.
    - A Python [str] is a [string] whose characters are code points below
      256.  On that range the decimal digits matched by [\d] are exactly
      ['0'..'9'], and [str.strip] / [str.lower] are as tabulated below.
    - JSON numbers are integers ([Z]).  [int()] on a run of digits is
      decimal conversion, refused with ValueError when the run has more
      than 4300 digits (CPython 3.11 and later, default settings).
    - A dict is an association list in insertion order, as Python keeps it.
    - Every function that logs, talks to the network, a browser or a file
      runs in the monad [M]: a trace of events together with either a value
      or a raised exception.
    - Records are distinct dict objects (the drivers build or parse one per
      entry), so the in-place update [submission[k] = v] is a value update.
    - Worker tasks run concurrently; the trace lists the events of a task
      where its future is collected, in completion order. *)

From Stdlib Require Import ZArith List String Ascii Bool Lia Permutation.
From Stdlib Require Import DecimalString.
Import ListNotations.

Open Scope string_scope.
Open Scope Z_scope.
Open Scope list_scope.

(* ------------------------------------------------------------------ *)
(** ** Python values *)

#[warnings="-register-all"]
Inductive value : Type :=
| VNone
| VBool (b : bool)
| VInt (z : Z)
| VStr (s : string)
| VList (l : list value)
| VDict (d : list (string * value)).

(** Exceptions, all of them subclasses of [Exception]. *)
Inductive exn : Type :=
| AttributeError
| TypeError
| ValueError
| RequestException
| JSONDecodeError
| WebDriverException
| OSError.

Inductive result (A : Type) : Type :=
| Ok (a : A)
| Raise (e : exn).
Arguments Ok {A} a.
Arguments Raise {A} e.

(** [bool(v)], the test of [if v:]. *)
Definition truthy (v : value) : bool :=
  match v with
  | VNone => false
  | VBool b => b
  | VInt z => negb (z =? 0)
  | VStr s => negb (String.eqb s "")
  | VList l => match l with [] => false | _ :: _ => true end
  | VDict d => match d with [] => false | _ :: _ => true end
  end.

Definition is_none (v : value) : bool :=
  match v with VNone => true | _ => false end.

(** *** Dicts *)

Fixpoint dict_get (k : string) (d : list (string * value)) : option value :=
  match d with
  | [] => None
  | (k', v) :: rest => if String.eqb k k' then Some v else dict_get k rest
  end.

(** [d[k] = v]: an existing key keeps its position, a new one goes last. *)
Fixpoint dict_set (k : string) (v : value) (d : list (string * value))
  : list (string * value) :=
  match d with
  | [] => [(k, v)]
  | (k', v') :: rest =>
      if String.eqb k k' then (k', v) :: rest else (k', v') :: dict_set k v rest
  end.

Definition dict_keys (d : list (string * value)) : list string := map fst d.

(** [obj.get(key, default)]; only dicts have the method. *)
Definition py_get (obj : value) (key : string) (default : value) : result value :=
  match obj with
  | VDict d => Ok (match dict_get key d with Some v => v | None => default end)
  | _ => Raise AttributeError
  end.

(** [obj[key] = v] with a string key. *)
Definition py_setitem (obj : value) (key : string) (v : value) : result value :=
  match obj with
  | VDict d => Ok (VDict (dict_set key v d))
  | _ => Raise TypeError
  end.

(** [len(obj)]. *)
Definition py_len (obj : value) : result Z :=
  match obj with
  | VStr s => Ok (Z.of_nat (String.length s))
  | VList l => Ok (Z.of_nat (List.length l))
  | VDict d => Ok (Z.of_nat (List.length d))
  | _ => Raise TypeError
  end.

Fixpoint chars (s : string) : list value :=
  match s with
  | EmptyString => []
  | String c rest => VStr (String c EmptyString) :: chars rest
  end.

(** The items [list.extend(obj)] appends. *)
Definition py_iter (obj : value) : result (list value) :=
  match obj with
  | VList l => Ok l
  | VStr s => Ok (chars s)
  | VDict d => Ok (map VStr (dict_keys d))
  | _ => Raise TypeError
  end.

(** [obj + 1 ] as [range] needs it: an int (a bool is one). *)
Definition py_succ (obj : value) : result Z :=
  match obj with
  | VInt z => Ok (z + 1)
  | VBool b => Ok (Z.b2z b + 1)
  | _ => Raise TypeError
  end.

(** [range(start, stop)]. *)
Definition range (start stop : Z) : list Z :=
  map (fun i => start + Z.of_nat i) (seq 0 (Z.to_nat (stop - start))).

(** *** Strings *)

Definition is_digit (c : ascii) : bool :=
  let n := nat_of_ascii c in (48 <=? n)%nat && (n <=? 57)%nat.

(** [str.isspace] on one character. *)
Definition is_space (c : ascii) : bool :=
  let n := nat_of_ascii c in
  ((9 <=? n)%nat && (n <=? 13)%nat) || ((28 <=? n)%nat && (n <=? 32)%nat)
  || (n =? 133)%nat || (n =? 160)%nat.

Definition lower_char (c : ascii) : ascii :=
  let n := nat_of_ascii c in
  if ((65 <=? n)%nat && (n <=? 90)%nat)
     || ((192 <=? n)%nat && (n <=? 222)%nat && negb (n =? 215)%nat)
  then ascii_of_nat (n + 32) else c.

(** [s.lower()]. *)
Fixpoint lower (s : string) : string :=
  match s with
  | EmptyString => EmptyString
  | String c rest => String (lower_char c) (lower rest)
  end.

Fixpoint lstrip (s : string) : string :=
  match s with
  | EmptyString => EmptyString
  | String c rest => if is_space c then lstrip rest else s
  end.

Fixpoint rstrip (s : string) : string :=
  match s with
  | EmptyString => EmptyString
  | String c rest =>
      match rstrip rest with
      | EmptyString => if is_space c then EmptyString else String c EmptyString
      | r => String c r
      end
  end.

(** [s.strip()]. *)
Definition strip (s : string) : string := rstrip (lstrip s).

(** [obj.strip()]; only a str has the method. *)
Definition py_strip (obj : value) : result string :=
  match obj with
  | VStr s => Ok (strip s)
  | _ => Raise AttributeError
  end.

(** *** [re.search(r'(\d+)', text)] and [int(match.group(1))] *)

Fixpoint take_digits (s : string) : string :=
  match s with
  | EmptyString => EmptyString
  | String c rest => if is_digit c then String c (take_digits rest) else EmptyString
  end.

(** The group of the leftmost match: the scan stops at the first digit and
    the greedy [+] takes every digit that follows it. *)
Fixpoint re_search_digits (text : string) : option string :=
  match text with
  | EmptyString => None
  | String c rest =>
      if is_digit c then Some (String c (take_digits rest))
      else re_search_digits rest
  end.

Definition digit_value (c : ascii) : Z := Z.of_nat (nat_of_ascii c) - 48.

Fixpoint int_acc (acc : Z) (s : string) : Z :=
  match s with
  | EmptyString => acc
  | String c rest => int_acc (10 * acc + digit_value c) rest
  end.

(** The number a run of digits denotes. *)
Definition int_of_digits (s : string) : Z := int_acc 0 s.

(** [int(s)] on a run of digits.  Every digit counts towards the limit,
    leading zeros included. *)
Definition MAX_STR_DIGITS : nat := 4300.

Definition py_int (digits : string) : result Z :=
  if (MAX_STR_DIGITS <? String.length digits)%nat then Raise ValueError
  else Ok (int_of_digits digits).

(** *** [str(v)] *)

Definition str_of_int (z : Z) : string := NilZero.string_of_int (Z.to_int z).

Definition quote1 : ascii := ascii_of_nat 39.
Definition quote2 : ascii := ascii_of_nat 34.
Definition backslash : ascii := ascii_of_nat 92.

Fixpoint contains (c : ascii) (s : string) : bool :=
  match s with
  | EmptyString => false
  | String c' rest => Ascii.eqb c c' || contains c rest
  end.

Definition hex_digit (n : nat) : ascii :=
  if (n <? 10)%nat then ascii_of_nat (48 + n) else ascii_of_nat (87 + n).

Definition printable (n : nat) : bool :=
  ((32 <=? n)%nat && (n <? 127)%nat) || ((161 <=? n)%nat && negb (n =? 173)%nat).

Definition repr_char (q c : ascii) : string :=
  let n := nat_of_ascii c in
  if Ascii.eqb c q || Ascii.eqb c backslash then String backslash (String c EmptyString)
  else if (n =? 9)%nat then String backslash "t"
  else if (n =? 10)%nat then String backslash "n"
  else if (n =? 13)%nat then String backslash "r"
  else if printable n then String c EmptyString
  else String backslash
         (String "x" (String (hex_digit (n / 16)) (String (hex_digit (n mod 16)) EmptyString))).

Fixpoint repr_chars (q : ascii) (s : string) : string :=
  match s with
  | EmptyString => EmptyString
  | String c rest => (repr_char q c ++ repr_chars q rest)%string
  end.

(** [repr(s)] of a str. *)
Definition repr_str (s : string) : string :=
  let q := if contains quote1 s && negb (contains quote2 s) then quote2 else quote1 in
  String q (repr_chars q s ++ String q EmptyString)%string.

Fixpoint join (sep : string) (l : list string) : string :=
  match l with
  | [] => EmptyString
  | [x] => x
  | x :: rest => (x ++ sep ++ join sep rest)%string
  end.

Fixpoint repr (v : value) : string :=
  match v with
  | VNone => "None"
  | VBool true => "True"
  | VBool false => "False"
  | VInt z => str_of_int z
  | VStr s => repr_str s
  | VList l => ("[" ++ join ", " (map repr l) ++ "]")%string
  | VDict d =>
      ("{" ++ join ", " (map (fun kv => repr_str (fst kv) ++ ": " ++ repr (snd kv)) d)
           ++ "}")%string
  end.

(** [str(v)], also what [format] and an f-string placeholder insert. *)
Definition str (v : value) : string :=
  match v with
  | VStr s => s
  | _ => repr v
  end.

(* ------------------------------------------------------------------ *)
(** ** Events and the monad of effects *)

Inductive level : Type := INFO | WARNING | ERROR.

(** A placeholder of a log message: a value or the caught exception. *)
Inductive arg : Type :=
| V (v : value)
| E (e : exn).

Inductive event : Type :=
| Log (lvl : level) (text : string) (args : list arg)
    (* a log record: the message template as the source has it and the
       values of its placeholders, in order *)
| HttpGet (page : Z)                     (* requests.get on the listing endpoint *)
| StartSession (url : value)             (* webdriver.Chrome(...) for one detail task *)
| Navigate (url : value)                 (* driver.get(url) *)
| WriteRow (file : string) (cells : list string)   (* one row handed to the csv writer *)
| WriteLine (file : string) (line : string).       (* f.write(line + newline) *)

Definition M (A : Type) : Type := (list event * result A)%type.

Definition ret {A} (a : A) : M A := ([], Ok a).
Definition raise {A} (e : exn) : M A := ([], Raise e).
Definition lift {A} (r : result A) : M A := ([], r).
Definition emit (ev : event) : M unit := ([ev], Ok tt).
Definition log (lvl : level) (text : string) (args : list arg) : M unit :=
  emit (Log lvl text args).

Definition bind {A B} (m : M A) (k : A -> M B) : M B :=
  match m with
  | (t, Ok a) => let (t', r) := k a in (t ++ t', r)
  | (t, Raise e) => (t, Raise e)
  end.

(** [try: m  except Exception as e: handler e]. *)
Definition try_except {A} (m : M A) (handler : exn -> M A) : M A :=
  match m with
  | (t, Ok a) => (t, Ok a)
  | (t, Raise e) => let (t', r) := handler e in (t ++ t', r)
  end.

Declare Scope monad_scope.
Delimit Scope monad_scope with monad.
Notation "x <- m ;; k" := (bind m (fun x => k))
  (at level 61, m at next level, right associativity) : monad_scope.
Notation "m ;; k" := (bind m (fun _ => k))
  (at level 61, right associativity) : monad_scope.
Open Scope monad_scope.

(** A [for] loop that threads an accumulator. *)
Fixpoint foldM {A S : Type} (f : S -> A -> M S) (l : list A) (s : S) : M S :=
  match l with
  | [] => ret s
  | x :: rest => s' <- f s x ;; foldM f rest s'
  end.

Definition trace {A} (m : M A) : list event := fst m.
Definition outcome {A} (m : M A) : result A := snd m.

(* ------------------------------------------------------------------ *)
(** ** The vote-scanning loop

    [for idx, votes_text in enumerate(votes_texts, start=1): ...] of
    harv.py (lines 145-154) and harv_titles_votes.py (lines 148-157).  The
    two copies differ only in the indentation of their log messages. *)

Fixpoint scan_votes (indent : string) (idx : Z) (votes_texts : list string) : M value :=
  match votes_texts with
  | [] => ret VNone
  | votes_text :: rest =>
      log INFO (indent ++ " - Element {idx}: '{votes_text}'")
          [V (VInt idx); V (VStr votes_text)] ;;
      match re_search_digits votes_text with
      | Some group1 =>
          n <- lift (py_int group1) ;;
          let votes := VInt n in
          log INFO (indent ++ "   - Extracted Votes: {votes}") [V votes] ;;
          ret votes                                              (* break *)
      | None =>
          log WARNING (indent ++ "   - No numerical votes found in this element.") [] ;;
          scan_votes indent (idx + 1) rest
      end
  end.

(* ------------------------------------------------------------------ *)
(** ** The environment

    Everything the scripts receive from outside: the replies of the listing
    API, the order in which pool tasks complete, what the browser shows for
    a detail page, and whether the output files can be opened. *)

(** [requests.get(...)]: it raises, or gives a response with a status code
    and a body that [response.json()] decodes or rejects. *)
Inductive http_reply : Type :=
| HttpError (e : exn)
| HttpReply (status_code : Z) (json : result value).

(** One rendering session (a Chrome driver) opened on a detail page. *)
Record session : Type := {
  cdp : result unit;                       (* driver.execute_cdp_cmd(...) of the init try *)
  navigate : result unit;                  (* driver.get(url) *)
  script_texts : result (list string);     (* the querySelectorAll script of harv.py *)
  title_text : result string;              (* find_element('div.css-1w984ju').text *)
  elements_text : result (list string);    (* .text of each 'div.css-tumkbo' element *)
  save_source : result unit;               (* writing driver.page_source to the debug file *)
  quit : result unit                       (* driver.quit() *)
}.

(** [webdriver.Chrome(...)]: it raises, or gives a running driver. *)
Inductive launch : Type :=
| LaunchError (e : exn)
| Launched (driver : session).

Record world : Type := {
  first_page : http_reply;                 (* the reply to main's own request for page 1 *)
  listing : Z -> http_reply;               (* the reply to the pool's request for a page *)
  completion : forall A : Type, list A -> list A;   (* as_completed: submitted -> completed *)
  install : value -> result unit;          (* Service(ChromeDriverManager().install()) of
                                              the detail task for a url *)
  browser : value -> launch;               (* webdriver.Chrome(...) of that task *)
  open_csv : result unit;                  (* open(<csv file>, 'w') *)
  open_urls : result unit                  (* open('submission_urls.txt', 'w') *)
}.

(** Every submitted future completes exactly once. *)
Definition fair (w : world) : Prop :=
  forall (A : Type) (l : list A), Permutation (completion w A l) l.

(** The body of the first [try] of a detail task (harv.py lines 119-128,
    harv_titles_votes.py lines 106-115): the driver binary is installed,
    Chrome is started, and a CDP command is sent to the started driver.
    [StartSession] is the call of [webdriver.Chrome]. *)
Definition start_driver (w : world) (url : value) : M session :=
  lift (install w url) ;;
  emit (StartSession url) ;;
  match browser w url with
  | LaunchError e => raise e
  | Launched driver =>
      lift (cdp driver) ;;
      ret driver
  end.

(* ------------------------------------------------------------------ *)
(** ** The listing stage (the same code in both scripts)

    harv_titles_votes.py passes [headers] and [max_threads] along and wraps
    the loop in a progress bar; none of it changes what is computed. *)

(** The body of the [try] of fetch_page. *)
Definition fetch_page_try (w : world) (page_number : Z) : M value :=
  emit (HttpGet page_number) ;;
  match listing w page_number with
  | HttpError e => raise e
  | HttpReply status_code json =>
      if negb (status_code =? 200) then
        log ERROR "Failed to retrieve page {page_number}: Status code {response.status_code}"
            [V (VInt page_number); V (VInt status_code)] ;;
        ret (VList [])
      else
        data <- lift json ;;
        submissions <- lift (py_get data "data" (VList [])) ;;
        n <- lift (py_len submissions) ;;
        log INFO "Page {page_number}: Retrieved {len(submissions)} submissions."
            [V (VInt page_number); V (VInt n)] ;;
        ret submissions
  end.

Definition fetch_page (w : world) (page_number : Z) : M value :=
  try_except (fetch_page_try w page_number)
    (fun e =>
       log ERROR "Exception while fetching page {page_number}: {e}"
           [V (VInt page_number); E e] ;;
       ret (VList [])).

(** The loop over [as_completed(...)]: one step per completed future. *)
Definition collect_page (all_submissions : list value) (task : Z * M value)
  : M (list value) :=
  let (page, future) := task in
  try_except
    (submissions <- future ;;
     items <- lift (py_iter submissions) ;;
     ret (all_submissions ++ items))
    (fun e =>
       log ERROR "Error processing page {page}: {e}" [V (VInt page); E e] ;;
       ret all_submissions).

Definition fetch_all_submissions (w : world) (total_pages : value) : M (list value) :=
  stop <- lift (py_succ total_pages) ;;
  let futures := map (fun page => (page, fetch_page w page)) (range 1 stop) in
  foldM collect_page (completion w _ futures) [].

(* ------------------------------------------------------------------ *)
(** ** csv.DictWriter *)

(** [DictWriter._dict_to_list] with the default [extrasaction='raise'] and
    [restval='']. *)
Definition dict_to_list (fieldnames : list string) (rowdict : value)
  : result (list value) :=
  match rowdict with
  | VDict d =>
      if forallb (fun k => existsb (String.eqb k) fieldnames) (dict_keys d)
      then Ok (map (fun key => match dict_get key d with
                               | Some v => v
                               | None => VStr EmptyString
                               end) fieldnames)
      else Raise ValueError
  | _ => Raise AttributeError
  end.

(** The text the csv writer puts in a cell (quoting apart): [None] is
    written as the empty string, anything else as its [str]. *)
Definition csv_field (v : value) : string :=
  match v with
  | VNone => EmptyString
  | _ => str v
  end.

Definition writeheader (file : string) (fieldnames : list string) : M unit :=
  emit (WriteRow file fieldnames).

Definition writerow (file : string) (fieldnames : list string) (rowdict : value)
  : M unit :=
  row <- lift (dict_to_list fieldnames rowdict) ;;
  emit (WriteRow file (map csv_field row)).

(** [writerows]: rows are converted and written one after the other. *)
Definition writerows (file : string) (fieldnames : list string) (rowdicts : list value)
  : M unit :=
  foldM (fun _ rowdict => writerow file fieldnames rowdict) rowdicts tt.

(* ------------------------------------------------------------------ *)
(** ** OLD/harv.py *)

Module Harv.

Definition SUBMISSION_URL : string := "https://editfest.filmsupply.com/submissions/".

(** [SUBMISSION_URL_TEMPLATE.format(submission_hash=h)]. *)
Definition submission_url_of (h : value) : string := (SUBMISSION_URL ++ str h)%string.

(** The [try] of extract_votes that drives the page (lines 134-157). *)
Definition extract_votes_try (driver : session) (title url : value) : M value :=
  emit (Navigate url) ;;
  lift (navigate driver) ;;
  log INFO " - Navigated to {url}" [V url] ;;
  votes_texts <- lift (script_texts driver) ;;
  log INFO "Votes Texts via JavaScript: {votes_texts}" [V (VList (map VStr votes_texts))] ;;
  votes <- scan_votes "" 1 votes_texts ;;
  (if is_none votes
   then log WARNING "No numerical votes found for '{title}'." [V title]
   else ret tt) ;;
  ret votes.

(** Its [except] (lines 159-167): the debug artifact is best effort. *)
Definition extract_votes_except (driver : session) (title : value) (e : exn) : M value :=
  log ERROR " - Could not fetch votes for '{title}': {e}" [V title; E e] ;;
  try_except
    (lift (save_source driver) ;;
     log INFO "   - Page source saved to 'page_source_error.html' for debugging." [])
    (fun save_error =>
       log ERROR "   - Failed to save page source: {save_error}" [E save_error]) ;;
  ret VNone.

(** Its [finally] (lines 169-174). *)
Definition close_driver (driver : session) (title : value) : M unit :=
  try_except
    (lift (quit driver) ;;
     log INFO " - Closed WebDriver for '{title}'." [V title])
    (fun e_quit =>
       log ERROR " - Error closing WebDriver for '{title}': {e_quit}" [V title; E e_quit]).

Definition extract_votes (w : world) (submission : value) : M value :=
  title <- lift (py_get submission "title" (VStr "No Title")) ;;
  name <- lift (py_get submission "name" (VStr "No Name")) ;;
  url <- lift (py_get submission "url" VNone) ;;
  log INFO "Fetching votes for '{title}' by {name}..." [V title; V name] ;;
  started <- try_except
               (driver <- start_driver w url ;;
                ret (Some driver))
               (fun e =>
                  log ERROR "Error initializing WebDriver for '{title}': {e}"
                      [V title; E e] ;;
                  ret None) ;;
  match started with
  | None =>                                   (* return submission, votes None *)
      lift (py_setitem submission "votes" VNone)
  | Some driver =>
      votes <- try_except (extract_votes_try driver title url)
                          (extract_votes_except driver title) ;;
      close_driver driver title ;;
      lift (py_setitem submission "votes" votes)
  end.

(** One step of the loop over [as_completed(...)] (lines 192-200). *)
Definition collect_votes (updated_submissions : list value) (task : M value * value)
  : M (list value) :=
  let (future, submission) := task in
  try_except
    (updated_submission <- future ;;
     ret (updated_submissions ++ [updated_submission]))
    (fun e =>
       title <- lift (py_get submission "title" (VStr "No Title")) ;;
       log ERROR "Exception occurred while fetching votes for '{submission.get('title', 'No Title')}': {e}"
           [V title; E e] ;;
       submission' <- lift (py_setitem submission "votes" VNone) ;;
       ret (updated_submissions ++ [submission'])).

Definition extract_all_votes (w : world) (submissions : list value) : M (list value) :=
  let futures := map (fun submission => (extract_votes w submission, submission))
                     submissions in
  foldM collect_votes (completion w _ futures) [].

(** Step 1 of main (lines 205-216): [Some last_page], or [None] when main
    returns early. *)
Definition discover (w : world) : M (option value) :=
  try_except
    (emit (HttpGet 1) ;;
     match first_page w with
     | HttpError e => raise e
     | HttpReply status_code json =>
         if negb (status_code =? 200) then
           log ERROR "Failed to retrieve page 1: Status code {response.status_code}"
               [V (VInt status_code)] ;;
           ret None
         else
           data <- lift json ;;
           meta <- lift (py_get data "meta" (VDict [])) ;;
           last_page <- lift (py_get meta "last_page" (VInt 1)) ;;
           log INFO "Total pages to fetch: {last_page}" [V last_page] ;;
           ret (Some last_page)
     end)
    (fun e =>
       log ERROR "Exception while fetching the first page: {e}" [E e] ;;
       ret None).

(** Step 3 of main (lines 224-241), one entry.  The state is the pair of
    module-level lists [submissions_data] and [submission_urls]. *)
Definition prepare_one (state : list value * list string) (submission : value)
  : M (list value * list string) :=
  let (submissions_data, submission_urls) := state in
  submission_hash <- lift (py_get submission "hash" VNone) ;;
  title <- lift (py_get submission "title" (VStr "No Title")) ;;
  name <- lift (py_get submission "name" (VStr "No Name")) ;;
  category <- lift (py_get submission "category" (VStr "No Category")) ;;
  if truthy submission_hash then
    let submission_url := submission_url_of submission_hash in
    log INFO " - Added submission: {title} by {name}" [V title; V name] ;;
    ret (submissions_data
           ++ [VDict [("url", VStr submission_url); ("title", title); ("name", name);
                      ("category", category); ("hash", submission_hash)]],
         submission_urls ++ [submission_url])
  else
    log WARNING "Submission without hash found: {submission}" [V submission] ;;
    ret state.

Definition prepare (all_submissions : list value) (state : list value * list string)
  : M (list value * list string) :=
  foldM prepare_one all_submissions state.

Definition keys : list string := ["url"; "title"; "name"; "category"; "votes"].

(** Step 5 of main (lines 250-260). *)
Definition save_csv (w : world) (updated_submissions : list value) : M unit :=
  log INFO "\nSaving submission data to 'submissions.csv'..." [] ;;
  try_except
    (lift (open_csv w) ;;
     writeheader "submissions.csv" keys ;;
     writerows "submissions.csv" keys updated_submissions ;;
     log INFO "Submission data has been saved to 'submissions.csv'." [])
    (fun e => log ERROR "Error writing to CSV: {e}" [E e]).

(** Step 6 of main (lines 262-270). *)
Definition save_urls (w : world) (submission_urls : list string) : M unit :=
  log INFO "\nSaving submission URLs to 'submission_urls.txt'..." [] ;;
  try_except
    (lift (open_urls w) ;;
     foldM (fun _ url => emit (WriteLine "submission_urls.txt" url)) submission_urls tt ;;
     log INFO "Submission URLs have been saved to 'submission_urls.txt'." [])
    (fun e => log ERROR "Error writing submission URLs to text file: {e}" [E e]).

(** Steps 2 to 6 of main, once the page count is known. *)
Definition harvest (w : world) (last_page : value) : M unit :=
  log INFO "Fetching all submissions..." [] ;;
  all_submissions <- fetch_all_submissions w last_page ;;
  log INFO "Total submissions collected: {len(all_submissions)}"
      [V (VInt (Z.of_nat (List.length all_submissions)))] ;;
  state <- prepare all_submissions ([], []) ;;
  log INFO "\nTotal submissions prepared for votes extraction: {len(submissions_data)}"
      [V (VInt (Z.of_nat (List.length (fst state))))] ;;
  log INFO "\nStarting to fetch votes using threading..." [] ;;
  updated_submissions <- extract_all_votes w (fst state) ;;
  log INFO "\nAll votes have been fetched." [] ;;
  save_csv w updated_submissions ;;
  save_urls w (snd state) ;;
  log INFO "\nScraping completed successfully!" [].

Definition main (w : world) : M unit :=
  last_page <- discover w ;;
  match last_page with
  | None => ret tt                                   (* return *)
  | Some last_page => harvest w last_page
  end.

End Harv.

(* ------------------------------------------------------------------ *)
(** ** OLD/harv_titles_votes.py *)

Module HarvTitlesVotes.

Definition SUBMISSION_URL : string := "https://editfest.filmsupply.com/submissions/".

(** Title extraction (lines 130-141). *)
Definition extract_title (driver : session) (submission_url : string) : M value :=
  try_except
    (raw <- lift (title_text driver) ;;
     let title_text := strip raw in
     log INFO " - Title Text Found: '{title_text}'" [V (VStr title_text)] ;;
     if truthy (VStr title_text) then
       log INFO "   - Extracted Title: {title}" [V (VStr title_text)] ;;
       ret (VStr title_text)
     else
       log WARNING "   - Title text is empty for {submission_url}" [V (VStr submission_url)] ;;
       ret VNone)
    (fun e_title =>
       log ERROR "   - Error extracting title for {submission_url}: {e_title}"
           [V (VStr submission_url); E e_title] ;;
       ret VNone).

(** Votes extraction (lines 144-162). *)
Definition extract_votes (driver : session) (submission_url : string) : M value :=
  try_except
    (raw <- lift (elements_text driver) ;;
     let votes_texts := map strip raw in
     log INFO " - Votes Texts Found: {votes_texts}" [V (VList (map VStr votes_texts))] ;;
     votes <- scan_votes "  " 1 votes_texts ;;
     (if is_none votes
      then log WARNING "No numerical votes found for '{submission_url}'."
               [V (VStr submission_url)]
      else ret tt) ;;
     ret votes)
    (fun e_votes =>
       log ERROR "   - Error extracting votes for {submission_url}: {e_votes}"
           [V (VStr submission_url); E e_votes] ;;
       ret VNone).

(** The outer [try] (lines 122-162): the pair (title, votes) it leaves. *)
Definition details_try (driver : session) (submission_url : string)
  : M (value * value) :=
  emit (Navigate (VStr submission_url)) ;;
  lift (navigate driver) ;;
  log INFO " - Navigated to {submission_url}" [V (VStr submission_url)] ;;
  title <- extract_title driver submission_url ;;
  votes <- extract_votes driver submission_url ;;
  ret (title, votes).

(** Its [except] (lines 164-172). *)
Definition details_except (driver : session) (submission_hash : value)
           (submission_url : string) (e : exn)
  : M (value * value) :=
  log ERROR " - Error processing submission {submission_url}: {e}"
      [V (VStr submission_url); E e] ;;
  try_except
    (lift (save_source driver) ;;
     log INFO "   - Page source saved to 'page_source_error_{submission_hash}.html' for debugging."
         [V submission_hash])
    (fun save_error =>
       log ERROR "   - Failed to save page source for {submission_url}: {save_error}"
           [V (VStr submission_url); E save_error]) ;;
  ret (VNone, VNone).

(** Its [finally] (lines 174-179). *)
Definition close_driver (driver : session) (submission_url : string) : M unit :=
  try_except
    (lift (quit driver) ;;
     log INFO " - Closed WebDriver for {submission_url}." [V (VStr submission_url)])
    (fun e_quit =>
       log ERROR " - Error closing WebDriver for {submission_url}: {e_quit}"
           [V (VStr submission_url); E e_quit]).

Definition extract_submission_details (w : world) (submission : value) : M value :=
  submission_hash <- lift (py_get submission "hash" VNone) ;;
  let submission_url := (SUBMISSION_URL ++ str submission_hash)%string in
  log INFO "Processing submission: {submission_url}" [V (VStr submission_url)] ;;
  started <- try_except
               (driver <- start_driver w (VStr submission_url) ;;
                ret (Some driver))
               (fun e =>
                  log ERROR "Error initializing WebDriver for {submission_url}: {e}"
                      [V (VStr submission_url); E e] ;;
                  ret None) ;;
  match started with
  | None =>                                   (* return submission, both None *)
      s1 <- lift (py_setitem submission "title" VNone) ;;
      lift (py_setitem s1 "votes" VNone)
  | Some driver =>
      found <- try_except (details_try driver submission_url)
                          (details_except driver submission_hash submission_url) ;;
      close_driver driver submission_url ;;
      s1 <- lift (py_setitem submission "title" (fst found)) ;;
      s2 <- lift (py_setitem s1 "votes" (snd found)) ;;
      lift (py_setitem s2 "url" (VStr submission_url))
  end.

(** One step of the loop over [as_completed(...)] (lines 215-224). *)
Definition collect_details (updated_submissions : list value) (task : M value * value)
  : M (list value) :=
  let (future, submission) := task in
  try_except
    (updated_submission <- future ;;
     ret (updated_submissions ++ [updated_submission]))
    (fun e =>
       h <- lift (py_get submission "hash" (VStr "No Hash")) ;;
       log ERROR "Exception occurred while extracting details for submission {submission.get('hash', 'No Hash')}: {e}"
           [V h; E e] ;;
       s1 <- lift (py_setitem submission "title" VNone) ;;
       s2 <- lift (py_setitem s1 "votes" VNone) ;;
       ret (updated_submissions ++ [s2])).

Definition extract_all_submission_details (w : world) (submissions : list value)
  : M (list value) :=
  let futures := map (fun submission => (extract_submission_details w submission, submission))
                     submissions in
  foldM collect_details (completion w _ futures) [].

(** Step 1 of main (lines 238-249): [Some last_page], or [None] when main
    returns early. *)
Definition discover (w : world) : M (option value) :=
  try_except
    (emit (HttpGet 1) ;;
     match first_page w with
     | HttpError e => raise e
     | HttpReply status_code json =>
         if negb (status_code =? 200) then
           log ERROR "Failed to retrieve the first page: Status code {response.status_code}"
               [V (VInt status_code)] ;;
           ret None
         else
           data <- lift json ;;
           meta <- lift (py_get data "meta" (VDict [])) ;;
           last_page <- lift (py_get meta "last_page" (VInt 1)) ;;
           log INFO "Total pages to fetch: {last_page}" [V last_page] ;;
           ret (Some last_page)
     end)
    (fun e =>
       log ERROR "Exception while fetching the first page: {e}" [E e] ;;
       ret None).

(** Step 3 of main (lines 258-268), one entry. *)
Definition prepare_one (submissions_data : list value) (submission : value)
  : M (list value) :=
  submission_hash <- lift (py_get submission "hash" VNone) ;;
  raw <- lift (py_get submission "category" (VStr EmptyString)) ;;
  category <- lift (py_strip raw) ;;
  title <- lift (py_get submission "title" (VStr "No Title")) ;;
  name <- lift (py_get submission "name" (VStr "No Name")) ;;
  if truthy submission_hash && String.eqb (lower category) "title sequence" then
    log INFO " - Added submission: {submission.get('title', 'No Title')} by {submission.get('name', 'No Name')} [Category: {category}]"
        [V title; V name; V (VStr category)] ;;
    ret (submissions_data ++ [submission])
  else if negb (truthy submission_hash) then
    log WARNING "Submission without hash found: {submission}" [V submission] ;;
    ret submissions_data
  else if negb (String.eqb (lower category) "title sequence") then
    log INFO " - Skipping submission: {submission.get('title', 'No Title')} by {submission.get('name', 'No Name')} [Category: {category}]"
        [V title; V name; V (VStr category)] ;;
    ret submissions_data
  else ret submissions_data.

Definition prepare (all_submissions : list value) : M (list value) :=
  foldM prepare_one all_submissions [].

Definition keys : list string := ["url"; "title"; "votes"; "name"; "category"; "hash"].

(** [row = {key: submission.get(key, '') for key in keys}] (line 286). *)
Definition row_of (submission : value) : result value :=
  match submission with
  | VDict d =>
      Ok (VDict (fold_left
                   (fun row key =>
                      dict_set key (match dict_get key d with
                                    | Some v => v
                                    | None => VStr EmptyString
                                    end) row)
                   keys []))
  | _ => Raise AttributeError
  end.

(** Step 5 of main (lines 277-290). *)
Definition save_csv (w : world) (updated_submissions : list value) : M unit :=
  log INFO "\nSaving submission data to 'titles_votes.csv'..." [] ;;
  try_except
    (lift (open_csv w) ;;
     writeheader "titles_votes.csv" keys ;;
     foldM (fun _ submission =>
              row <- lift (row_of submission) ;;
              writerow "titles_votes.csv" keys row)
           updated_submissions tt ;;
     log INFO "Submission data has been saved to 'titles_votes.csv'." [])
    (fun e => log ERROR "Error writing to CSV: {e}" [E e]).

(** Step 6 of main (lines 292-300). *)
Definition save_urls (w : world) (updated_submissions : list value) : M unit :=
  log INFO "\nSaving submission URLs to 'submission_urls.txt'..." [] ;;
  try_except
    (lift (open_urls w) ;;
     foldM (fun _ submission =>
              url <- lift (py_get submission "url" (VStr "No URL")) ;;
              emit (WriteLine "submission_urls.txt" (str url)))
           updated_submissions tt ;;
     log INFO "Submission URLs have been saved to 'submission_urls.txt'." [])
    (fun e => log ERROR "Error writing submission URLs to text file: {e}" [E e]).

(** Steps 2 to 6 of main, once the page count is known. *)
Definition harvest (w : world) (last_page : value) : M unit :=
  log INFO "Fetching all submissions..." [] ;;
  all_submissions <- fetch_all_submissions w last_page ;;
  log INFO "Total submissions collected: {len(all_submissions)}"
      [V (VInt (Z.of_nat (List.length all_submissions)))] ;;
  submissions_data <- prepare all_submissions ;;
  log INFO "\nTotal submissions prepared for title and votes extraction: {len(submissions_data)}"
      [V (VInt (Z.of_nat (List.length submissions_data)))] ;;
  log INFO "\nStarting to extract titles and votes using threading..." [] ;;
  updated_submissions <- extract_all_submission_details w submissions_data ;;
  log INFO "\nAll titles and votes have been extracted." [] ;;
  save_csv w updated_submissions ;;
  save_urls w updated_submissions ;;
  log INFO "\nScraping completed successfully!" [].

Definition main (w : world) : M unit :=
  last_page <- discover w ;;
  match last_page with
  | None => ret tt                                   (* return *)
  | Some last_page => harvest w last_page
  end.

End HarvTitlesVotes.

(* ------------------------------------------------------------------ *)
(** ** Vocabulary of the properties

    Predicates and functions the statements below are written with, and
    the sample data of their closed instances. *)

Fixpoint has_digit (s : string) : bool :=
  match s with
  | EmptyString => false
  | String c rest => is_digit c || has_digit rest
  end.

Fixpoint all_digits (s : string) : bool :=
  match s with
  | EmptyString => true
  | String c rest => is_digit c && all_digits rest
  end.

Definition starts_with_digit (s : string) : bool :=
  match s with
  | EmptyString => false
  | String c _ => is_digit c
  end.

(** [run] is the first run of decimal digits of [text]: nothing before it
    is a digit, it is a non-empty block of digits, and it cannot be
    extended to the right. *)
Definition first_digit_run (text run : string) : Prop :=
  exists pre post,
    text = (pre ++ run ++ post)%string
    /\ has_digit pre = false
    /\ all_digits run = true
    /\ run <> EmptyString
    /\ starts_with_digit post = false.

(** What the scanning loop does, as a function of the texts: the first text
    with a digit decides, and the conversion of its first run may be
    refused. *)
Fixpoint scan_result (votes_texts : list string) : result value :=
  match votes_texts with
  | [] => Ok VNone
  | votes_text :: rest =>
      match re_search_digits votes_text with
      | Some group1 =>
          match py_int group1 with
          | Ok n => Ok (VInt n)
          | Raise e => Raise e
          end
      | None => scan_result rest
      end
  end.

(** The votes an extractor is left with after the loop: the [try] around
    the loop catches a refused conversion and votes stays None. *)
Definition first_votes (votes_texts : list string) : value :=
  match scan_result votes_texts with
  | Ok votes => votes
  | Raise _ => VNone
  end.

(** The outcome of the first [try] of a detail task. *)
Definition init (w : world) (url : value) : launch :=
  match install w url with
  | Raise e => LaunchError e
  | Ok _ =>
      match browser w url with
      | LaunchError e => LaunchError e
      | Launched driver =>
          match cdp driver with
          | Raise e => LaunchError e
          | Ok _ => Launched driver
          end
      end
  end.

Definition field (k : string) (d : list (string * value)) (default : value) : value :=
  match dict_get k d with Some v => v | None => default end.

(** The votes harv.py reads off a session. *)
Definition harv_seen_votes (l : launch) : value :=
  match l with
  | LaunchError _ => VNone
  | Launched driver =>
      match navigate driver, script_texts driver with
      | Ok _, Ok texts => first_votes texts
      | _, _ => VNone
      end
  end.

(** The title and the votes harv_titles_votes.py reads off a session. *)
Definition htv_title_of (title_text : result string) : value :=
  match title_text with
  | Ok raw => if truthy (VStr (strip raw)) then VStr (strip raw) else VNone
  | Raise _ => VNone
  end.

Definition htv_votes_of (elements_text : result (list string)) : value :=
  match elements_text with
  | Ok raw => first_votes (map strip raw)
  | Raise _ => VNone
  end.

Definition htv_seen (driver : session) : value * value :=
  match navigate driver with
  | Ok _ => (htv_title_of (title_text driver), htv_votes_of (elements_text driver))
  | Raise _ => (VNone, VNone)
  end.

Definition htv_url (d : list (string * value)) : string :=
  (HarvTitlesVotes.SUBMISSION_URL ++ str (field "hash" d VNone))%string.

Definition htv_update (l : launch) (d : list (string * value)) : list (string * value) :=
  match l with
  | LaunchError _ => dict_set "votes" VNone (dict_set "title" VNone d)
  | Launched driver =>
      dict_set "url" (VStr (htv_url d))
        (dict_set "votes" (snd (htv_seen driver))
           (dict_set "title" (fst (htv_seen driver)) d))
  end.

Definition is_dict (v : value) : Prop := exists d, v = VDict d.

(** What the loop of extract_all_votes appends for one completed future. *)
Definition harv_entry (task : M value * value) : value :=
  match outcome (fst task), snd task with
  | Ok updated, _ => updated
  | Raise _, VDict d => VDict (dict_set "votes" VNone d)
  | Raise _, other => other
  end.

(** What the loop of extract_all_submission_details appends. *)
Definition htv_entry (task : M value * value) : value :=
  match outcome (fst task), snd task with
  | Ok updated, _ => updated
  | Raise _, VDict d => VDict (dict_set "votes" VNone (dict_set "title" VNone d))
  | Raise _, other => other
  end.

Definition sample_record : value :=
  VDict [("url", VStr "https://editfest.filmsupply.com/submissions/abc");
         ("title", VStr "Reel"); ("name", VStr "Ann");
         ("category", VStr "Title Sequence"); ("hash", VStr "abc")].

Definition sample_session (texts : list string) (title : string) : session :=
  {| cdp := Ok tt;
     navigate := Ok tt;
     script_texts := Ok texts;
     title_text := Ok title;
     elements_text := Ok texts;
     save_source := Ok tt;
     quit := Ok tt |}.

(** A world in which every request is answered by [reply], futures complete
    in submission order and every page shows ["Vote #3 of 120"]. *)
Definition sample_world (first : http_reply) (pages : Z -> http_reply) : world :=
  {| first_page := first;
     listing := pages;
     completion := fun _ l => l;
     install := fun _ => Ok tt;
     browser := fun _ => Launched (sample_session ["Vote #3 of 120"] " Reel ");
     open_csv := Ok tt;
     open_urls := Ok tt |}.

(** A marker text that is one run of 4301 digits, and a world whose detail
    pages show it. *)
Fixpoint repeat_char (c : ascii) (n : nat) : string :=
  match n with
  | O => EmptyString
  | S n' => String c (repeat_char c n')
  end.

Definition long_run : string := repeat_char "1"%char 4301.

Definition long_run_world : world :=
  {| first_page := HttpReply 200 (Ok (VDict []));
     listing := fun _ => HttpReply 200 (Ok (VDict []));
     completion := fun _ l => l;
     install := fun _ => Ok tt;
     browser := fun _ => Launched (sample_session [long_run] "Reel");
     open_csv := Ok tt;
     open_urls := Ok tt |}.

(** The relation the loops establish between a completed task and the entry
    it adds: the task's own result, or, when the task raised, the record
    with the fields of [forced] set to None and nothing else changed. *)
Definition kept_as (forced : list string) (task : M value * value) (u : value) : Prop :=
  match outcome (fst task) with
  | Ok updated => u = updated
  | Raise _ =>
      exists d, snd task = VDict d
                /\ u = VDict (fold_left (fun acc k => dict_set k VNone acc) forced d)
  end.

(** The entry has a hash that passes [if submission_hash:]: the key is
    there and its value is neither None nor empty. *)
Definition has_hash (e : value) : bool :=
  match e with
  | VDict d => truthy (field "hash" d VNone)
  | _ => false
  end.

Definition category_of (e : value) : string :=
  match e with
  | VDict d => match field "category" d (VStr EmptyString) with
               | VStr s => s
               | _ => EmptyString
               end
  | _ => EmptyString
  end.

(** Equality of two strings up to case. *)
Definition case_insensitive_eqb (a b : string) : bool :=
  String.eqb (lower a) (lower b).

(** An entry of the listing as the API documents it: an object whose
    category, when present, is a string. *)
Definition entry_ok (e : value) : Prop :=
  exists d, e = VDict d /\ exists s, field "category" d (VStr EmptyString) = VStr s.

Definition htv_keeps (e : value) : bool :=
  has_hash e && case_insensitive_eqb (strip (category_of e)) "Title Sequence".

Definition harv_record (e : value) : value :=
  match e with
  | VDict d =>
      VDict [("url", VStr (Harv.submission_url_of (field "hash" d VNone)));
             ("title", field "title" d (VStr "No Title"));
             ("name", field "name" d (VStr "No Name"));
             ("category", field "category" d (VStr "No Category"));
             ("hash", field "hash" d VNone)]
  | _ => VNone
  end.

Definition harv_url (e : value) : string :=
  match e with
  | VDict d => Harv.submission_url_of (field "hash" d VNone)
  | _ => EmptyString
  end.

Definition no_hash_warning (e : value) : event :=
  Log WARNING "Submission without hash found: {submission}" [V e].

Definition entry (h category : string) : value :=
  VDict [("hash", VStr h); ("title", VStr "T"); ("name", VStr "N");
         ("category", VStr category)].

(** The entries one page adds to the merged list. *)
Definition items_of (r : result value) : list value :=
  match r with
  | Ok v => match py_iter v with Ok l => l | Raise _ => [] end
  | Raise _ => []
  end.

Definition contribution (w : world) (page : Z) : list value :=
  items_of (outcome (fetch_page w page)).

(** The page's request fails: a status other than 200, or an exception
    anywhere in the [try] of fetch_page. *)
Definition page_fails (w : world) (page : Z) : Prop :=
  (exists status json, listing w page = HttpReply status json /\ status <> 200)
  \/ (exists e, outcome (fetch_page_try w page) = Raise e).

Definition is_error_log (ev : event) : Prop :=
  exists text args, ev = Log ERROR text args.

Definition hash_of (e : value) : value :=
  match e with
  | VDict d => field "hash" d VNone
  | _ => VNone
  end.

(** The hash of the entry is a string. *)
Definition string_hash (e : value) : Prop := exists s, hash_of e = VStr s.

Definition page_of (entries : list value) : http_reply :=
  HttpReply 200 (Ok (VDict [("data", VList entries);
                            ("meta", VDict [("last_page", VInt 2)])])).

(** Two pages that both list the entry with hash "abc". *)
Definition twice_listed : world :=
  sample_world (page_of [entry "abc" "Trailer"])
               (fun _ => page_of [entry "abc" "Trailer"]).

Definition three_entries : world :=
  sample_world (page_of [])
    (fun _ => page_of [entry "abc" "Trailer"; entry "" "Trailer"; entry "xyz" "Trailer"]).

(** main's own request for page 1 fails: a status other than 200, or an
    exception in the [try] of step 1 (the request, the decoding of the
    body, or a [.get] on a body or a meta that is not an object). *)
Inductive first_page_fails (w : world) : Prop :=
| fails_status (status : Z) (json : result value) :
    first_page w = HttpReply status json -> status <> 200 -> first_page_fails w
| fails_transport (e : exn) :
    first_page w = HttpError e -> first_page_fails w
| fails_decoding (e : exn) :
    first_page w = HttpReply 200 (Raise e) -> first_page_fails w
| fails_body (data : value) (e : exn) :
    first_page w = HttpReply 200 (Ok data) ->
    py_get data "meta" (VDict []) = Raise e -> first_page_fails w
| fails_meta (data meta : value) (e : exn) :
    first_page w = HttpReply 200 (Ok data) ->
    py_get data "meta" (VDict []) = Ok meta ->
    py_get meta "last_page" (VInt 1) = Raise e -> first_page_fails w.

Fixpoint gets (t : list event) : list Z :=
  match t with
  | [] => []
  | HttpGet page :: rest => page :: gets rest
  | _ :: rest => gets rest
  end.

(** The computation issues no request to the listing API. *)
Definition quiet {A} (m : M A) : Prop := gets (trace m) = [].

(** The decoded body of page 1 is an object with no "meta" key, or with a
    meta object that has no "last_page" key. *)
Definition lacks_last_page (data : value) : Prop :=
  exists d, data = VDict d
            /\ (dict_get "meta" d = None
                \/ exists m, dict_get "meta" d = Some (VDict m)
                             /\ dict_get "last_page" m = None).

(** The decoded body of page 1 has no usable meta: it is not an object, or
    its "meta" is present and not an object (null, a list, a number). *)
Definition meta_unusable (data : value) : Prop :=
  (forall d, data <> VDict d)
  \/ exists d v, data = VDict d
                 /\ dict_get "meta" d = Some v
                 /\ forall m, v <> VDict m.

(** The record step 1 logs for an exception. *)
Definition first_page_exception (e : exn) : event :=
  Log ERROR "Exception while fetching the first page: {e}" [E e].

(** Page 1 answers 200 with a body whose meta is null. *)
Definition meta_null : world :=
  sample_world (HttpReply 200 (Ok (VDict [("data", VList [sample_record]);
                                          ("meta", VNone)])))
               (fun _ => page_of [sample_record]).


Definition total_pages_log (last_page : value) : event :=
  Log INFO "Total pages to fetch: {last_page}" [V last_page].

(** The cells of the row harv_titles_votes.py writes for a record. *)
Definition htv_cells (r : value) : list string :=
  match r with
  | VDict d =>
      map (fun key => csv_field (field key d (VStr EmptyString))) HarvTitlesVotes.keys
  | _ => []
  end.

Definition htv_csv : string := "titles_votes.csv".

Definition claimed_columns : list string :=
  ["url"; "title"; "name"; "category"; "hash"; "votes"].

Definition page_two_down : world :=
  sample_world (page_of [])
    (fun page => if page =? 2 then HttpError RequestException
                 else page_of [entry "abc" "Trailer"]).

(* ------------------------------------------------------------------ *)
(** ** Vocabulary of the further properties *)

(** The events of one kind in a trace, in order. *)
Fixpoint select {X : Type} (pick : event -> option X) (t : list event) : list X :=
  match t with
  | [] => []
  | ev :: rest =>
      match pick ev with
      | Some x => x :: select pick rest
      | None => select pick rest
      end
  end.

(** The computation emits no event that [pick] selects. *)
Definition without {X : Type} (pick : event -> option X) {A} (m : M A) : Prop :=
  select pick (trace m) = [].

(** The rows handed to a csv writer, the lines written to the url file,
    the sessions asked for, the navigations and the listing requests. *)
Definition pick_row (ev : event) : option (string * list string) :=
  match ev with WriteRow file cells => Some (file, cells) | _ => None end.

Definition pick_line (ev : event) : option (string * string) :=
  match ev with WriteLine file line => Some (file, line) | _ => None end.

Definition pick_session (ev : event) : option value :=
  match ev with StartSession url => Some url | _ => None end.

Definition pick_navigate (ev : event) : option value :=
  match ev with Navigate url => Some url | _ => None end.

Definition pick_get (ev : event) : option Z :=
  match ev with HttpGet page => Some page | _ => None end.

(** The opening log record of a detail task and the record its first
    [try] logs when it fails. *)
Definition harv_starting_log (d : list (string * value)) : event :=
  Log INFO "Fetching votes for '{title}' by {name}..."
      [V (field "title" d (VStr "No Title")); V (field "name" d (VStr "No Name"))].

Definition harv_init_error (title : value) (e : exn) : event :=
  Log ERROR "Error initializing WebDriver for '{title}': {e}" [V title; E e].

Definition htv_starting_log (d : list (string * value)) : event :=
  Log INFO "Processing submission: {submission_url}" [V (VStr (htv_url d))].

Definition htv_init_error (submission_url : string) (e : exn) : event :=
  Log ERROR "Error initializing WebDriver for {submission_url}: {e}"
      [V (VStr submission_url); E e].

(** The record closing a session logs: INFO when [driver.quit()] returned,
    ERROR when it raised. *)
Definition harv_close_event (driver : session) (title : value) : event :=
  match quit driver with
  | Ok _ => Log INFO " - Closed WebDriver for '{title}'." [V title]
  | Raise e_quit =>
      Log ERROR " - Error closing WebDriver for '{title}': {e_quit}" [V title; E e_quit]
  end.

Definition htv_close_event (driver : session) (submission_url : string) : event :=
  match quit driver with
  | Ok _ => Log INFO " - Closed WebDriver for {submission_url}." [V (VStr submission_url)]
  | Raise e_quit =>
      Log ERROR " - Error closing WebDriver for {submission_url}: {e_quit}"
          [V (VStr submission_url); E e_quit]
  end.

(** The log records of fetch_page. *)
Definition retrieved_log (page n : Z) : event :=
  Log INFO "Page {page_number}: Retrieved {len(submissions)} submissions."
      [V (VInt page); V (VInt n)].

Definition fetch_exception_log (page : Z) (e : exn) : event :=
  Log ERROR "Exception while fetching page {page_number}: {e}" [V (VInt page); E e].

(** The line harv_titles_votes.py writes to the url file for a record. *)
Definition url_line (r : value) : string :=
  match r with
  | VDict d => str (field "url" d (VStr "No URL"))
  | _ => EmptyString
  end.

Definition urls_txt : string := "submission_urls.txt".

(** A world whose output files cannot be opened. *)
Definition unwritable_disk : world :=
  {| first_page := page_of [];
     listing := fun _ => page_of [];
     completion := fun _ l => l;
     install := fun _ => Ok tt;
     browser := fun _ => LaunchError WebDriverException;
     open_csv := Raise OSError;
     open_urls := Raise OSError |}.


(** A first page whose last_page is null. *)
Definition null_page_count : world :=
  sample_world
    (HttpReply 200 (Ok (VDict [("data", VList []); ("meta", VDict [("last_page", VNone)])])))
    (fun _ => page_of []).

(** The first log record of step 2. *)
Definition fetching_log : event := Log INFO "Fetching all submissions..." [].

(** Three records and a world in which the driver installation fails for
    the first, the CDP command fails for the second and the session of the
    third works. *)
Definition no_driver_record : value :=
  VDict [("url", VStr "https://editfest.filmsupply.com/submissions/nodriver");
         ("hash", VStr "nodriver")].

Definition no_cdp_fields : list (string * value) :=
  [("url", VStr "https://editfest.filmsupply.com/submissions/nocdp");
   ("hash", VStr "nocdp")].

Definition no_cdp_record : value := VDict no_cdp_fields.

Definition url_is (url : value) (s : string) : bool :=
  match url with
  | VStr u => String.eqb u s
  | _ => false
  end.

Definition stubborn_browser : world :=
  {| first_page := page_of [];
     listing := fun _ => page_of [];
     completion := fun _ l => l;
     install := fun url =>
       if url_is url "https://editfest.filmsupply.com/submissions/nodriver"
       then Raise OSError else Ok tt;
     browser := fun url =>
       Launched
         {| cdp := if url_is url "https://editfest.filmsupply.com/submissions/nocdp"
                   then Raise WebDriverException else Ok tt;
            navigate := Ok tt;
            script_texts := Ok ["Vote #3 of 120"];
            title_text := Ok " Reel ";
            elements_text := Ok ["Vote #3 of 120"];
            save_source := Ok tt;
            quit := Ok tt |};
     open_csv := Ok tt;
     open_urls := Ok tt |}.

(** The url a detail task opens its session on. *)
Definition harv_session_url (r : value) : value :=
  match r with VDict d => field "url" d VNone | _ => VNone end.

Definition htv_session_url (r : value) : value :=
  match r with VDict d => VStr (htv_url d) | _ => VNone end.

(** The first [try] of the detail task for this url completes. *)
Definition launches (w : world) (url : value) : bool :=
  match init w url with Launched _ => true | LaunchError _ => false end.

(** The task for this url gets as far as calling [webdriver.Chrome]. *)
Definition installs (w : world) (url : value) : bool :=
  match install w url with Ok _ => true | Raise _ => false end.

(* ================================================================== *)
(** * Properties *)


(** ** Generic facts about the monad *)

Lemma M_eta {A} (m : M A) : m = (trace m, outcome m).
Proof. destruct m; reflexivity. Qed.

(** ** Digit runs *)

Lemma take_digits_run (run post : string) :
  all_digits run = true -> starts_with_digit post = false ->
  take_digits (run ++ post) = run.
Proof.
  induction run as [|c r IH]; simpl; intros Hr Hp.
  - destruct post as [|c p]; simpl in *; [reflexivity | now rewrite Hp].
  - apply andb_prop in Hr as [Hc Hr]. rewrite Hc, IH; auto.
Qed.

Lemma re_search_first_run (text run : string) :
  first_digit_run text run -> re_search_digits text = Some run.
Proof.
  intros (pre & post & -> & Hpre & Hrun & Hne & Hpost).
  induction pre as [|c p IH]; simpl in *.
  - destruct run as [|c r]; [congruence|]. simpl in *.
    apply andb_prop in Hrun as [Hc Hr].
    rewrite Hc, take_digits_run; auto.
  - apply orb_false_elim in Hpre as [Hc Hp]. rewrite Hc. auto.
Qed.

Lemma re_search_no_digit (text : string) :
  has_digit text = false -> re_search_digits text = None.
Proof.
  induction text as [|c r IH]; simpl; [reflexivity|].
  intros H; apply orb_false_elim in H as [Hc Hr]. rewrite Hc; auto.
Qed.

Lemma re_search_some_digit (text : string) :
  has_digit text = true -> exists run, first_digit_run text run.
Proof.
  induction text as [|c r IH]; simpl; [discriminate|].
  destruct (is_digit c) eqn:Hc; simpl.
  - intros _. exists (String c (take_digits r)).
    assert (Hsplit : exists post, r = (take_digits r ++ post)%string
                                  /\ starts_with_digit post = false
                                  /\ all_digits (take_digits r) = true).
    { clear. induction r as [|c r IH]; simpl.
      - exists EmptyString; auto.
      - destruct (is_digit c) eqn:Hc.
        + destruct IH as (post & Heq & Hp & Ha). exists post. simpl.
          rewrite Hc, <- Heq. auto.
        + exists (String c r). simpl. auto. }
    destruct Hsplit as (post & Heq & Hp & Ha).
    exists EmptyString, post. simpl. rewrite Hc, <- Heq. repeat split; auto.
    discriminate.
  - intros H. destruct (IH H) as (run & pre & post & -> & Hpre & Hrun & Hne & Hpost).
    exists run, (String c pre), post. simpl. rewrite Hc. repeat split; auto.
Qed.

(** ** The vote-scanning loop *)

Lemma scan_votes_skip (indent : string) (before rest : list string) (idx : Z) :
  Forall (fun t => has_digit t = false) before ->
  outcome (scan_votes indent idx (before ++ rest))
  = outcome (scan_votes indent (idx + Z.of_nat (List.length before)) rest).
Proof.
  intros H; revert idx; induction H as [|t before Ht _ IH]; intros idx.
  - simpl. now rewrite Z.add_0_r.
  - cbn [app scan_votes List.length]. rewrite (re_search_no_digit _ Ht).
    unfold log, emit. cbn [bind].
    rewrite (M_eta (scan_votes indent (idx + 1) (before ++ rest))). cbn.
    rewrite IH. f_equal. f_equal. lia.
Qed.

Lemma scan_votes_none (indent : string) (texts : list string) (idx : Z) :
  Forall (fun t => has_digit t = false) texts ->
  outcome (scan_votes indent idx texts) = Ok VNone.
Proof.
  intros H. rewrite <- (app_nil_r texts), scan_votes_skip by assumption.
  reflexivity.
Qed.

Lemma py_int_within (run : string) :
  (String.length run <= MAX_STR_DIGITS)%nat -> py_int run = Ok (int_of_digits run).
Proof.
  intros H. unfold py_int.
  destruct (Nat.ltb_spec MAX_STR_DIGITS (String.length run)); [lia | reflexivity].
Qed.

Lemma py_int_beyond (run : string) :
  (MAX_STR_DIGITS < String.length run)%nat -> py_int run = Raise ValueError.
Proof.
  intros H. unfold py_int.
  destruct (Nat.ltb_spec MAX_STR_DIGITS (String.length run)); [reflexivity | lia].
Qed.

Lemma scan_votes_hit (indent : string) (text run : string) (after : list string)
      (idx : Z) :
  first_digit_run text run ->
  scan_votes indent idx (text :: after) = scan_votes indent idx [text]
  /\ outcome (scan_votes indent idx (text :: after))
     = match py_int run with
       | Ok n => Ok (VInt n)
       | Raise e => Raise e
       end.
Proof.
  intros H. cbn [scan_votes]. rewrite (re_search_first_run _ _ H).
  split; [reflexivity|]. now destruct (py_int run).
Qed.

Lemma scan_result_skip (before rest : list string) :
  Forall (fun t => has_digit t = false) before ->
  scan_result (before ++ rest) = scan_result rest.
Proof.
  induction 1 as [|t before Ht _ IH]; [reflexivity|].
  cbn [app scan_result]. now rewrite (re_search_no_digit _ Ht).
Qed.

Lemma scan_votes_stops (indent : string) (before : list string) (text run : string)
      (after : list string) (idx : Z) :
  first_digit_run text run ->
  scan_votes indent idx (before ++ text :: after)
  = scan_votes indent idx (before ++ [text]).
Proof.
  intros H; revert idx; induction before as [|t before IH]; intros idx.
  - apply (scan_votes_hit indent text run after idx H).
  - cbn [app scan_votes]. destruct (re_search_digits t); [reflexivity|].
    now rewrite IH.
Qed.

(** ** Running the monad: outcome and trace of each construct *)

Lemma outcome_bind {A B} (m : M A) (k : A -> M B) :
  outcome (bind m k)
  = match outcome m with Ok a => outcome (k a) | Raise e => Raise e end.
Proof. destruct m as [t [a|e]]; simpl; [destruct (k a)|]; reflexivity. Qed.

Lemma trace_bind {A B} (m : M A) (k : A -> M B) :
  trace (bind m k)
  = trace m ++ match outcome m with Ok a => trace (k a) | Raise _ => [] end.
Proof.
  destruct m as [t [a|e]]; simpl; [destruct (k a)|]; simpl;
    now rewrite ?app_nil_r.
Qed.

Lemma outcome_try {A} (m : M A) (h : exn -> M A) :
  outcome (try_except m h)
  = match outcome m with Ok a => Ok a | Raise e => outcome (h e) end.
Proof. destruct m as [t [a|e]]; simpl; [|destruct (h e)]; reflexivity. Qed.

Lemma trace_try {A} (m : M A) (h : exn -> M A) :
  trace (try_except m h)
  = trace m ++ match outcome m with Ok _ => [] | Raise e => trace (h e) end.
Proof.
  destruct m as [t [a|e]]; simpl; [|destruct (h e)]; simpl;
    now rewrite ?app_nil_r.
Qed.

Lemma outcome_ret {A} (a : A) : outcome (ret a) = Ok a.
Proof. reflexivity. Qed.
Lemma outcome_raise {A} (e : exn) : outcome (@raise A e) = Raise e.
Proof. reflexivity. Qed.
Lemma outcome_lift {A} (r : result A) : outcome (lift r) = r.
Proof. reflexivity. Qed.
Lemma outcome_emit (ev : event) : outcome (emit ev) = Ok tt.
Proof. reflexivity. Qed.
Lemma outcome_log lvl text args : outcome (log lvl text args) = Ok tt.
Proof. reflexivity. Qed.
Lemma trace_ret {A} (a : A) : trace (ret a) = [].
Proof. reflexivity. Qed.
Lemma trace_raise {A} (e : exn) : trace (@raise A e) = [].
Proof. reflexivity. Qed.
Lemma trace_lift {A} (r : result A) : trace (lift r) = [].
Proof. reflexivity. Qed.
Lemma trace_emit (ev : event) : trace (emit ev) = [ev].
Proof. reflexivity. Qed.
Lemma trace_log lvl text args : trace (log lvl text args) = [Log lvl text args].
Proof. reflexivity. Qed.

Create Rewrite HintDb run.
#[export] Hint Rewrite @outcome_bind @outcome_try @outcome_ret @outcome_raise
  @outcome_lift outcome_emit outcome_log : run.
#[export] Hint Rewrite @trace_bind @trace_try @trace_ret @trace_raise
  @trace_lift trace_emit trace_log : run.

Ltac run := repeat (autorewrite with run; cbn beta iota).

(** ** Dicts *)

Lemma dict_get_set_eq (k : string) (v : value) (d : list (string * value)) :
  dict_get k (dict_set k v d) = Some v.
Proof.
  induction d as [|[k' v'] d IH]; simpl.
  - now rewrite String.eqb_refl.
  - destruct (String.eqb k k') eqn:E; simpl; rewrite E; auto.
Qed.

Lemma dict_get_set_neq (k k' : string) (v : value) (d : list (string * value)) :
  k <> k' -> dict_get k (dict_set k' v d) = dict_get k d.
Proof.
  intros Hne. induction d as [|[k0 v0] d IH]; simpl.
  - apply String.eqb_neq in Hne. now rewrite Hne.
  - destruct (String.eqb k' k0) eqn:E; simpl.
    + apply String.eqb_eq in E; subst k0.
      apply String.eqb_neq in Hne. now rewrite Hne.
    + destruct (String.eqb k k0); auto.
Qed.

Lemma dict_set_same (k : string) (v : value) (d : list (string * value)) :
  dict_get k d = Some v -> dict_set k v d = d.
Proof.
  induction d as [|[k' v'] d IH]; simpl; [discriminate|].
  destruct (String.eqb k k') eqn:E.
  - now intros [= ->].
  - intros H. now rewrite IH.
Qed.

Lemma dict_set_idem (k : string) (v : value) (d : list (string * value)) :
  dict_set k v (dict_set k v d) = dict_set k v d.
Proof. apply dict_set_same, dict_get_set_eq. Qed.

(** ** What the scan returns, as a function of the texts *)

Lemma scan_votes_outcome (indent : string) (texts : list string) (idx : Z) :
  outcome (scan_votes indent idx texts) = scan_result texts.
Proof.
  revert idx; induction texts as [|t texts IH]; intros idx; [reflexivity|].
  cbn [scan_votes scan_result]. destruct (re_search_digits t) as [group1|]; run; auto.
Qed.

(** ** The first [try] of a detail task *)

Lemma start_driver_run (w : world) (url : value) :
  start_driver w url
  = (match install w url with Ok _ => [StartSession url] | Raise _ => [] end,
     match init w url with Launched driver => Ok driver | LaunchError e => Raise e end).
Proof.
  unfold start_driver, init. destruct (install w url) as [[]|e]; [|reflexivity].
  cbn [lift emit bind app]. destruct (browser w url) as [e|driver]; [reflexivity|].
  destruct (cdp driver) as [[]|e]; reflexivity.
Qed.

(** ** What one detail task returns *)

Lemma harv_close_driver_ok (driver : session) (title : value) :
  outcome (Harv.close_driver driver title) = Ok tt.
Proof. unfold Harv.close_driver. run. destruct (quit driver) as [[]|e]; reflexivity. Qed.

Lemma harv_detail_outcome (driver : session) (title url : value) :
  outcome (try_except (Harv.extract_votes_try driver title url)
                      (Harv.extract_votes_except driver title))
  = Ok (harv_seen_votes (Launched driver)).
Proof.
  unfold Harv.extract_votes_try, Harv.extract_votes_except, harv_seen_votes. run.
  destruct (navigate driver) as [[]|e]; run.
  - destruct (script_texts driver) as [texts|e]; run.
    + rewrite scan_votes_outcome. unfold first_votes.
      destruct (scan_result texts) as [votes|e]; run.
      * destruct (is_none votes); run; reflexivity.
      * destruct (save_source driver) as [[]|e']; run; reflexivity.
    + destruct (save_source driver) as [[]|e']; run; reflexivity.
  - destruct (save_source driver) as [[]|e']; run; reflexivity.
Qed.

Lemma harv_extract_votes_outcome (w : world) (d : list (string * value)) :
  outcome (Harv.extract_votes w (VDict d))
  = Ok (VDict (dict_set "votes" (harv_seen_votes (init w (field "url" d VNone))) d)).
Proof.
  unfold Harv.extract_votes, field. run. cbn [py_get]. run.
  rewrite start_driver_run. cbn [outcome snd].
  destruct (init w _) as [e|driver]; run; [reflexivity|].
  match goal with
  | |- context [Harv.extract_votes_try driver ?t ?u] =>
      pose proof (harv_detail_outcome driver t u) as H
  end.
  rewrite outcome_try in H. rewrite H. run.
  rewrite harv_close_driver_ok. reflexivity.
Qed.

Lemma htv_close_driver_ok (driver : session) (url : string) :
  outcome (HarvTitlesVotes.close_driver driver url) = Ok tt.
Proof.
  unfold HarvTitlesVotes.close_driver. run.
  destruct (quit driver) as [[]|e]; reflexivity.
Qed.

Lemma htv_extract_title_outcome (driver : session) (url : string) :
  outcome (HarvTitlesVotes.extract_title driver url)
  = Ok (htv_title_of (title_text driver)).
Proof.
  unfold HarvTitlesVotes.extract_title, htv_title_of. run.
  destruct (title_text driver) as [raw|e]; run; [|reflexivity].
  destruct (truthy (VStr (strip raw))); run; reflexivity.
Qed.

Lemma htv_extract_votes_outcome (driver : session) (url : string) :
  outcome (HarvTitlesVotes.extract_votes driver url)
  = Ok (htv_votes_of (elements_text driver)).
Proof.
  unfold HarvTitlesVotes.extract_votes, htv_votes_of. run.
  destruct (elements_text driver) as [raw|e]; run; [|reflexivity].
  rewrite scan_votes_outcome. unfold first_votes.
  destruct (scan_result (map strip raw)) as [votes|e]; run; [|reflexivity].
  destruct (is_none votes); run; reflexivity.
Qed.

(** C1 (as the code has it).  The vote-extraction rule, on the marker
    texts in document order.  The first text that has a digit decides,
    whatever follows it (the loop then behaves, log included, as if the list
    ended there).  When its first run of decimal digits has at most 4300
    digits, the result is the integer value of that run.  When the run is
    longer, int() refuses it: the loop raises ValueError and the extractor
    is left with votes None.  When no text has a digit, the empty list
    included, votes is None; a text that has a digit always has such a first
    run, so the cases are all.  In particular ["120 votes"] gives 120,
    ["Vote #3 of 120"] gives 3, ["no data"] and [] give None.  Both copies of
    the loop ([indent] is their only difference) are covered, and
    [first_votes] is the votes each extractor is left with once the page is
    read: the [try] around the loop (the outer one in harv.py, the inner
    one in harv_titles_votes.py) catches the refusal. *)
Theorem C1_first_digit_run_wins (indent : string) :
  (forall (before : list string) (text run : string) (after : list string),
      Forall (fun t => has_digit t = false) before ->
      first_digit_run text run ->
      (String.length run <= MAX_STR_DIGITS)%nat ->
      outcome (scan_votes indent 1 (before ++ text :: after))
      = Ok (VInt (int_of_digits run))
      /\ first_votes (before ++ text :: after) = VInt (int_of_digits run)
      /\ scan_votes indent 1 (before ++ text :: after)
         = scan_votes indent 1 (before ++ [text]))
  /\ (forall (before : list string) (text run : string) (after : list string),
         Forall (fun t => has_digit t = false) before ->
         first_digit_run text run ->
         (MAX_STR_DIGITS < String.length run)%nat ->
         outcome (scan_votes indent 1 (before ++ text :: after)) = Raise ValueError
         /\ first_votes (before ++ text :: after) = VNone
         /\ scan_votes indent 1 (before ++ text :: after)
            = scan_votes indent 1 (before ++ [text]))
  /\ (forall text : string,
         has_digit text = true -> exists run, first_digit_run text run)
  /\ (forall texts : list string,
         Forall (fun t => has_digit t = false) texts ->
         outcome (scan_votes indent 1 texts) = Ok VNone
         /\ first_votes texts = VNone)
  /\ (forall (driver : session) (title url : value) (texts : list string),
         navigate driver = Ok tt -> script_texts driver = Ok texts ->
         outcome (try_except (Harv.extract_votes_try driver title url)
                             (Harv.extract_votes_except driver title))
         = Ok (first_votes texts))
  /\ (forall (driver : session) (url : string) (raw : list string),
         elements_text driver = Ok raw ->
         outcome (HarvTitlesVotes.extract_votes driver url)
         = Ok (first_votes (map strip raw)))
  /\ outcome (scan_votes indent 1 ["120 votes"]) = Ok (VInt 120)
  /\ outcome (scan_votes indent 1 ["Vote #3 of 120"]) = Ok (VInt 3)
  /\ outcome (scan_votes indent 1 ["no data"]) = Ok VNone
  /\ outcome (scan_votes indent 1 []) = Ok VNone.
Proof.
  split; [|split; [|split; [|split; [|split; [|split; [|repeat split]]]]]].
  - intros before text run after Hb Hr Hlen. split; [|split].
    + rewrite scan_votes_skip by assumption.
      rewrite (proj2 (scan_votes_hit indent text run after _ Hr)).
      now rewrite py_int_within.
    + unfold first_votes. rewrite scan_result_skip by assumption.
      cbn [scan_result]. rewrite (re_search_first_run _ _ Hr).
      now rewrite py_int_within.
    + apply (scan_votes_stops indent before text run after 1 Hr).
  - intros before text run after Hb Hr Hlen. split; [|split].
    + rewrite scan_votes_skip by assumption.
      rewrite (proj2 (scan_votes_hit indent text run after _ Hr)).
      now rewrite py_int_beyond.
    + unfold first_votes. rewrite scan_result_skip by assumption.
      cbn [scan_result]. rewrite (re_search_first_run _ _ Hr).
      now rewrite py_int_beyond.
    + apply (scan_votes_stops indent before text run after 1 Hr).
  - apply re_search_some_digit.
  - intros texts H. split; [now apply scan_votes_none|].
    unfold first_votes. rewrite <- (app_nil_r texts), scan_result_skip by assumption.
    reflexivity.
  - intros driver title url texts Hn Hs. rewrite harv_detail_outcome.
    cbn [harv_seen_votes]. now rewrite Hn, Hs.
  - intros driver url raw Hr. rewrite htv_extract_votes_outcome.
    unfold htv_votes_of. now rewrite Hr.
Qed.

Lemma htv_detail_outcome (driver : session) (h : value) (url : string) :
  outcome (try_except (HarvTitlesVotes.details_try driver url)
                      (HarvTitlesVotes.details_except driver h url))
  = Ok (htv_seen driver).
Proof.
  unfold HarvTitlesVotes.details_try, HarvTitlesVotes.details_except, htv_seen. run.
  destruct (navigate driver) as [[]|e]; run.
  - rewrite htv_extract_title_outcome. run.
    rewrite htv_extract_votes_outcome. run. reflexivity.
  - destruct (save_source driver) as [[]|e']; run; reflexivity.
Qed.

Lemma htv_extract_outcome (w : world) (d : list (string * value)) :
  outcome (HarvTitlesVotes.extract_submission_details w (VDict d))
  = Ok (VDict (htv_update (init w (VStr (htv_url d))) d)).
Proof.
  unfold HarvTitlesVotes.extract_submission_details, htv_update, htv_url, field.
  run. cbn [py_get]. run.
  rewrite start_driver_run. cbn [outcome snd].
  destruct (init w _) as [e|driver]; run; [reflexivity|].
  match goal with
  | |- context [HarvTitlesVotes.details_except driver ?h ?u] =>
      pose proof (htv_detail_outcome driver h u) as H
  end.
  rewrite outcome_try in H. rewrite H. run.
  rewrite htv_close_driver_ok. run. reflexivity.
Qed.

Lemma field_set_neq (k k' : string) (v default : value) (d : list (string * value)) :
  k <> k' -> field k (dict_set k' v d) default = field k d default.
Proof. intros H. unfold field. now rewrite dict_get_set_neq. Qed.

Lemma harv_extract_twice (w : world) (d : list (string * value)) :
  let d1 := dict_set "votes" (harv_seen_votes (init w (field "url" d VNone))) d in
  outcome (Harv.extract_votes w (VDict d)) = Ok (VDict d1)
  /\ outcome (Harv.extract_votes w (VDict d1)) = Ok (VDict d1).
Proof.
  intros d1. split; [apply harv_extract_votes_outcome|].
  rewrite harv_extract_votes_outcome. subst d1.
  rewrite field_set_neq by discriminate. now rewrite dict_set_idem.
Qed.

Lemma htv_extract_twice (w : world) (d : list (string * value)) :
  let d1 := htv_update (init w (VStr (htv_url d))) d in
  outcome (HarvTitlesVotes.extract_submission_details w (VDict d)) = Ok (VDict d1)
  /\ outcome (HarvTitlesVotes.extract_submission_details w (VDict d1)) = Ok (VDict d1).
Proof.
  intros d1. split; [apply htv_extract_outcome|].
  rewrite htv_extract_outcome. subst d1.
  assert (Hurl : forall l, htv_url (htv_update l d) = htv_url d).
  { intros [e|driver]; unfold htv_url, htv_update;
      now rewrite !field_set_neq by discriminate. }
  rewrite Hurl. destruct (init w (VStr (htv_url d))) as [e|driver].
  - cbn [htv_update].
    rewrite (dict_set_same "title" VNone).
    + apply f_equal, f_equal, dict_set_idem.
    + rewrite dict_get_set_neq by discriminate. apply dict_get_set_eq.
  - set (d1 := htv_update (Launched driver) d).
    assert (Ht : dict_get "title" d1 = Some (fst (htv_seen driver))).
    { unfold d1, htv_update.
      rewrite !dict_get_set_neq by discriminate. apply dict_get_set_eq. }
    assert (Hv : dict_get "votes" d1 = Some (snd (htv_seen driver))).
    { unfold d1, htv_update.
      rewrite dict_get_set_neq by discriminate. apply dict_get_set_eq. }
    assert (Hu : dict_get "url" d1 = Some (VStr (htv_url d))).
    { unfold d1, htv_update. apply dict_get_set_eq. }
    assert (Hh : htv_url d1 = htv_url d) by apply (Hurl (Launched driver)).
    unfold htv_update at 1. fold d1. rewrite Hh.
    rewrite (dict_set_same _ _ _ Ht), (dict_set_same _ _ _ Hv),
      (dict_set_same _ _ _ Hu).
    reflexivity.
Qed.

(** C9.  Detail extraction is idempotent and determined by the page
    content.  harv.py: when the session shows the marker texts [texts], the
    record gets votes = [first_votes texts] (the value of the first digit
    run, or None when there is none or int() refuses it), and extracting
    again from the enriched record returns that record unchanged.
    harv_titles_votes.py: when the session shows the title marker [title]
    (or none) and the vote markers [votes] (or none), the record gets the
    title and votes these determine, and extracting again returns the
    enriched record unchanged.  Extracting again changes nothing on the
    other paths either (the driver not starting, the navigation or the
    script failing). *)
Theorem C9_extraction_idempotent :
  (forall (w : world) (d : list (string * value)) (driver : session)
          (texts : list string),
      init w (field "url" d VNone) = Launched driver ->
      navigate driver = Ok tt ->
      script_texts driver = Ok texts ->
      exists d1,
        outcome (Harv.extract_votes w (VDict d)) = Ok (VDict d1)
        /\ dict_get "votes" d1 = Some (first_votes texts)
        /\ outcome (Harv.extract_votes w (VDict d1)) = Ok (VDict d1))
  /\ (forall (w : world) (d : list (string * value)) (driver : session)
             (title : result string) (votes : result (list string)),
         init w (VStr (htv_url d)) = Launched driver ->
         navigate driver = Ok tt ->
         title_text driver = title ->
         elements_text driver = votes ->
         exists d1,
           outcome (HarvTitlesVotes.extract_submission_details w (VDict d))
           = Ok (VDict d1)
           /\ dict_get "title" d1 = Some (htv_title_of title)
           /\ dict_get "votes" d1 = Some (htv_votes_of votes)
           /\ outcome (HarvTitlesVotes.extract_submission_details w (VDict d1))
              = Ok (VDict d1))
  /\ (forall (w : world) (d : list (string * value)),
         exists d1,
           outcome (Harv.extract_votes w (VDict d)) = Ok (VDict d1)
           /\ outcome (Harv.extract_votes w (VDict d1)) = Ok (VDict d1))
  /\ (forall (w : world) (d : list (string * value)),
         exists d1,
           outcome (HarvTitlesVotes.extract_submission_details w (VDict d))
           = Ok (VDict d1)
           /\ outcome (HarvTitlesVotes.extract_submission_details w (VDict d1))
              = Ok (VDict d1)).
Proof.
  split; [|split; [|split]];
    [| |intros w d; eexists; exact (harv_extract_twice w d)
       |intros w d; eexists; exact (htv_extract_twice w d)].
  - intros w d driver texts Hb Hn Hs.
    destruct (harv_extract_twice w d) as [H1 H2].
    eexists; split; [exact H1|split; [|exact H2]].
    rewrite dict_get_set_eq, Hb. cbn. now rewrite Hn, Hs.
  - intros w d driver title votes Hb Hn Ht Hv.
    destruct (htv_extract_twice w d) as [H1 H2].
    eexists; split; [exact H1|split; [|split; [|exact H2]]].
    + rewrite Hb. cbn [htv_update].
      rewrite !dict_get_set_neq by discriminate. rewrite dict_get_set_eq.
      unfold htv_seen. now rewrite Hn, Ht.
    + rewrite Hb. cbn [htv_update].
      rewrite dict_get_set_neq by discriminate. rewrite dict_get_set_eq.
      unfold htv_seen. now rewrite Hn, Hv.
Qed.

(** ** Loops that append to a list *)

Lemma foldM_outcome_app {A B : Type} (f : list B -> A -> M (list B))
      (g : A -> list B) (P : A -> Prop) (l : list A) (acc : list B) :
  (forall acc x, P x -> outcome (f acc x) = Ok (acc ++ g x)) ->
  Forall P l ->
  outcome (foldM f l acc) = Ok (acc ++ flat_map g l).
Proof.
  intros Hf H; revert acc; induction H as [|x l Hx _ IH]; intros acc.
  - cbn. now rewrite app_nil_r.
  - cbn [foldM flat_map]. run. rewrite (Hf acc x Hx), IH. now rewrite app_assoc.
Qed.

Lemma flat_map_singleton {A B : Type} (g : A -> B) (l : list A) :
  flat_map (fun x => [g x]) l = map g l.
Proof. induction l; simpl; congruence. Qed.

(** ** The detail harvesters *)

Lemma harv_collect_votes_outcome (acc : list value) (task : M value * value) :
  is_dict (snd task) ->
  outcome (Harv.collect_votes acc task) = Ok (acc ++ [harv_entry task]).
Proof.
  destruct task as [future submission]. cbn [snd]. intros [d ->].
  unfold Harv.collect_votes, harv_entry. run. cbn [fst snd].
  destruct (outcome future); run; reflexivity.
Qed.

Lemma htv_collect_details_outcome (acc : list value) (task : M value * value) :
  is_dict (snd task) ->
  outcome (HarvTitlesVotes.collect_details acc task) = Ok (acc ++ [htv_entry task]).
Proof.
  destruct task as [future submission]. cbn [snd]. intros [d ->].
  unfold HarvTitlesVotes.collect_details, htv_entry. run. cbn [fst snd].
  destruct (outcome future); run; reflexivity.
Qed.

Lemma harv_loop_outcome (tasks : list (M value * value)) :
  Forall (fun task => is_dict (snd task)) tasks ->
  outcome (foldM Harv.collect_votes tasks []) = Ok (map harv_entry tasks).
Proof.
  intros H.
  rewrite (foldM_outcome_app _ (fun task => [harv_entry task]) _ _ _
             harv_collect_votes_outcome H).
  now rewrite flat_map_singleton.
Qed.

Lemma htv_loop_outcome (tasks : list (M value * value)) :
  Forall (fun task => is_dict (snd task)) tasks ->
  outcome (foldM HarvTitlesVotes.collect_details tasks []) = Ok (map htv_entry tasks).
Proof.
  intros H.
  rewrite (foldM_outcome_app _ (fun task => [htv_entry task]) _ _ _
             htv_collect_details_outcome H).
  now rewrite flat_map_singleton.
Qed.

Lemma fair_Forall (w : world) (A : Type) (P : A -> Prop) (l : list A) :
  fair w -> Forall P l -> Forall P (completion w A l).
Proof.
  intros Hw H. rewrite Forall_forall in *. intros x Hx.
  apply H. eapply Permutation_in; [apply Hw | exact Hx].
Qed.

Lemma fair_length (w : world) (A : Type) (l : list A) :
  fair w -> List.length (completion w A l) = List.length l.
Proof. intros Hw. apply Permutation_length, Hw. Qed.

Lemma harv_extract_all_outcome (w : world) (submissions : list value) :
  fair w -> Forall is_dict submissions ->
  outcome (Harv.extract_all_votes w submissions)
  = Ok (map harv_entry
          (completion w _ (map (fun s => (Harv.extract_votes w s, s)) submissions))).
Proof.
  intros Hw H. unfold Harv.extract_all_votes. apply harv_loop_outcome.
  apply fair_Forall; [assumption|]. rewrite Forall_map. exact H.
Qed.

Lemma htv_extract_all_outcome (w : world) (submissions : list value) :
  fair w -> Forall is_dict submissions ->
  outcome (HarvTitlesVotes.extract_all_submission_details w submissions)
  = Ok (map htv_entry
          (completion w _
             (map (fun s => (HarvTitlesVotes.extract_submission_details w s, s))
                  submissions))).
Proof.
  intros Hw H. unfold HarvTitlesVotes.extract_all_submission_details.
  apply htv_loop_outcome.
  apply fair_Forall; [assumption|]. rewrite Forall_map. exact H.
Qed.

(** ** The sample world *)

Lemma sample_world_fair (first : http_reply) (pages : Z -> http_reply) :
  fair (sample_world first pages).
Proof. intros A l. apply Permutation_refl. Qed.

(** ** C2 *)

Lemma harv_entry_kept (task : M value * value) :
  is_dict (snd task) -> kept_as ["votes"] task (harv_entry task).
Proof.
  intros [d Hd]. unfold kept_as, harv_entry. rewrite Hd.
  destruct (outcome (fst task)); [reflexivity|]. now exists d.
Qed.

Lemma htv_entry_kept (task : M value * value) :
  is_dict (snd task) -> kept_as ["title"; "votes"] task (htv_entry task).
Proof.
  intros [d Hd]. unfold kept_as, htv_entry. rewrite Hd.
  destruct (outcome (fst task)); [reflexivity|]. now exists d.
Qed.

Lemma Forall2_map_r {A B : Type} (R : A -> B -> Prop) (P : A -> Prop) (g : A -> B)
      (l : list A) :
  (forall x, P x -> R x (g x)) -> Forall P l -> Forall2 R l (map g l).
Proof. intros Hg H; induction H; simpl; constructor; auto. Qed.

(** C2 (as the code has it).  Whatever the futures do, the loop over the
    completed futures adds exactly one entry per task, in completion order:
    the task's result, or, for a task that raised, its input record with
    the enrichment forced to None.  harv_titles_votes.py forces both title
    and votes; harv.py forces votes only and leaves the record's listing
    title as it was.  With every future completing once, the output of
    either harvester has as many entries as there are input records. *)
Theorem C2_raised_task_is_kept :
  (forall tasks : list (M value * value),
      Forall (fun task => is_dict (snd task)) tasks ->
      exists out,
        outcome (foldM Harv.collect_votes tasks []) = Ok out
        /\ Forall2 (kept_as ["votes"]) tasks out)
  /\ (forall tasks : list (M value * value),
         Forall (fun task => is_dict (snd task)) tasks ->
         exists out,
           outcome (foldM HarvTitlesVotes.collect_details tasks []) = Ok out
           /\ Forall2 (kept_as ["title"; "votes"]) tasks out)
  /\ (forall (w : world) (submissions : list value),
         fair w -> Forall is_dict submissions ->
         (exists out,
             outcome (Harv.extract_all_votes w submissions) = Ok out
             /\ List.length out = List.length submissions)
         /\ (exists out,
                outcome (HarvTitlesVotes.extract_all_submission_details w submissions)
                = Ok out
                /\ List.length out = List.length submissions)).
Proof.
  split; [|split].
  - intros tasks H. exists (map harv_entry tasks). split.
    + now apply harv_loop_outcome.
    + apply (Forall2_map_r _ _ _ _ harv_entry_kept H).
  - intros tasks H. exists (map htv_entry tasks). split.
    + now apply htv_loop_outcome.
    + apply (Forall2_map_r _ _ _ _ htv_entry_kept H).
  - intros w submissions Hw H. split; eexists; split.
    + now apply harv_extract_all_outcome.
    + now rewrite length_map, fair_length, length_map.
    + now apply htv_extract_all_outcome.
    + now rewrite length_map, fair_length, length_map.
Qed.

(** A closed instance of C2: one task that raised and one that returned. *)
Lemma C2_witness :
  exists out,
    outcome (foldM HarvTitlesVotes.collect_details
               [(raise WebDriverException, sample_record);
                (ret sample_record, sample_record)] []) = Ok out
    /\ Forall2 (kept_as ["title"; "votes"])
         [(raise WebDriverException, sample_record);
          (ret sample_record, sample_record)] out.
Proof.
  apply (proj1 (proj2 C2_raised_task_is_kept)).
  repeat constructor; now eexists.
Defined.

(** C2 as stated fails on harv.py: the record of a task that raised keeps
    its listing title; only votes is set to None. *)
Lemma C2_counterexample :
  exists u,
    outcome (foldM Harv.collect_votes [(raise WebDriverException, sample_record)] [])
    = Ok [u]
    /\ py_get u "votes" (VStr "unset") = Ok VNone
    /\ py_get u "title" VNone = Ok (VStr "Reel")
    /\ py_get u "title" VNone <> Ok VNone.
Proof.
  eexists. split; [reflexivity|]. repeat split. discriminate.
Qed.

(** ** Preparing the records (step 3 of main) *)

Lemma entry_ok_is_dict (e : value) : entry_ok e -> is_dict e.
Proof. intros (d & -> & _). now exists d. Qed.

Lemma has_hash_spec (d : list (string * value)) :
  has_hash (VDict d) = true
  <-> exists h, dict_get "hash" d = Some h /\ truthy h = true.
Proof.
  unfold has_hash, field. destruct (dict_get "hash" d) as [h|]; split.
  - intros H. now exists h.
  - now intros (h' & [= <-] & H).
  - discriminate.
  - now intros (h' & [=] & _).
Qed.

Lemma harv_prepare_one_run (data : list value) (urls : list string) (e : value) :
  is_dict e ->
  outcome (Harv.prepare_one (data, urls) e)
  = Ok (if has_hash e then (data ++ [harv_record e], urls ++ [harv_url e])
        else (data, urls))
  /\ (has_hash e = false -> In (no_hash_warning e) (trace (Harv.prepare_one (data, urls) e))).
Proof.
  intros [d ->]. unfold Harv.prepare_one, has_hash, harv_record, harv_url, field.
  run. cbn [py_get]. run.
  destruct (truthy _); run; split; try reflexivity; try discriminate.
  intros _. now left.
Qed.

Lemma harv_prepare_outcome (all : list value) (data : list value) (urls : list string) :
  Forall is_dict all ->
  outcome (Harv.prepare all (data, urls))
  = Ok (data ++ map harv_record (filter has_hash all),
        urls ++ map harv_url (filter has_hash all)).
Proof.
  intros H; revert data urls; induction H as [|e all He _ IH]; intros data urls.
  - cbn. now rewrite !app_nil_r.
  - unfold Harv.prepare in *. cbn [foldM filter]. run.
    rewrite (proj1 (harv_prepare_one_run data urls e He)).
    destruct (has_hash e); rewrite IH; cbn [map]; now rewrite <- ?app_assoc.
Qed.


Lemma htv_prepare_one_run (data : list value) (e : value) :
  entry_ok e ->
  outcome (HarvTitlesVotes.prepare_one data e)
  = Ok (data ++ if htv_keeps e then [e] else [])
  /\ (has_hash e = false ->
      In (no_hash_warning e) (trace (HarvTitlesVotes.prepare_one data e))).
Proof.
  intros (d & -> & s & Hs).
  unfold HarvTitlesVotes.prepare_one, htv_keeps, has_hash, category_of,
    case_insensitive_eqb.
  run. cbn [py_get]. run. fold (field "category" d (VStr EmptyString)).
  rewrite Hs. cbn [py_strip]. run.
  change (lower "Title Sequence") with "title sequence".
  fold (field "hash" d VNone).
  destruct (truthy (field "hash" d VNone)); cbn [andb negb].
  - destruct (String.eqb (lower (strip s)) "title sequence"); cbn [negb]; run;
      split; try discriminate; now rewrite ?app_nil_r.
  - run. split; [now rewrite app_nil_r|]. intros _. now left.
Qed.

Lemma htv_prepare_outcome_from (all data : list value) :
  Forall entry_ok all ->
  outcome (foldM HarvTitlesVotes.prepare_one all data)
  = Ok (data ++ filter htv_keeps all).
Proof.
  intros H.
  rewrite (foldM_outcome_app _ (fun e => if htv_keeps e then [e] else []) _ _ _
             (fun acc x Hx => proj1 (htv_prepare_one_run acc x Hx)) H).
  f_equal. f_equal. clear H. induction all as [|e all IH]; [reflexivity|].
  cbn [flat_map filter]. destruct (htv_keeps e); cbn; now rewrite IH.
Qed.

Lemma htv_prepare_outcome (all : list value) :
  Forall entry_ok all ->
  outcome (HarvTitlesVotes.prepare all) = Ok (filter htv_keeps all).
Proof. intros H. unfold HarvTitlesVotes.prepare. now rewrite htv_prepare_outcome_from. Qed.


Lemma foldM_app {A S} (f : S -> A -> M S) (l1 l2 : list A) (s : S) :
  foldM f (l1 ++ l2) s = (s' <- foldM f l1 s ;; foldM f l2 s').
Proof.
  revert s; induction l1 as [|x l1 IH]; intros s.
  - cbn [app foldM]. unfold ret, bind. now destruct (foldM f l2 s).
  - cbn [app foldM]. destruct (f s x) as [t [s'|e]]; [|reflexivity].
    cbn [bind]. rewrite IH.
    destruct (foldM f l1 s') as [t1 [s1|e1]]; [|reflexivity].
    cbn [bind]. destruct (foldM f l2 s1) as [t2 r2]. cbn. now rewrite app_assoc.
Qed.

Lemma harv_prepare_one_not_dict (state : list value * list string) (e : value) :
  ~ is_dict e -> Harv.prepare_one state e = ([], Raise AttributeError).
Proof.
  intros H. destruct state as [data urls].
  destruct e; try reflexivity. destruct H. now eexists.
Qed.

Lemma htv_prepare_one_not_ok (data : list value) (e : value) :
  ~ entry_ok e -> HarvTitlesVotes.prepare_one data e = ([], Raise AttributeError).
Proof.
  intros H. destruct e as [| | | | |d]; try reflexivity.
  unfold HarvTitlesVotes.prepare_one. cbn [py_get lift bind].
  fold (field "category" d (VStr EmptyString)).
  destruct (field "category" d (VStr EmptyString)) as [| | |s| |] eqn:Ec; try reflexivity.
  destruct H. exists d. split; [reflexivity|]. now exists s.
Qed.



(** ** C3 *)

(** C3 (as the code has it).  Step 3 of harv_titles_votes.py retains, in
    listing order, exactly the entries that have a hash and whose category,
    once the surrounding whitespace is stripped, equals "Title Sequence" up
    to case.  Of three entries with categories "Title Sequence", "Trailer"
    and "title sequence" exactly the first and the third are retained. *)
Theorem C3_category_filter :
  (forall all : list value,
      Forall entry_ok all ->
      outcome (HarvTitlesVotes.prepare all)
      = Ok (filter (fun e => has_hash e
                             && case_insensitive_eqb (strip (category_of e))
                                                     "Title Sequence") all))
  /\ outcome (HarvTitlesVotes.prepare
                [entry "a" "Title Sequence"; entry "b" "Trailer";
                 entry "c" "title sequence"])
     = Ok [entry "a" "Title Sequence"; entry "c" "title sequence"].
Proof.
  split; [|reflexivity].
  intros all H. now apply htv_prepare_outcome.
Qed.

Lemma C3_witness :
  outcome (HarvTitlesVotes.prepare [entry "a" "TITLE SEQUENCE"; entry "" "Title Sequence"])
  = Ok (filter (fun e => has_hash e
                         && case_insensitive_eqb (strip (category_of e))
                                                 "Title Sequence")
               [entry "a" "TITLE SEQUENCE"; entry "" "Title Sequence"]).
Proof.
  apply (proj1 C3_category_filter).
  repeat constructor; eexists; (split; [reflexivity|]); eexists; reflexivity.
Defined.

(** C3 as stated fails: the match is not exact.  An entry whose category
    is " Title Sequence", with a leading blank, is retained although its
    category differs from the filter string even up to case. *)
Lemma C3_counterexample :
  outcome (HarvTitlesVotes.prepare [entry "a" " Title Sequence"])
  = Ok [entry "a" " Title Sequence"]
  /\ case_insensitive_eqb (category_of (entry "a" " Title Sequence")) "Title Sequence"
     = false.
Proof. split; reflexivity. Qed.

(** ** C4 *)

Lemma has_hash_set (k : string) (v : value) (d : list (string * value)) :
  k <> "hash" ->
  has_hash (VDict (dict_set k v d)) = has_hash (VDict d).
Proof.
  intros H. unfold has_hash. rewrite field_set_neq; [reflexivity|congruence].
Qed.

Lemma harv_entry_has_hash (w : world) (s : value) :
  has_hash s = true -> has_hash (harv_entry (Harv.extract_votes w s, s)) = true.
Proof.
  destruct s as [| | | | |d]; try discriminate. intros H.
  unfold harv_entry. cbn [fst snd]. rewrite harv_extract_votes_outcome.
  now rewrite has_hash_set by discriminate.
Qed.


Lemma has_hash_is_dict (e : value) : has_hash e = true -> is_dict e.
Proof. destruct e; try discriminate. intros _. now eexists. Qed.

Lemma harv_extract_all_has_hash (w : world) (data : list value) :
  fair w -> Forall (fun r => has_hash r = true) data ->
  exists out,
    outcome (Harv.extract_all_votes w data) = Ok out
    /\ Forall (fun r => has_hash r = true) out.
Proof.
  intros Hw H. eexists. split.
  - apply harv_extract_all_outcome; [assumption|].
    eapply Forall_impl; [|exact H]. apply has_hash_is_dict.
  - rewrite Forall_map. apply fair_Forall; [assumption|].
    rewrite Forall_map. eapply Forall_impl; [|exact H].
    intros s Hs. now apply harv_entry_has_hash.
Qed.


Lemma harv_record_has_hash (e : value) :
  has_hash e = true -> has_hash (harv_record e) = true.
Proof. destruct e; try discriminate. intros H. exact H. Qed.


(** ** The listing stage *)

Lemma fetch_page_never_raises (w : world) (page : Z) :
  exists v, outcome (fetch_page w page) = Ok v.
Proof.
  unfold fetch_page. run.
  destruct (outcome (fetch_page_try w page)) as [v|e]; run; eauto.
Qed.

Lemma fetch_page_bad_status (w : world) (page status : Z) (json : result value) :
  listing w page = HttpReply status json -> status <> 200 ->
  fetch_page w page
  = ([HttpGet page;
      Log ERROR "Failed to retrieve page {page_number}: Status code {response.status_code}"
          [V (VInt page); V (VInt status)]],
     Ok (VList [])).
Proof.
  intros Hl Hs. unfold fetch_page, fetch_page_try. rewrite Hl.
  apply Z.eqb_neq in Hs. rewrite Hs. reflexivity.
Qed.

Lemma fetch_page_exception (w : world) (page : Z) (e : exn) :
  outcome (fetch_page_try w page) = Raise e ->
  outcome (fetch_page w page) = Ok (VList [])
  /\ In (Log ERROR "Exception while fetching page {page_number}: {e}"
             [V (VInt page); E e])
        (trace (fetch_page w page)).
Proof.
  intros H. unfold fetch_page. run. rewrite H. run. split; [reflexivity|].
  apply in_or_app. right. now left.
Qed.

Lemma fetch_page_fails (w : world) (page : Z) :
  page_fails w page ->
  outcome (fetch_page w page) = Ok (VList [])
  /\ Exists is_error_log (trace (fetch_page w page))
  /\ contribution w page = [].
Proof.
  intros [(status & json & Hl & Hs) | (e & He)].
  - unfold contribution. rewrite (fetch_page_bad_status w page status json Hl Hs).
    repeat split. apply Exists_cons_tl, Exists_cons_hd. now do 2 eexists.
  - destruct (fetch_page_exception w page e He) as [Ho Hin].
    unfold contribution. rewrite Ho. repeat split.
    apply Exists_exists. eexists. split; [exact Hin|]. now do 2 eexists.
Qed.

Lemma fetch_page_try_transport (w : world) (page : Z) (e : exn) :
  listing w page = HttpError e -> outcome (fetch_page_try w page) = Raise e.
Proof. intros H. unfold fetch_page_try. now rewrite H. Qed.

Lemma fetch_page_try_parse (w : world) (page : Z) (e : exn) :
  listing w page = HttpReply 200 (Raise e) -> outcome (fetch_page_try w page) = Raise e.
Proof. intros H. unfold fetch_page_try. now rewrite H. Qed.

Lemma fetch_page_local (w w' : world) (page : Z) :
  listing w page = listing w' page -> fetch_page w page = fetch_page w' page.
Proof. intros H. unfold fetch_page, fetch_page_try. now rewrite H. Qed.

Lemma collect_page_outcome (acc : list value) (task : Z * M value) :
  outcome (collect_page acc task) = Ok (acc ++ items_of (outcome (snd task))).
Proof.
  destruct task as [page future]. unfold collect_page, items_of. run. cbn [snd].
  destruct (outcome future) as [v|e]; run.
  - destruct (py_iter v); run; now rewrite ?app_nil_r.
  - now rewrite app_nil_r.
Qed.

Lemma fetch_all_outcome (w : world) (total_pages : value) (stop : Z) :
  py_succ total_pages = Ok stop ->
  outcome (fetch_all_submissions w total_pages)
  = Ok (flat_map (fun task => items_of (outcome (snd task)))
          (completion w _ (map (fun page => (page, fetch_page w page)) (range 1 stop)))).
Proof.
  intros H. unfold fetch_all_submissions. run. rewrite H.
  now rewrite (foldM_outcome_app _ (fun task => items_of (outcome (snd task)))
                 (fun _ => True) _ _
                 (fun acc x _ => collect_page_outcome acc x))
    by (apply Forall_forall; auto).
Qed.

Lemma flat_map_ext_in {A B : Type} (f g : A -> list B) (l : list A) :
  (forall x, In x l -> f x = g x) -> flat_map f l = flat_map g l.
Proof.
  induction l as [|x l IH]; intros H; [reflexivity|]. cbn.
  rewrite (H x (or_introl eq_refl)), IH; auto. intros y Hy. apply H. now right.
Qed.

Lemma flat_map_of_map {A B C : Type} (g : A -> B) (f : B -> list C) (l : list A) :
  flat_map f (map g l) = flat_map (fun x => f (g x)) l.
Proof. induction l as [|x l IH]; cbn; congruence. Qed.

Lemma fetch_all_merged (w : world) (total_pages : value) (stop : Z) :
  fair w -> py_succ total_pages = Ok stop ->
  exists order,
    Permutation order (range 1 stop)
    /\ outcome (fetch_all_submissions w total_pages)
       = Ok (flat_map (contribution w) order).
Proof.
  intros Hw H.
  set (futures := map (fun page => (page, fetch_page w page)) (range 1 stop)).
  exists (map fst (completion w _ futures)). split.
  - replace (range 1 stop) with (map fst futures).
    + apply Permutation_map, Hw.
    + unfold futures. rewrite map_map. cbn. apply map_id.
  - rewrite (fetch_all_outcome w total_pages stop H). fold futures. f_equal.
    rewrite flat_map_of_map. apply flat_map_ext_in. intros [page future] Hin.
    apply (Permutation_in _ (Hw _ futures)) in Hin.
    unfold futures in Hin. apply in_map_iff in Hin as (p & [= <- <-] & _).
    reflexivity.
Qed.

(** C6.  fetch_page never raises; on a status other than 200, or on any
    exception raised while requesting the page or reading its body, it
    logs an error and returns the empty list.  In the merged list of
    fetch_all_submissions each page contributes what its own reply holds:
    a failing page contributes nothing, and the result of a page depends
    on the reply to that page only. *)
Theorem C6_page_failure_is_isolated :
  (forall (w : world) (page : Z), exists v, outcome (fetch_page w page) = Ok v)
  /\ (forall (w : world) (page : Z) (e : exn),
         listing w page = HttpError e \/ listing w page = HttpReply 200 (Raise e) ->
         page_fails w page)
  /\ (forall (w : world) (page : Z),
         page_fails w page ->
         outcome (fetch_page w page) = Ok (VList [])
         /\ Exists is_error_log (trace (fetch_page w page))
         /\ contribution w page = [])
  /\ (forall (w : world) (n : Z),
         fair w ->
         exists order,
           Permutation order (range 1 (n + 1))
           /\ outcome (fetch_all_submissions w (VInt n))
              = Ok (flat_map (contribution w) order))
  /\ (forall (w w' : world) (page : Z),
         listing w page = listing w' page ->
         fetch_page w page = fetch_page w' page
         /\ contribution w page = contribution w' page).
Proof.
  split; [|split; [|split; [|split]]].
  - apply fetch_page_never_raises.
  - intros w page e [H|H]; right; exists e.
    + now apply fetch_page_try_transport.
    + now apply fetch_page_try_parse.
  - apply fetch_page_fails.
  - intros w n Hw. now apply (fetch_all_merged w (VInt n) (n + 1)).
  - intros w w' page H. unfold contribution.
    now rewrite (fetch_page_local w w' page H).
Qed.

(** ** C5 *)

Lemma harv_record_hash (e : value) : hash_of (harv_record e) = hash_of e.
Proof. destruct e; reflexivity. Qed.

Lemma append_inj_l (p s1 s2 : string) : (p ++ s1 = p ++ s2)%string -> s1 = s2.
Proof. induction p as [|c p IH]; cbn; [auto|]. intros [= H]. auto. Qed.

Lemma NoDup_map_inj_in {A B} (f : A -> B) (l : list A) :
  (forall x y, In x l -> In y l -> f x = f y -> x = y) ->
  NoDup (map f l) <-> NoDup l.
Proof.
  intros Hinj. split; [apply NoDup_map_inv|].
  intros H. induction H as [|x l Hx _ IH]; [constructor|].
  cbn [map]. constructor.
  - intros Hin. apply in_map_iff in Hin as (y & Hy & Hin).
    apply Hx. rewrite <- (Hinj y x); auto; [now right | now left].
  - apply IH. intros a b Ha Hb. apply Hinj; now right.
Qed.

(** C5 (as the code has it).  Neither fetch_all_submissions nor step 3 of
    main removes duplicates: the merged list is the concatenation of the
    pages' entries in completion order, and the prepared records are, in
    order, one per entry that has a hash, each carrying the hash of its
    entry and the url derived from it.  So the hashes of the merged record
    set are pairwise distinct exactly when those of the fetched raw entries
    that have a hash are; when these hashes are strings, the same holds of
    the urls derived from them.  (A number and the string of its digits are
    two hashes with one url.) *)
Theorem C5_hashes_as_fetched (w : world) (n : Z) :
  fair w ->
  (forall page, Forall is_dict (contribution w page)) ->
  exists order all data urls,
    Permutation order (range 1 (n + 1))
    /\ all = flat_map (contribution w) order
    /\ outcome (fetch_all_submissions w (VInt n)) = Ok all
    /\ outcome (Harv.prepare all ([], [])) = Ok (data, urls)
    /\ map hash_of data = map hash_of (filter has_hash all)
    /\ urls = map Harv.submission_url_of (map hash_of data)
    /\ (NoDup (map hash_of data) <-> NoDup (map hash_of (filter has_hash all)))
    /\ (Forall string_hash (filter has_hash all) ->
        (NoDup urls <-> NoDup (map hash_of (filter has_hash all))))
    /\ Harv.submission_url_of (VInt 5) = Harv.submission_url_of (VStr "5").
Proof.
  intros Hw Hd.
  destruct (fetch_all_merged w (VInt n) (n + 1) Hw eq_refl) as (order & Hp & Ho).
  assert (H : Forall is_dict (flat_map (contribution w) order)).
  { apply Forall_flat_map, Forall_forall. intros page _. apply Hd. }
  exists order, (flat_map (contribution w) order). do 2 eexists.
  split; [exact Hp|]. split; [reflexivity|]. split; [exact Ho|].
  split; [apply (harv_prepare_outcome _ [] [] H)|]. cbn [app].
  set (kept := filter has_hash (flat_map (contribution w) order)).
  assert (Heq : map hash_of (map harv_record kept) = map hash_of kept).
  { rewrite map_map. apply map_ext. apply harv_record_hash. }
  assert (Hu : map harv_url kept = map Harv.submission_url_of (map hash_of kept)).
  { rewrite map_map. apply map_ext_in. intros e He.
    apply filter_In in He as [_ He]. destruct e; try discriminate. reflexivity. }
  split; [exact Heq|]. split; [now rewrite Heq|]. split; [now rewrite Heq|].
  split; [|reflexivity].
  intros Hs. rewrite Hu. apply NoDup_map_inj_in.
  intros x y Hx Hy Hxy.
  apply in_map_iff in Hx as (ex & <- & Hex), Hy as (ey & <- & Hey).
  rewrite Forall_forall in Hs.
  destruct (Hs ex Hex) as [sx Hsx], (Hs ey Hey) as [sy Hsy].
  rewrite Hsx, Hsy in *. unfold Harv.submission_url_of in Hxy. cbn [str] in Hxy.
  now rewrite (append_inj_l _ _ _ Hxy).
Qed.

Lemma C5_witness :
  exists order all data urls,
    Permutation order (range 1 (1 + 1))
    /\ all = flat_map (contribution three_entries) order
    /\ outcome (fetch_all_submissions three_entries (VInt 1)) = Ok all
    /\ outcome (Harv.prepare all ([], [])) = Ok (data, urls)
    /\ map hash_of data = map hash_of (filter has_hash all)
    /\ urls = map Harv.submission_url_of (map hash_of data)
    /\ (NoDup (map hash_of data) <-> NoDup (map hash_of (filter has_hash all)))
    /\ (Forall string_hash (filter has_hash all) ->
        (NoDup urls <-> NoDup (map hash_of (filter has_hash all))))
    /\ Harv.submission_url_of (VInt 5) = Harv.submission_url_of (VStr "5").
Proof.
  apply (C5_hashes_as_fetched three_entries 1).
  - apply sample_world_fair.
  - intros page. repeat constructor; now eexists.
Defined.

(** C5 as stated fails: when two fetched pages list the same hash, the
    merged record set holds two records with that hash (and the same
    url). *)
Lemma C5_counterexample :
  exists r,
    outcome (fetch_all_submissions twice_listed (VInt 2))
    = Ok [entry "abc" "Trailer"; entry "abc" "Trailer"]
    /\ outcome (Harv.prepare [entry "abc" "Trailer"; entry "abc" "Trailer"] ([], []))
       = Ok ([r; r], ["https://editfest.filmsupply.com/submissions/abc";
                      "https://editfest.filmsupply.com/submissions/abc"])
    /\ hash_of r = VStr "abc"
    /\ ~ NoDup (map hash_of [r; r]).
Proof.
  eexists. split; [reflexivity|]. split; [reflexivity|]. split; [reflexivity|].
  intros H. inversion H as [|x l Hn _]. apply Hn. now left.
Qed.

(** ** C7 *)

Lemma harv_discover_fails (w : world) :
  first_page_fails w ->
  exists ev, is_error_log ev /\ Harv.discover w = ([HttpGet 1; ev], Ok None).
Proof.
  unfold Harv.discover.
  intros [status json H Hs | e H | e H | data e H Hm | data meta e H Hm Hl];
    rewrite H; try (apply Z.eqb_neq in Hs; rewrite Hs);
    cbn -[py_get]; rewrite ?Hm; cbn -[py_get]; rewrite ?Hl; cbn;
    (eexists; split; [do 2 eexists; reflexivity | reflexivity]).
Qed.

Lemma htv_discover_fails (w : world) :
  first_page_fails w ->
  exists ev, is_error_log ev /\ HarvTitlesVotes.discover w = ([HttpGet 1; ev], Ok None).
Proof.
  unfold HarvTitlesVotes.discover.
  intros [status json H Hs | e H | e H | data e H Hm | data meta e H Hm Hl];
    rewrite H; try (apply Z.eqb_neq in Hs; rewrite Hs);
    cbn -[py_get]; rewrite ?Hm; cbn -[py_get]; rewrite ?Hl; cbn;
    (eexists; split; [do 2 eexists; reflexivity | reflexivity]).
Qed.

(** C7.  When main's request for page 1 fails, the run ends there: the
    whole trace of main is that request followed by one ERROR log record
    (so no page task is dispatched, no session is started and no file is
    written), and main returns.  The failure reaches the operator as the
    ERROR record; main itself returns normally, without raising.  Both
    scripts. *)
Theorem C7_first_page_failure_aborts (w : world) :
  first_page_fails w ->
  (exists ev, is_error_log ev /\ Harv.main w = ([HttpGet 1; ev], Ok tt))
  /\ (exists ev, is_error_log ev /\ HarvTitlesVotes.main w = ([HttpGet 1; ev], Ok tt)).
Proof.
  intros H. split.
  - destruct (harv_discover_fails w H) as (ev & Hev & Hd).
    exists ev. split; [exact Hev|]. unfold Harv.main. now rewrite Hd.
  - destruct (htv_discover_fails w H) as (ev & Hev & Hd).
    exists ev. split; [exact Hev|]. unfold HarvTitlesVotes.main. now rewrite Hd.
Qed.

Lemma C7_witness :
  (exists ev, is_error_log ev
              /\ Harv.main (sample_world (HttpReply 503 (Raise JSONDecodeError))
                                         (fun _ => page_of [sample_record]))
                 = ([HttpGet 1; ev], Ok tt))
  /\ (exists ev, is_error_log ev
                 /\ HarvTitlesVotes.main
                      (sample_world (HttpReply 503 (Raise JSONDecodeError))
                                    (fun _ => page_of [sample_record]))
                    = ([HttpGet 1; ev], Ok tt)).
Proof.
  apply C7_first_page_failure_aborts.
  apply (fails_status _ 503 (Raise JSONDecodeError)); [reflexivity | lia].
Defined.

(** ** Which pages a run requests *)

Lemma gets_app (t t' : list event) : gets (t ++ t') = gets t ++ gets t'.
Proof.
  induction t as [|ev t IH]; [reflexivity|].
  destruct ev; cbn; rewrite IH; reflexivity.
Qed.

Lemma quiet_bind {A B} (m : M A) (k : A -> M B) :
  quiet m -> (forall a, quiet (k a)) -> quiet (bind m k).
Proof.
  unfold quiet. intros Hm Hk. rewrite trace_bind, gets_app, Hm.
  destruct (outcome m); [apply Hk | reflexivity].
Qed.

Lemma quiet_try {A} (m : M A) (h : exn -> M A) :
  quiet m -> (forall e, quiet (h e)) -> quiet (try_except m h).
Proof.
  unfold quiet. intros Hm Hh. rewrite trace_try, gets_app, Hm.
  destruct (outcome m); [reflexivity | apply Hh].
Qed.

Lemma quiet_foldM {A S} (f : S -> A -> M S) (l : list A) (s : S) :
  (forall s x, quiet (f s x)) -> quiet (foldM f l s).
Proof.
  intros Hf; revert s; induction l as [|x l IH]; intros s; [reflexivity|].
  cbn [foldM]. apply quiet_bind; auto.
Qed.

Lemma quiet_ret {A} (a : A) : quiet (ret a).
Proof. reflexivity. Qed.
Lemma quiet_lift {A} (r : result A) : quiet (lift r).
Proof. reflexivity. Qed.
Lemma quiet_log lvl text args : quiet (log lvl text args).
Proof. reflexivity. Qed.

Ltac quiet_step :=
  first
    [ apply quiet_ret | apply quiet_lift | apply quiet_log | reflexivity
    | apply quiet_foldM; intros
    | apply quiet_bind; [|intros]
    | apply quiet_try; [|intros]
    | match goal with
      | |- quiet (if ?b then _ else _) => destruct b
      | |- quiet (match ?x with _ => _ end) => destruct x
      | |- quiet (let (_, _) := ?x in _) => destruct x
      end ].

Ltac quiet := repeat quiet_step.

Lemma quiet_scan_votes (indent : string) (idx : Z) (texts : list string) :
  quiet (scan_votes indent idx texts).
Proof.
  revert idx; induction texts as [|t texts IH]; intros idx; [reflexivity|].
  cbn [scan_votes]. apply quiet_bind; [reflexivity|]. intros _.
  destruct (re_search_digits t) as [group1|].
  - destruct (py_int group1); reflexivity.
  - apply quiet_bind; [reflexivity|]. intros _. apply IH.
Qed.

Lemma quiet_harv_prepare (all : list value) (state : list value * list string) :
  quiet (Harv.prepare all state).
Proof. unfold Harv.prepare, Harv.prepare_one. quiet. Qed.

Lemma quiet_htv_prepare (all : list value) : quiet (HarvTitlesVotes.prepare all).
Proof. unfold HarvTitlesVotes.prepare, HarvTitlesVotes.prepare_one. quiet. Qed.

Lemma quiet_harv_extract_votes (w : world) (s : value) : quiet (Harv.extract_votes w s).
Proof.
  unfold Harv.extract_votes, Harv.extract_votes_try, Harv.extract_votes_except,
    Harv.close_driver.
  quiet; apply quiet_scan_votes.
Qed.

Lemma quiet_htv_extract (w : world) (s : value) :
  quiet (HarvTitlesVotes.extract_submission_details w s).
Proof.
  unfold HarvTitlesVotes.extract_submission_details, HarvTitlesVotes.details_try,
    HarvTitlesVotes.details_except, HarvTitlesVotes.close_driver,
    HarvTitlesVotes.extract_title, HarvTitlesVotes.extract_votes.
  quiet; apply quiet_scan_votes.
Qed.

Lemma quiet_harv_extract_all (w : world) (data : list value) :
  fair w -> quiet (Harv.extract_all_votes w data).
Proof.
  intros Hw. unfold Harv.extract_all_votes.
  set (futures := map _ data).
  assert (H : Forall (fun task : M value * value => quiet (fst task))
                     (completion w _ futures)).
  { apply fair_Forall; [assumption|]. unfold futures. rewrite Forall_map.
    apply Forall_forall. intros s _. apply quiet_harv_extract_votes. }
  generalize (@nil value). induction H as [|[future s] tasks Hq _ IH]; intros acc.
  - reflexivity.
  - cbn [foldM]. apply quiet_bind; [|intros; apply IH].
    unfold Harv.collect_votes. quiet. exact Hq.
Qed.

Lemma quiet_htv_extract_all (w : world) (data : list value) :
  fair w -> quiet (HarvTitlesVotes.extract_all_submission_details w data).
Proof.
  intros Hw. unfold HarvTitlesVotes.extract_all_submission_details.
  set (futures := map _ data).
  assert (H : Forall (fun task : M value * value => quiet (fst task))
                     (completion w _ futures)).
  { apply fair_Forall; [assumption|]. unfold futures. rewrite Forall_map.
    apply Forall_forall. intros s _. apply quiet_htv_extract. }
  generalize (@nil value). induction H as [|[future s] tasks Hq _ IH]; intros acc.
  - reflexivity.
  - cbn [foldM]. apply quiet_bind; [|intros; apply IH].
    unfold HarvTitlesVotes.collect_details. quiet. exact Hq.
Qed.

Lemma quiet_writerow (file : string) (fieldnames : list string) (row : value) :
  quiet (writerow file fieldnames row).
Proof. unfold writerow. quiet. Qed.

Lemma quiet_harv_save_csv (w : world) (updated : list value) :
  quiet (Harv.save_csv w updated).
Proof. unfold Harv.save_csv, writerows, writeheader. quiet; try apply quiet_writerow. Qed.

Lemma quiet_harv_save_urls (w : world) (urls : list string) :
  quiet (Harv.save_urls w urls).
Proof. unfold Harv.save_urls. quiet. Qed.

Lemma quiet_htv_save_csv (w : world) (updated : list value) :
  quiet (HarvTitlesVotes.save_csv w updated).
Proof. unfold HarvTitlesVotes.save_csv, writeheader. quiet; try apply quiet_writerow. Qed.

Lemma quiet_htv_save_urls (w : world) (updated : list value) :
  quiet (HarvTitlesVotes.save_urls w updated).
Proof. unfold HarvTitlesVotes.save_urls. quiet. Qed.

(** ** C10 *)

Lemma harv_discover_default (w : world) (data : value) :
  first_page w = HttpReply 200 (Ok data) -> lacks_last_page data ->
  Harv.discover w = ([HttpGet 1; total_pages_log (VInt 1)], Ok (Some (VInt 1))).
Proof.
  intros H (d & -> & [Hm | (m & Hm & Hl)]); unfold Harv.discover; rewrite H;
    cbn; rewrite Hm; cbn; rewrite ?Hl; reflexivity.
Qed.

Lemma htv_discover_default (w : world) (data : value) :
  first_page w = HttpReply 200 (Ok data) -> lacks_last_page data ->
  HarvTitlesVotes.discover w
  = ([HttpGet 1; total_pages_log (VInt 1)], Ok (Some (VInt 1))).
Proof.
  intros H (d & -> & [Hm | (m & Hm & Hl)]); unfold HarvTitlesVotes.discover;
    rewrite H; cbn; rewrite Hm; cbn; rewrite ?Hl; reflexivity.
Qed.

Lemma gets_bind {A B} (m : M A) (k : A -> M B) :
  gets (trace (bind m k))
  = gets (trace m) ++ match outcome m with
                      | Ok a => gets (trace (k a))
                      | Raise _ => []
                      end.
Proof. rewrite trace_bind, gets_app. now destruct (outcome m). Qed.

Lemma gets_fetch_page (w : world) (page : Z) :
  gets (trace (fetch_page w page)) = [page].
Proof.
  unfold fetch_page. rewrite trace_try, gets_app.
  assert (Hq : forall e,
             quiet (log ERROR "Exception while fetching page {page_number}: {e}"
                        [V (VInt page); E e] ;; ret (VList []))) by (intros; quiet).
  assert (Ht : gets (trace (fetch_page_try w page)) = [page]).
  { unfold fetch_page_try. rewrite gets_bind. cbn [trace emit fst gets outcome snd app].
    f_equal. destruct (listing w page); [reflexivity|].
    match goal with |- gets (trace ?m) = [] => change (quiet m) end. quiet. }
  rewrite Ht. destruct (outcome (fetch_page_try w page)); [reflexivity|].
  now rewrite (Hq e).
Qed.

Lemma fetch_all_one_page (w : world) :
  fair w ->
  outcome (fetch_all_submissions w (VInt 1)) = Ok (contribution w 1)
  /\ gets (trace (fetch_all_submissions w (VInt 1))) = [1].
Proof.
  intros Hw.
  assert (Hc : completion w _ [(1, fetch_page w 1)] = [(1, fetch_page w 1)]).
  { apply Permutation_length_1_inv, Permutation_sym, Hw. }
  unfold fetch_all_submissions. rewrite outcome_bind, gets_bind.
  cbn [py_succ lift outcome trace fst snd gets app].
  change (range 1 (1 + 1)) with [1]. cbn [map]. rewrite Hc. cbn [foldM].
  rewrite outcome_bind, gets_bind, collect_page_outcome. cbn [snd app].
  split; [reflexivity|].
  cbn [ret trace fst gets]. rewrite app_nil_r.
  unfold collect_page. rewrite trace_try, gets_app, !gets_bind, gets_fetch_page.
  destruct (fetch_page_never_raises w 1) as (v & Hv).
  rewrite Hv. run. rewrite Hv. run.
  destruct (py_iter v); reflexivity.
Qed.

Lemma gets_harv_harvest_one (w : world) :
  fair w -> gets (trace (Harv.harvest w (VInt 1))) = [1].
Proof.
  intros Hw. destruct (fetch_all_one_page w Hw) as [Ho Hg].
  unfold Harv.harvest. rewrite gets_bind. cbn [log emit trace outcome fst snd gets app].
  rewrite gets_bind, Hg, Ho. cbn [app]. f_equal.
  match goal with |- gets (trace ?m) = [] => change (quiet m) end.
  repeat first [ apply quiet_log | apply quiet_harv_prepare
               | apply quiet_harv_extract_all; assumption
               | apply quiet_harv_save_csv | apply quiet_harv_save_urls
               | apply quiet_bind; [|intros] ].
Qed.

Lemma gets_htv_harvest_one (w : world) :
  fair w -> gets (trace (HarvTitlesVotes.harvest w (VInt 1))) = [1].
Proof.
  intros Hw. destruct (fetch_all_one_page w Hw) as [Ho Hg].
  unfold HarvTitlesVotes.harvest. rewrite gets_bind.
  cbn [log emit trace outcome fst snd gets app].
  rewrite gets_bind, Hg, Ho. cbn [app]. f_equal.
  match goal with |- gets (trace ?m) = [] => change (quiet m) end.
  repeat first [ apply quiet_log | apply quiet_htv_prepare
               | apply quiet_htv_extract_all; assumption
               | apply quiet_htv_save_csv | apply quiet_htv_save_urls
               | apply quiet_bind; [|intros] ].
Qed.

Lemma harv_discover_unusable (w : world) (data : value) :
  first_page w = HttpReply 200 (Ok data) -> meta_unusable data ->
  Harv.discover w = ([HttpGet 1; first_page_exception AttributeError], Ok None).
Proof.
  intros H Hm. unfold Harv.discover. rewrite H.
  destruct Hm as [Hd | (d & v & -> & Hv & Hm)].
  - destruct data; try reflexivity. now destruct (Hd d).
  - cbn. rewrite Hv. destruct v; try reflexivity. now destruct (Hm d0).
Qed.

Lemma htv_discover_unusable (w : world) (data : value) :
  first_page w = HttpReply 200 (Ok data) -> meta_unusable data ->
  HarvTitlesVotes.discover w
  = ([HttpGet 1; first_page_exception AttributeError], Ok None).
Proof.
  intros H Hm. unfold HarvTitlesVotes.discover. rewrite H.
  destruct Hm as [Hd | (d & v & -> & Hv & Hm)].
  - destruct data; try reflexivity. now destruct (Hd d).
  - cbn. rewrite Hv. destruct v; try reflexivity. now destruct (Hm d0).
Qed.

(** C10 (as the code has it).  Page 1 answers 200 with well-formed JSON.
    When the body is an object that has no meta key, or whose meta is an
    object with no last_page, main does not return early and logs no
    warning or error for it: it takes the page count to be 1 and goes on.
    The listing pool then fetches page 1 only, the merged list is what that
    one reply contributes, and over the whole run the only page requested
    is page 1 (once by main, once by the pool).  When the body is not an
    object, or its meta is present and not an object (null, a list), the
    lookup raises AttributeError inside the [try] of step 1 and the run
    aborts as for a failed first page: the whole trace of main is the
    request and one ERROR record.  Both scripts. *)
Theorem C10_missing_last_page_means_one_page (w : world) (data : value) :
  first_page w = HttpReply 200 (Ok data) ->
  (lacks_last_page data ->
   fair w ->
   (Harv.discover w = ([HttpGet 1; total_pages_log (VInt 1)], Ok (Some (VInt 1)))
    /\ trace (Harv.main w)
       = [HttpGet 1; total_pages_log (VInt 1)] ++ trace (Harv.harvest w (VInt 1))
    /\ outcome (Harv.main w) = outcome (Harv.harvest w (VInt 1))
    /\ gets (trace (Harv.main w)) = [1; 1])
   /\ (HarvTitlesVotes.discover w
       = ([HttpGet 1; total_pages_log (VInt 1)], Ok (Some (VInt 1)))
       /\ trace (HarvTitlesVotes.main w)
          = [HttpGet 1; total_pages_log (VInt 1)]
              ++ trace (HarvTitlesVotes.harvest w (VInt 1))
       /\ outcome (HarvTitlesVotes.main w) = outcome (HarvTitlesVotes.harvest w (VInt 1))
       /\ gets (trace (HarvTitlesVotes.main w)) = [1; 1])
   /\ outcome (fetch_all_submissions w (VInt 1)) = Ok (contribution w 1))
  /\ (meta_unusable data ->
      Harv.main w = ([HttpGet 1; first_page_exception AttributeError], Ok tt)
      /\ HarvTitlesVotes.main w
         = ([HttpGet 1; first_page_exception AttributeError], Ok tt)).
Proof.
  intros H. split.
  - intros Hl Hw. split; [|split].
    + pose proof (harv_discover_default w data H Hl) as Hd.
      split; [exact Hd|]. unfold Harv.main. rewrite trace_bind, outcome_bind, Hd.
      cbn [trace outcome fst snd]. repeat split.
      rewrite gets_app, gets_harv_harvest_one by assumption. reflexivity.
    + pose proof (htv_discover_default w data H Hl) as Hd.
      split; [exact Hd|]. unfold HarvTitlesVotes.main.
      rewrite trace_bind, outcome_bind, Hd.
      cbn [trace outcome fst snd]. repeat split.
      rewrite gets_app, gets_htv_harvest_one by assumption. reflexivity.
    + now apply fetch_all_one_page.
  - intros Hm. split.
    + unfold Harv.main. now rewrite (harv_discover_unusable w data H Hm).
    + unfold HarvTitlesVotes.main. now rewrite (htv_discover_unusable w data H Hm).
Qed.

Lemma C10_witness :
  (Harv.discover (sample_world (HttpReply 200 (Ok (VDict [("data", VList [])])))
                               (fun _ => page_of [sample_record]))
   = ([HttpGet 1; total_pages_log (VInt 1)], Ok (Some (VInt 1))))
  /\ gets (trace (HarvTitlesVotes.main
                    (sample_world (HttpReply 200 (Ok (VDict [("data", VList [])])))
                                  (fun _ => page_of [sample_record]))))
     = [1; 1].
Proof.
  pose proof (proj1 (C10_missing_last_page_means_one_page
                       (sample_world (HttpReply 200 (Ok (VDict [("data", VList [])])))
                                     (fun _ => page_of [sample_record]))
                       (VDict [("data", VList [])]) eq_refl)
                (ex_intro _ [("data", VList [])] (conj eq_refl (or_introl eq_refl)))
                (sample_world_fair _ _))
    as [[Hd _] [[_ [_ [_ Hg]]] _]].
  split; [exact Hd | exact Hg].
Defined.

(** C10 as stated fails for a body whose meta is null: the request for
    page 1 succeeded with well-formed JSON and the body lacks a meta
    object, yet the harvest aborts; no page count is assumed and nothing is
    fetched by the pool.  Both scripts. *)
Lemma C10_counterexample :
  first_page meta_null
  = HttpReply 200 (Ok (VDict [("data", VList [sample_record]); ("meta", VNone)]))
  /\ Harv.main meta_null = ([HttpGet 1; first_page_exception AttributeError], Ok tt)
  /\ HarvTitlesVotes.main meta_null
     = ([HttpGet 1; first_page_exception AttributeError], Ok tt).
Proof. repeat split. Qed.

(** ** C8 *)

Lemma htv_write_record (d : list (string * value)) :
  (row <- lift (HarvTitlesVotes.row_of (VDict d)) ;;
   writerow "titles_votes.csv" HarvTitlesVotes.keys row)
  = ([WriteRow htv_csv (htv_cells (VDict d))], Ok tt).
Proof. reflexivity. Qed.

Lemma htv_write_records (updated : list value) :
  Forall is_dict updated ->
  foldM (fun _ submission =>
           row <- lift (HarvTitlesVotes.row_of submission) ;;
           writerow "titles_votes.csv" HarvTitlesVotes.keys row) updated tt
  = (map (fun r => WriteRow htv_csv (htv_cells r)) updated, Ok tt).
Proof.
  induction 1 as [|r updated [d ->] _ IH]; [reflexivity|].
  cbn [foldM map]. rewrite htv_write_record. cbn [bind]. rewrite IH. reflexivity.
Qed.

Lemma htv_save_csv_trace (w : world) (updated : list value) :
  open_csv w = Ok tt -> Forall is_dict updated ->
  HarvTitlesVotes.save_csv w updated
  = (Log INFO "\nSaving submission data to 'titles_votes.csv'..." []
       :: WriteRow htv_csv HarvTitlesVotes.keys
       :: map (fun r => WriteRow htv_csv (htv_cells r)) updated
       ++ [Log INFO "Submission data has been saved to 'titles_votes.csv'." []],
     Ok tt).
Proof.
  intros Ho H. rewrite (M_eta (HarvTitlesVotes.save_csv w updated)).
  unfold HarvTitlesVotes.save_csv. run. rewrite Ho. run.
  rewrite (htv_write_records updated H).
  cbn [writeheader emit trace outcome fst snd app]. now rewrite app_nil_r.
Qed.

(** harv.py hands its records to a DictWriter whose field names leave out
    "hash": a record that has that key, as every prepared record has, is
    rejected with ValueError, and the row is not written. *)
Lemma harv_writer_rejects_hash (d : list (string * value)) :
  In "hash" (dict_keys d) ->
  writerow "submissions.csv" Harv.keys (VDict d) = ([], Raise ValueError).
Proof.
  intros H. unfold writerow, dict_to_list.
  destruct (forallb _ (dict_keys d)) eqn:E; [|reflexivity].
  rewrite forallb_forall in E. specialize (E _ H). discriminate E.
Qed.

(** C8 (as the code has it).  harv_titles_votes.py writes a header and
    then one row per enriched record, in the fixed column order url,
    title, votes, name, category, hash; in a row a title or votes that is
    None, or a key that is absent, gives an empty cell.  The header of
    harv.py is url, title, name, category, votes. *)
Theorem C8_csv_columns :
  HarvTitlesVotes.keys = ["url"; "title"; "votes"; "name"; "category"; "hash"]
  /\ (forall (w : world) (updated : list value),
         open_csv w = Ok tt -> Forall is_dict updated ->
         HarvTitlesVotes.save_csv w updated
         = (Log INFO "\nSaving submission data to 'titles_votes.csv'..." []
              :: WriteRow htv_csv HarvTitlesVotes.keys
              :: map (fun r => WriteRow htv_csv (htv_cells r)) updated
              ++ [Log INFO "Submission data has been saved to 'titles_votes.csv'." []],
            Ok tt))
  /\ (forall d : list (string * value),
         htv_cells (VDict d)
         = [csv_field (field "url" d (VStr EmptyString));
            csv_field (field "title" d (VStr EmptyString));
            csv_field (field "votes" d (VStr EmptyString));
            csv_field (field "name" d (VStr EmptyString));
            csv_field (field "category" d (VStr EmptyString));
            csv_field (field "hash" d (VStr EmptyString))])
  /\ (forall (key : string) (d : list (string * value)),
         dict_get key d = Some VNone \/ dict_get key d = None ->
         csv_field (field key d (VStr EmptyString)) = EmptyString)
  /\ (forall (w : world) (updated : list value),
         open_csv w = Ok tt ->
         exists rest,
           trace (Harv.save_csv w updated)
           = Log INFO "\nSaving submission data to 'submissions.csv'..." []
               :: WriteRow "submissions.csv" ["url"; "title"; "name"; "category"; "votes"]
               :: rest).
Proof.
  split; [reflexivity|]. split; [apply htv_save_csv_trace|].
  split; [reflexivity|]. split.
  - intros key d [H|H]; unfold field; rewrite H; reflexivity.
  - intros w updated Ho. unfold Harv.save_csv. rewrite Ho.
    rewrite trace_bind. cbn [log emit trace outcome fst snd app].
    rewrite trace_try, trace_bind. cbn [lift trace outcome fst snd app].
    rewrite trace_bind. cbn [writeheader emit trace outcome fst snd app].
    eexists. reflexivity.
Qed.

Lemma C8_witness :
  HarvTitlesVotes.save_csv (sample_world (page_of []) (fun _ => page_of []))
                           [VDict [("hash", VStr "abc"); ("votes", VNone)]]
  = (Log INFO "\nSaving submission data to 'titles_votes.csv'..." []
       :: WriteRow htv_csv HarvTitlesVotes.keys
       :: map (fun r => WriteRow htv_csv (htv_cells r))
              [VDict [("hash", VStr "abc"); ("votes", VNone)]]
       ++ [Log INFO "Submission data has been saved to 'titles_votes.csv'." []],
     Ok tt).
Proof.
  apply (proj1 (proj2 C8_csv_columns)).
  - reflexivity.
  - repeat constructor. now eexists.
Defined.

(** C8 as stated fails: neither script writes the columns in the order
    url, title, name, category, hash, votes.  For an enriched record
    harv_titles_votes.py puts votes third and hash last. *)
Lemma C8_counterexample :
  trace (HarvTitlesVotes.save_csv
           (sample_world (page_of []) (fun _ => page_of []))
           [VDict [("hash", VStr "abc"); ("title", VStr "Reel"); ("name", VStr "Ann");
                   ("category", VStr "Title Sequence"); ("votes", VInt 3);
                   ("url", VStr "https://editfest.filmsupply.com/submissions/abc")]])
  = [Log INFO "\nSaving submission data to 'titles_votes.csv'..." [];
     WriteRow "titles_votes.csv" ["url"; "title"; "votes"; "name"; "category"; "hash"];
     WriteRow "titles_votes.csv"
              ["https://editfest.filmsupply.com/submissions/abc"; "Reel"; "3"; "Ann";
               "Title Sequence"; "abc"];
     Log INFO "Submission data has been saved to 'titles_votes.csv'." []]
  /\ HarvTitlesVotes.keys <> claimed_columns
  /\ Harv.keys <> claimed_columns.
Proof. split; [reflexivity|]. split; discriminate. Qed.

(** ** Closed instances *)

Lemma C1_witness :
  outcome (scan_votes EmptyString 1 (["no data"] ++ "Vote #3 of 120" :: ["99 votes"]))
  = Ok (VInt (int_of_digits "3"))
  /\ first_votes (["no data"] ++ "Vote #3 of 120" :: ["99 votes"])
     = VInt (int_of_digits "3")
  /\ scan_votes EmptyString 1 (["no data"] ++ "Vote #3 of 120" :: ["99 votes"])
     = scan_votes EmptyString 1 (["no data"] ++ ["Vote #3 of 120"]).
Proof.
  apply (proj1 (C1_first_digit_run_wins EmptyString)).
  - repeat constructor.
  - exists "Vote #", " of 120". repeat split. discriminate.
  - apply Nat.leb_le. reflexivity.
Defined.

(** C1 as stated fails for a marker text whose first digit run has more
    than 4300 digits: the text has a digit run, yet the loop raises
    ValueError instead of returning its value, and harv.py stores votes
    None for the record. *)
Lemma C1_counterexample :
  first_digit_run long_run long_run
  /\ String.length long_run = 4301%nat
  /\ outcome (scan_votes EmptyString 1 [long_run]) = Raise ValueError
  /\ exists d1,
       outcome (Harv.extract_votes long_run_world sample_record) = Ok (VDict d1)
       /\ dict_get "votes" d1 = Some VNone.
Proof.
  split; [|split; [|split]].
  - exists EmptyString, EmptyString. repeat split; try (vm_compute; reflexivity).
    intros H. apply (f_equal String.length) in H. vm_compute in H. discriminate H.
  - vm_compute. reflexivity.
  - vm_compute. reflexivity.
  - eexists. split; vm_compute; reflexivity.
Qed.



Lemma C6_witness :
  outcome (fetch_page page_two_down 2) = Ok (VList [])
  /\ Exists is_error_log (trace (fetch_page page_two_down 2))
  /\ contribution page_two_down 2 = [].
Proof.
  apply (proj1 (proj2 (proj2 C6_page_failure_is_isolated))).
  apply (proj1 (proj2 C6_page_failure_is_isolated) page_two_down 2 RequestException).
  left. reflexivity.
Defined.

Lemma C9_witness :
  exists d1,
    outcome (HarvTitlesVotes.extract_submission_details
               (sample_world (page_of []) (fun _ => page_of []))
               (VDict [("hash", VStr "abc")]))
    = Ok (VDict d1)
    /\ dict_get "title" d1 = Some (htv_title_of (Ok " Reel "))
    /\ dict_get "votes" d1 = Some (htv_votes_of (Ok ["Vote #3 of 120"]))
    /\ outcome (HarvTitlesVotes.extract_submission_details
                  (sample_world (page_of []) (fun _ => page_of []))
                  (VDict d1))
       = Ok (VDict d1).
Proof.
  apply (proj1 (proj2 C9_extraction_idempotent)
               (sample_world (page_of []) (fun _ => page_of []))
               [("hash", VStr "abc")]
               (sample_session ["Vote #3 of 120"] " Reel ")); reflexivity.
Defined.


(* ================================================================== *)
(** * Further properties of the two scripts *)

(** ** Selecting events of one kind from a trace *)

Section Select.

Context {X : Type} (pick : event -> option X).

Lemma select_app (t t' : list event) :
  select pick (t ++ t') = select pick t ++ select pick t'.
Proof.
  induction t as [|ev t IH]; [reflexivity|].
  cbn. destruct (pick ev); cbn; now rewrite IH.
Qed.

Lemma select_bind {A B} (m : M A) (k : A -> M B) :
  select pick (trace (bind m k))
  = select pick (trace m) ++ match outcome m with
                             | Ok a => select pick (trace (k a))
                             | Raise _ => []
                             end.
Proof. rewrite trace_bind, select_app. now destruct (outcome m). Qed.

Lemma select_try {A} (m : M A) (h : exn -> M A) :
  select pick (trace (try_except m h))
  = select pick (trace m) ++ match outcome m with
                             | Ok _ => []
                             | Raise e => select pick (trace (h e))
                             end.
Proof. rewrite trace_try, select_app. now destruct (outcome m). Qed.

Lemma without_bind {A B} (m : M A) (k : A -> M B) :
  without pick m -> (forall a, without pick (k a)) -> without pick (bind m k).
Proof.
  unfold without. intros Hm Hk. rewrite select_bind, Hm.
  destruct (outcome m); [apply Hk | reflexivity].
Qed.

Lemma without_try {A} (m : M A) (h : exn -> M A) :
  without pick m -> (forall e, without pick (h e)) -> without pick (try_except m h).
Proof.
  unfold without. intros Hm Hh. rewrite select_try, Hm.
  destruct (outcome m); [reflexivity | apply Hh].
Qed.

Lemma without_foldM {A S} (f : S -> A -> M S) (l : list A) (s : S) :
  (forall s x, without pick (f s x)) -> without pick (foldM f l s).
Proof.
  intros Hf; revert s; induction l as [|x l IH]; intros s; [reflexivity|].
  cbn [foldM]. apply without_bind; auto.
Qed.

Lemma without_ret {A} (a : A) : without pick (ret a).
Proof. reflexivity. Qed.

Lemma without_lift {A} (r : result A) : without pick (lift r).
Proof. reflexivity. Qed.

Lemma without_log lvl text args :
  pick (Log lvl text args) = None -> without pick (log lvl text args).
Proof. intros H. unfold without. cbn. now rewrite H. Qed.

End Select.

Ltac without_step :=
  first
    [ apply without_ret | apply without_lift | apply without_log; reflexivity
    | reflexivity
    | apply without_foldM; intros
    | apply without_bind; [|intros]
    | apply without_try; [|intros]
    | match goal with
      | |- without _ (if ?b then _ else _) => destruct b
      | |- without _ (match ?x with _ => _ end) => destruct x
      | |- without _ (let (_, _) := ?x in _) => destruct x
      end ].

Ltac without := repeat without_step.

(** ** Votes are never negative *)

Lemma digit_value_range (c : ascii) :
  is_digit c = true -> 0 <= digit_value c <= 9.
Proof.
  unfold is_digit, digit_value. intros H.
  apply andb_prop in H as [H1 H2].
  apply Nat.leb_le in H1, H2. lia.
Qed.

Lemma int_acc_nonneg (s : string) (acc : Z) :
  all_digits s = true -> 0 <= acc -> 0 <= int_acc acc s.
Proof.
  revert acc; induction s as [|c s IH]; intros acc H Hacc; [exact Hacc|].
  cbn [int_acc all_digits] in *. apply andb_prop in H as [Hc Hs].
  apply IH; [assumption|]. pose proof (digit_value_range c Hc). lia.
Qed.

Lemma take_digits_all_digits (s : string) : all_digits (take_digits s) = true.
Proof.
  induction s as [|c s IH]; [reflexivity|]. cbn.
  destruct (is_digit c) eqn:Hc; [|reflexivity]. cbn. now rewrite Hc.
Qed.

Lemma re_search_digits_run (text group1 : string) :
  re_search_digits text = Some group1 ->
  all_digits group1 = true /\ group1 <> EmptyString.
Proof.
  induction text as [|c s IH]; [discriminate|]. cbn.
  destruct (is_digit c) eqn:Hc; [|exact IH].
  intros [= <-]. split; [|discriminate]. cbn. rewrite Hc. apply take_digits_all_digits.
Qed.

Lemma scan_result_shape (texts : list string) :
  scan_result texts = Ok VNone
  \/ (exists n, 0 <= n /\ scan_result texts = Ok (VInt n))
  \/ scan_result texts = Raise ValueError.
Proof.
  induction texts as [|t texts IH]; [now left|]. cbn [scan_result].
  destruct (re_search_digits t) as [g|] eqn:Hg; [|exact IH].
  unfold py_int. destruct (Nat.ltb MAX_STR_DIGITS (String.length g)); [now right; right|].
  right; left. eexists. split; [|reflexivity].
  apply int_acc_nonneg; [apply (re_search_digits_run t g Hg) | lia].
Qed.

Lemma re_search_digits_spec (text : string) :
  match re_search_digits text with
  | Some run => first_digit_run text run
  | None => has_digit text = false
  end.
Proof.
  destruct (has_digit text) eqn:Hd.
  - destruct (re_search_some_digit text Hd) as [run Hr].
    now rewrite (re_search_first_run _ _ Hr).
  - now rewrite (re_search_no_digit _ Hd).
Qed.

Lemma scan_result_refused (texts : list string) :
  scan_result texts = Raise ValueError
  <-> exists before text run after,
        texts = before ++ text :: after
        /\ Forall (fun t => has_digit t = false) before
        /\ first_digit_run text run
        /\ (MAX_STR_DIGITS < String.length run)%nat.
Proof.
  split.
  - induction texts as [|t texts IH]; [discriminate|]. cbn [scan_result].
    pose proof (re_search_digits_spec t) as Ht.
    destruct (re_search_digits t) as [g|].
    + unfold py_int. destruct (Nat.ltb_spec MAX_STR_DIGITS (String.length g)) as [Hl|Hl];
        [|discriminate].
      intros _. exists [], t, g, texts. repeat split; auto.
    + intros H. destruct (IH H) as (before & text & run & after & -> & Hb & Hr & Hl).
      exists (t :: before), text, run, after. repeat split; auto.
  - intros (before & text & run & after & -> & Hb & Hr & Hl).
    rewrite scan_result_skip by assumption. cbn [scan_result].
    now rewrite (re_search_first_run _ _ Hr), py_int_beyond.
Qed.

Lemma first_votes_shape (texts : list string) :
  first_votes texts = VNone \/ exists n, 0 <= n /\ first_votes texts = VInt n.
Proof.
  unfold first_votes.
  destruct (scan_result_shape texts) as [-> | [(n & Hn & ->) | ->]]; eauto.
Qed.

(** The scan of the marker texts returns None or a non-negative integer (a
    sign in front of the digits is not part of the run), or raises
    ValueError when int() refuses the run, and nothing else; the votes the
    extractor is left with are None or a non-negative integer.  Both copies
    of the loop. *)
Theorem votes_are_none_or_nonnegative (indent : string) (idx : Z)
        (votes_texts : list string) :
  (outcome (scan_votes indent idx votes_texts) = Ok VNone
   \/ (exists n, 0 <= n /\ outcome (scan_votes indent idx votes_texts) = Ok (VInt n))
   \/ outcome (scan_votes indent idx votes_texts) = Raise ValueError)
  /\ (outcome (scan_votes indent idx votes_texts) = Raise ValueError
      <-> exists before text run after,
            votes_texts = before ++ text :: after
            /\ Forall (fun t => has_digit t = false) before
            /\ first_digit_run text run
            /\ (MAX_STR_DIGITS < String.length run)%nat)
  /\ (first_votes votes_texts = VNone
      \/ exists n, 0 <= n /\ first_votes votes_texts = VInt n).
Proof.
  rewrite scan_votes_outcome. split; [apply scan_result_shape|].
  split; [apply scan_result_refused | apply first_votes_shape].
Qed.

(** ** One detail task *)

Lemma harv_seen_votes_shape (l : launch) :
  harv_seen_votes l = VNone \/ exists n, 0 <= n /\ harv_seen_votes l = VInt n.
Proof.
  destruct l as [e|driver]; cbn; [now left|].
  destruct (navigate driver); [|now left].
  destruct (script_texts driver); [|now left]. apply first_votes_shape.
Qed.

(** harv.py's extract_votes never raises on a record, whatever the browser
    does (the installation, the start of Chrome, the CDP command, the
    navigation, the script, the conversion of the digits, the saving of the
    page source or the closing of the driver failing): it returns the
    record with votes set to None or to a non-negative integer and every
    other field as it was.  Applied to something that is not a dict it
    raises AttributeError before touching the browser. *)
Theorem harv_extract_votes_always_returns (w : world) :
  (forall d : list (string * value),
      exists v,
        outcome (Harv.extract_votes w (VDict d)) = Ok (VDict (dict_set "votes" v d))
        /\ (v = VNone \/ exists n, 0 <= n /\ v = VInt n)
        /\ dict_get "votes" (dict_set "votes" v d) = Some v
        /\ (forall k, k <> "votes" -> dict_get k (dict_set "votes" v d) = dict_get k d))
  /\ (forall s : value,
         (forall d, s <> VDict d) ->
         Harv.extract_votes w s = ([], Raise AttributeError)).
Proof.
  split.
  - intros d. eexists. split; [apply harv_extract_votes_outcome|].
    split; [apply harv_seen_votes_shape|].
    split; [apply dict_get_set_eq|]. intros k Hk. now apply dict_get_set_neq.
  - intros s Hs. destruct s; try reflexivity. now destruct (Hs d).
Qed.

Lemma htv_title_shape (r : result string) :
  htv_title_of r = VNone
  \/ exists s, s <> EmptyString /\ htv_title_of r = VStr s.
Proof.
  destruct r as [raw|e]; cbn [htv_title_of]; [|now left].
  destruct (truthy (VStr (strip raw))) eqn:H; [|now left].
  right. exists (strip raw). split; [|reflexivity].
  intros E. rewrite E in H. discriminate H.
Qed.

Lemma htv_votes_shape (r : result (list string)) :
  htv_votes_of r = VNone \/ exists n, 0 <= n /\ htv_votes_of r = VInt n.
Proof. destruct r as [raw|e]; cbn; [apply first_votes_shape | now left]. Qed.

(** harv_titles_votes.py's extract_submission_details never raises on a
    record.  It returns the record with title set to None or to a non-empty
    string, votes set to None or to a non-negative integer, and every field
    other than title, votes and url as it was.  When the first [try]
    completed (the driver was installed, Chrome started and took the CDP
    command), url is the detail url built from the record's hash, also when
    the navigation failed; when it raised, title and votes are None and url
    is not touched, so a record that had no url still has none. *)
Theorem htv_extract_details_always_returns (w : world) (d : list (string * value)) :
  exists d',
    outcome (HarvTitlesVotes.extract_submission_details w (VDict d)) = Ok (VDict d')
    /\ (dict_get "title" d' = Some VNone
        \/ exists s, s <> EmptyString /\ dict_get "title" d' = Some (VStr s))
    /\ (dict_get "votes" d' = Some VNone
        \/ exists n, 0 <= n /\ dict_get "votes" d' = Some (VInt n))
    /\ (forall k, k <> "title" -> k <> "votes" -> k <> "url" ->
                  dict_get k d' = dict_get k d)
    /\ match init w (VStr (HarvTitlesVotes.SUBMISSION_URL
                                ++ str (field "hash" d VNone))%string) with
       | LaunchError _ =>
           dict_get "title" d' = Some VNone /\ dict_get "votes" d' = Some VNone
           /\ dict_get "url" d' = dict_get "url" d
       | Launched _ =>
           dict_get "url" d'
           = Some (VStr (HarvTitlesVotes.SUBMISSION_URL
                           ++ str (field "hash" d VNone))%string)
       end.
Proof.
  eexists. split; [apply htv_extract_outcome|].
  fold (htv_url d). destruct (init w (VStr (htv_url d))) as [e|driver];
    cbn [htv_update].
  - repeat split.
    + left. rewrite dict_get_set_neq by discriminate. apply dict_get_set_eq.
    + left. apply dict_get_set_eq.
    + intros k H1 H2 _. now rewrite !dict_get_set_neq.
    + rewrite dict_get_set_neq by discriminate. apply dict_get_set_eq.
    + apply dict_get_set_eq.
    + now rewrite !dict_get_set_neq by discriminate.
  - repeat split.
    + rewrite !dict_get_set_neq by discriminate. rewrite dict_get_set_eq.
      unfold htv_seen. destruct (navigate driver); cbn [fst]; [|now left].
      destruct (htv_title_shape (title_text driver)) as [-> | (s & Hs & ->)];
        [now left | right; eauto].
    + rewrite dict_get_set_neq by discriminate. rewrite dict_get_set_eq.
      unfold htv_seen. destruct (navigate driver); cbn [snd]; [|now left].
      destruct (htv_votes_shape (elements_text driver)) as [-> | (n & Hn & ->)];
        [now left | right; eauto].
    + intros k H1 H2 H3. now rewrite !dict_get_set_neq.
    + apply dict_get_set_eq.
Qed.

(** ** Sessions: asked for at most once, navigated at most once *)

Lemma without_scan_votes {X : Type} (pick : event -> option X)
      (indent : string) (idx : Z) (texts : list string) :
  (forall lvl text args, pick (Log lvl text args) = None) ->
  without pick (scan_votes indent idx texts).
Proof.
  intros Hp. revert idx; induction texts as [|t texts IH]; intros idx; [reflexivity|].
  cbn [scan_votes]. apply without_bind; [apply without_log, Hp|]. intros _.
  destruct (re_search_digits t).
  - apply without_bind; [apply without_lift|]. intros n.
    apply without_bind; [apply without_log, Hp | intros; apply without_ret].
  - apply without_bind; [apply without_log, Hp | intros; apply IH].
Qed.

Lemma harv_close_trace (driver : session) (title : value) :
  trace (Harv.close_driver driver title) = [harv_close_event driver title].
Proof.
  unfold Harv.close_driver, harv_close_event. destruct (quit driver) as [[]|e]; reflexivity.
Qed.

Lemma htv_close_trace (driver : session) (url : string) :
  trace (HarvTitlesVotes.close_driver driver url) = [htv_close_event driver url].
Proof.
  unfold HarvTitlesVotes.close_driver, htv_close_event.
  destruct (quit driver) as [[]|e]; reflexivity.
Qed.

Lemma harv_init_try (w : world) (title url : value) :
  try_except
    (driver <- start_driver w url ;;
     ret (Some driver))
    (fun e =>
       log ERROR "Error initializing WebDriver for '{title}': {e}" [V title; E e] ;;
       ret None)
  = ((if installs w url then [StartSession url] else [])
       ++ match init w url with
          | LaunchError e => [harv_init_error title e]
          | Launched _ => []
          end,
     Ok (match init w url with
         | LaunchError _ => None
         | Launched driver => Some driver
         end)).
Proof.
  rewrite start_driver_run. unfold installs.
  destruct (install w url) as [[]|e0]; destruct (init w url) as [e|driver]; reflexivity.
Qed.

Lemma htv_init_try (w : world) (url : string) :
  try_except
    (driver <- start_driver w (VStr url) ;;
     ret (Some driver))
    (fun e =>
       log ERROR "Error initializing WebDriver for {submission_url}: {e}"
           [V (VStr url); E e] ;;
       ret None)
  = ((if installs w (VStr url) then [StartSession (VStr url)] else [])
       ++ match init w (VStr url) with
          | LaunchError e => [htv_init_error url e]
          | Launched _ => []
          end,
     Ok (match init w (VStr url) with
         | LaunchError _ => None
         | Launched driver => Some driver
         end)).
Proof.
  rewrite start_driver_run. unfold installs.
  destruct (install w (VStr url)) as [[]|e0]; destruct (init w (VStr url)) as [e|driver];
    reflexivity.
Qed.

Lemma harv_extract_votes_trace (w : world) (d : list (string * value)) :
  trace (Harv.extract_votes w (VDict d))
  = harv_starting_log d
      :: (if installs w (field "url" d VNone) then [StartSession (field "url" d VNone)]
          else [])
      ++ match init w (field "url" d VNone) with
         | LaunchError e => [harv_init_error (field "title" d (VStr "No Title")) e]
         | Launched driver =>
             trace (try_except
                      (Harv.extract_votes_try driver (field "title" d (VStr "No Title"))
                                              (field "url" d VNone))
                      (Harv.extract_votes_except driver
                                                 (field "title" d (VStr "No Title"))))
             ++ [harv_close_event driver (field "title" d (VStr "No Title"))]
         end.
Proof.
  unfold Harv.extract_votes, harv_starting_log.
  repeat first [ rewrite trace_bind | rewrite trace_log | rewrite outcome_log
               | progress cbn [py_get lift outcome trace fst snd app] ].
  fold (field "url" d VNone) (field "title" d (VStr "No Title"))
       (field "name" d (VStr "No Name")).
  rewrite harv_init_try. cbn [outcome trace fst snd].
  f_equal. rewrite <- app_assoc. f_equal.
  destruct (init w (field "url" d VNone)) as [e|driver].
  - cbn [py_setitem lift trace fst app]. now rewrite ?app_nil_r.
  - rewrite trace_bind, harv_detail_outcome, trace_bind, harv_close_trace,
      harv_close_driver_ok.
    cbn [lift trace fst app]. now rewrite ?app_nil_r.
Qed.

Lemma harv_detail_navigates (driver : session) (title url : value) :
  select pick_navigate
         (trace (try_except (Harv.extract_votes_try driver title url)
                            (Harv.extract_votes_except driver title)))
  = [url].
Proof.
  rewrite select_try. unfold Harv.extract_votes_try at 1.
  rewrite select_bind. cbn [emit trace outcome fst snd select pick_navigate app].
  f_equal.
  assert (Hrest : without pick_navigate
                    (lift (navigate driver) ;;
                     log INFO " - Navigated to {url}" [V url] ;;
                     votes_texts <- lift (script_texts driver) ;;
                     log INFO "Votes Texts via JavaScript: {votes_texts}"
                         [V (VList (map VStr votes_texts))] ;;
                     votes <- scan_votes "" 1 votes_texts ;;
                     (if is_none votes
                      then log WARNING "No numerical votes found for '{title}'." [V title]
                      else ret tt) ;;
                     ret votes)).
  { repeat first [ apply without_scan_votes; reflexivity | without_step ]. }
  unfold without in Hrest. rewrite Hrest. cbn [app].
  destruct (outcome _); [reflexivity|].
  change (without pick_navigate (Harv.extract_votes_except driver title e)).
  unfold Harv.extract_votes_except. without.
Qed.

Lemma htv_extract_trace (w : world) (d : list (string * value)) :
  trace (HarvTitlesVotes.extract_submission_details w (VDict d))
  = htv_starting_log d
      :: (if installs w (VStr (htv_url d)) then [StartSession (VStr (htv_url d))] else [])
      ++ match init w (VStr (htv_url d)) with
         | LaunchError e => [htv_init_error (htv_url d) e]
         | Launched driver =>
             trace (try_except (HarvTitlesVotes.details_try driver (htv_url d))
                               (HarvTitlesVotes.details_except
                                  driver (field "hash" d VNone) (htv_url d)))
             ++ [htv_close_event driver (htv_url d)]
         end.
Proof.
  unfold HarvTitlesVotes.extract_submission_details, htv_starting_log.
  repeat first [ rewrite trace_bind | rewrite trace_log | rewrite outcome_log
               | progress cbn [py_get lift outcome trace fst snd app] ].
  fold (field "hash" d VNone). fold (htv_url d).
  rewrite htv_init_try. cbn [outcome trace fst snd].
  f_equal. rewrite <- app_assoc. f_equal.
  destruct (init w (VStr (htv_url d))) as [e|driver].
  - repeat first [ rewrite trace_bind
                 | progress cbn [py_setitem lift outcome trace fst snd app] ].
    reflexivity.
  - rewrite trace_bind, htv_detail_outcome, trace_bind, htv_close_trace,
      htv_close_driver_ok.
    repeat first [ rewrite trace_bind
                 | progress cbn [py_setitem lift outcome trace fst snd app] ].
    now rewrite ?app_nil_r.
Qed.

Lemma htv_detail_navigates (driver : session) (h : value) (url : string) :
  select pick_navigate
         (trace (try_except (HarvTitlesVotes.details_try driver url)
                            (HarvTitlesVotes.details_except driver h url)))
  = [VStr url].
Proof.
  rewrite select_try. unfold HarvTitlesVotes.details_try at 1.
  rewrite select_bind. cbn [emit trace outcome fst snd select pick_navigate app].
  f_equal.
  assert (Hrest : without pick_navigate
                    (lift (navigate driver) ;;
                     log INFO " - Navigated to {submission_url}" [V (VStr url)] ;;
                     title <- HarvTitlesVotes.extract_title driver url ;;
                     votes <- HarvTitlesVotes.extract_votes driver url ;;
                     ret (title, votes))).
  { unfold HarvTitlesVotes.extract_title, HarvTitlesVotes.extract_votes.
    repeat first [ apply without_scan_votes; reflexivity | without_step ]. }
  unfold without in Hrest. rewrite Hrest. cbn [app].
  destruct (outcome _); [reflexivity|].
  change (without pick_navigate (HarvTitlesVotes.details_except driver h url e)).
  unfold HarvTitlesVotes.details_except. without.
Qed.

Lemma harv_detail_starts_nothing (driver : session) (title url : value) :
  without pick_session
          (try_except (Harv.extract_votes_try driver title url)
                      (Harv.extract_votes_except driver title)).
Proof.
  unfold Harv.extract_votes_try, Harv.extract_votes_except.
  repeat first [ apply without_scan_votes; reflexivity | without_step ].
Qed.

Lemma htv_detail_starts_nothing (driver : session) (h : value) (url : string) :
  without pick_session
          (try_except (HarvTitlesVotes.details_try driver url)
                      (HarvTitlesVotes.details_except driver h url)).
Proof.
  unfold HarvTitlesVotes.details_try, HarvTitlesVotes.details_except,
    HarvTitlesVotes.extract_title, HarvTitlesVotes.extract_votes.
  repeat first [ apply without_scan_votes; reflexivity | without_step ].
Qed.

Lemma select_close_events {X : Type} (pick : event -> option X) :
  (forall lvl text args, pick (Log lvl text args) = None) ->
  forall driver title url,
    select pick [harv_close_event driver title] = []
    /\ select pick [htv_close_event driver url] = [].
Proof.
  intros Hp driver title url. unfold harv_close_event, htv_close_event.
  destruct (quit driver); cbn; now rewrite !Hp.
Qed.

Lemma harv_extract_sessions (w : world) (d : list (string * value)) :
  select pick_session (trace (Harv.extract_votes w (VDict d)))
  = if installs w (field "url" d VNone) then [field "url" d VNone] else [].
Proof.
  rewrite harv_extract_votes_trace. cbn [select pick_session harv_starting_log].
  rewrite select_app.
  assert (Hrest : select pick_session
                    match init w (field "url" d VNone) with
                    | LaunchError e =>
                        [harv_init_error (field "title" d (VStr "No Title")) e]
                    | Launched driver =>
                        trace (try_except
                                 (Harv.extract_votes_try
                                    driver (field "title" d (VStr "No Title"))
                                    (field "url" d VNone))
                                 (Harv.extract_votes_except
                                    driver (field "title" d (VStr "No Title"))))
                        ++ [harv_close_event driver (field "title" d (VStr "No Title"))]
                    end = []).
  { destruct (init w _) as [e|driver]; [reflexivity|].
    rewrite select_app, (harv_detail_starts_nothing driver).
    apply (select_close_events pick_session (fun _ _ _ => eq_refl) driver _ EmptyString). }
  rewrite Hrest, app_nil_r. now destruct (installs w _).
Qed.

Lemma htv_extract_sessions (w : world) (d : list (string * value)) :
  select pick_session (trace (HarvTitlesVotes.extract_submission_details w (VDict d)))
  = if installs w (VStr (htv_url d)) then [VStr (htv_url d)] else [].
Proof.
  rewrite htv_extract_trace. cbn [select pick_session htv_starting_log].
  rewrite select_app.
  assert (Hrest : select pick_session
                    match init w (VStr (htv_url d)) with
                    | LaunchError e => [htv_init_error (htv_url d) e]
                    | Launched driver =>
                        trace (try_except
                                 (HarvTitlesVotes.details_try driver (htv_url d))
                                 (HarvTitlesVotes.details_except
                                    driver (field "hash" d VNone) (htv_url d)))
                        ++ [htv_close_event driver (htv_url d)]
                    end = []).
  { destruct (init w _) as [e|driver]; [reflexivity|].
    rewrite select_app, (htv_detail_starts_nothing driver).
    apply (select_close_events pick_session (fun _ _ _ => eq_refl) driver VNone). }
  rewrite Hrest, app_nil_r. now destruct (installs w _).
Qed.

Lemma harv_extract_navigations (w : world) (d : list (string * value)) :
  select pick_navigate (trace (Harv.extract_votes w (VDict d)))
  = if launches w (field "url" d VNone) then [field "url" d VNone] else [].
Proof.
  rewrite harv_extract_votes_trace. cbn [select pick_navigate harv_starting_log].
  rewrite select_app. unfold launches.
  replace (select pick_navigate
             (if installs w (field "url" d VNone)
              then [StartSession (field "url" d VNone)] else []))
    with (@nil value) by now destruct (installs w _).
  cbn [app]. destruct (init w (field "url" d VNone)) as [e|driver]; [reflexivity|].
  rewrite select_app, harv_detail_navigates.
  now rewrite (proj1 (select_close_events pick_navigate (fun _ _ _ => eq_refl)
                        driver _ EmptyString)).
Qed.

Lemma htv_extract_navigations (w : world) (d : list (string * value)) :
  select pick_navigate (trace (HarvTitlesVotes.extract_submission_details w (VDict d)))
  = if launches w (VStr (htv_url d)) then [VStr (htv_url d)] else [].
Proof.
  rewrite htv_extract_trace. cbn [select pick_navigate htv_starting_log].
  rewrite select_app. unfold launches.
  replace (select pick_navigate
             (if installs w (VStr (htv_url d))
              then [StartSession (VStr (htv_url d))] else []))
    with (@nil value) by now destruct (installs w _).
  cbn [app]. destruct (init w (VStr (htv_url d))) as [e|driver]; [reflexivity|].
  rewrite select_app, htv_detail_navigates.
  now rewrite (proj2 (select_close_events pick_navigate (fun _ _ _ => eq_refl)
                        driver VNone _)).
Qed.

(** The first [try] of a detail task of harv.py has three calls and one
    handler, which logs and returns without closing anything.
    - The driver installation raises: Chrome is never asked for.
    - [webdriver.Chrome] raises: it was asked for once, and there is no
      driver.
    - Chrome started and the CDP command raises: the task ends there, so
      the started driver is neither navigated nor quit.
    In these three cases the trace is the opening record, the request for
    Chrome if it was made, and the initialisation error.  When the [try]
    completes, Chrome was asked for once, the task navigates exactly once,
    to the url of the record, and whatever happens next its last log record
    is the closing of the driver (INFO when quit returned, ERROR when it
    raised). *)
Theorem harv_session_lifecycle (w : world) (d : list (string * value)) :
  match install w (field "url" d VNone) with
  | Raise e =>
      trace (Harv.extract_votes w (VDict d))
      = [harv_starting_log d; harv_init_error (field "title" d (VStr "No Title")) e]
  | Ok _ =>
      select pick_session (trace (Harv.extract_votes w (VDict d)))
      = [field "url" d VNone]
      /\ match browser w (field "url" d VNone) with
         | LaunchError e =>
             trace (Harv.extract_votes w (VDict d))
             = [harv_starting_log d; StartSession (field "url" d VNone);
                harv_init_error (field "title" d (VStr "No Title")) e]
         | Launched driver =>
             match cdp driver with
             | Raise e =>
                 trace (Harv.extract_votes w (VDict d))
                 = [harv_starting_log d; StartSession (field "url" d VNone);
                    harv_init_error (field "title" d (VStr "No Title")) e]
             | Ok _ =>
                 select pick_navigate (trace (Harv.extract_votes w (VDict d)))
                 = [field "url" d VNone]
                 /\ exists t,
                     trace (Harv.extract_votes w (VDict d))
                     = t ++ [harv_close_event driver (field "title" d (VStr "No Title"))]
             end
         end
  end.
Proof.
  pose proof (harv_extract_sessions w d) as Hs.
  pose proof (harv_extract_navigations w d) as Hn.
  pose proof (harv_extract_votes_trace w d) as Ht.
  unfold installs, launches, init in *.
  destruct (install w (field "url" d VNone)) as [[]|e]; [|exact Ht].
  split; [exact Hs|].
  destruct (browser w (field "url" d VNone)) as [e|driver]; [exact Ht|].
  destruct (cdp driver) as [[]|e]; [|exact Ht].
  split; [exact Hn|]. rewrite Ht. eexists.
  rewrite !app_comm_cons, app_assoc. reflexivity.
Qed.

Lemma harv_session_lifecycle_witness :
  trace (Harv.extract_votes stubborn_browser no_cdp_record)
  = [harv_starting_log no_cdp_fields;
     StartSession (VStr "https://editfest.filmsupply.com/submissions/nocdp");
     harv_init_error (VStr "No Title") WebDriverException].
Proof. exact (proj2 (harv_session_lifecycle stubborn_browser no_cdp_fields)). Defined.

(** The same for a detail task of harv_titles_votes.py, whose url is built
    from the hash of the record. *)
Theorem htv_session_lifecycle (w : world) (d : list (string * value)) :
  match install w (VStr (htv_url d)) with
  | Raise e =>
      trace (HarvTitlesVotes.extract_submission_details w (VDict d))
      = [htv_starting_log d; htv_init_error (htv_url d) e]
  | Ok _ =>
      select pick_session (trace (HarvTitlesVotes.extract_submission_details w (VDict d)))
      = [VStr (htv_url d)]
      /\ match browser w (VStr (htv_url d)) with
         | LaunchError e =>
             trace (HarvTitlesVotes.extract_submission_details w (VDict d))
             = [htv_starting_log d; StartSession (VStr (htv_url d));
                htv_init_error (htv_url d) e]
         | Launched driver =>
             match cdp driver with
             | Raise e =>
                 trace (HarvTitlesVotes.extract_submission_details w (VDict d))
                 = [htv_starting_log d; StartSession (VStr (htv_url d));
                    htv_init_error (htv_url d) e]
             | Ok _ =>
                 select pick_navigate
                        (trace (HarvTitlesVotes.extract_submission_details w (VDict d)))
                 = [VStr (htv_url d)]
                 /\ exists t,
                     trace (HarvTitlesVotes.extract_submission_details w (VDict d))
                     = t ++ [htv_close_event driver (htv_url d)]
             end
         end
  end.
Proof.
  pose proof (htv_extract_sessions w d) as Hs.
  pose proof (htv_extract_navigations w d) as Hn.
  pose proof (htv_extract_trace w d) as Ht.
  unfold installs, launches, init in *.
  destruct (install w (VStr (htv_url d))) as [[]|e]; [|exact Ht].
  split; [exact Hs|].
  destruct (browser w (VStr (htv_url d))) as [e|driver]; [exact Ht|].
  destruct (cdp driver) as [[]|e]; [|exact Ht].
  split; [exact Hn|]. rewrite Ht. eexists.
  rewrite !app_comm_cons, app_assoc. reflexivity.
Qed.

Lemma htv_session_lifecycle_witness :
  trace (HarvTitlesVotes.extract_submission_details stubborn_browser no_cdp_record)
  = [htv_starting_log no_cdp_fields;
     StartSession (VStr "https://editfest.filmsupply.com/submissions/nocdp");
     htv_init_error "https://editfest.filmsupply.com/submissions/nocdp"
                    WebDriverException].
Proof. exact (proj2 (htv_session_lifecycle stubborn_browser no_cdp_fields)). Defined.

(** ** More on the listing stage *)

(** A page answered 200 with an object: when its "data" is a list,
    fetch_page returns exactly that list and logs its length at INFO; when
    the object has no "data" key, the default applies and the page counts as
    an empty one, with no error logged. *)
Theorem fetch_page_returns_the_data_list (w : world) (page : Z)
        (body : list (string * value)) :
  listing w page = HttpReply 200 (Ok (VDict body)) ->
  (forall l, dict_get "data" body = Some (VList l) ->
             fetch_page w page
             = ([HttpGet page; retrieved_log page (Z.of_nat (List.length l))],
                Ok (VList l))
             /\ contribution w page = l)
  /\ (dict_get "data" body = None ->
      fetch_page w page = ([HttpGet page; retrieved_log page 0], Ok (VList []))
      /\ contribution w page = []).
Proof.
  intros H. split.
  - intros l Hd. unfold contribution, fetch_page, fetch_page_try. rewrite H.
    cbn. rewrite Hd. split; reflexivity.
  - intros Hd. unfold contribution, fetch_page, fetch_page_try. rewrite H.
    cbn. rewrite Hd. split; reflexivity.
Qed.

Lemma fetch_page_returns_the_data_list_witness :
  (forall l, dict_get "data" [("data", VList [entry "abc" "Trailer"]);
                             ("meta", VDict [("last_page", VInt 2)])] = Some (VList l) ->
             fetch_page (sample_world (page_of []) (fun _ => page_of [entry "abc" "Trailer"]))
                        3
             = ([HttpGet 3; retrieved_log 3 (Z.of_nat (List.length l))], Ok (VList l))
             /\ contribution
                  (sample_world (page_of []) (fun _ => page_of [entry "abc" "Trailer"])) 3
                = l)
  /\ (dict_get "data" [("data", VList [entry "abc" "Trailer"]);
                             ("meta", VDict [("last_page", VInt 2)])] = None ->
      fetch_page (sample_world (page_of []) (fun _ => page_of [entry "abc" "Trailer"])) 3
      = ([HttpGet 3; retrieved_log 3 0], Ok (VList []))
      /\ contribution
           (sample_world (page_of []) (fun _ => page_of [entry "abc" "Trailer"])) 3
         = []).
Proof.
  apply (fetch_page_returns_the_data_list
           (sample_world (page_of []) (fun _ => page_of [entry "abc" "Trailer"])) 3
           [("data", VList [entry "abc" "Trailer"]);
            ("meta", VDict [("last_page", VInt 2)])]).
  reflexivity.
Defined.

(** A page answered 200 with a body of the wrong shape is a failed page:
    a body that is not an object, or an object whose "data" has no length
    (null, a boolean, a number), makes the [try] raise, and fetch_page logs
    the exception and returns the empty list.  A "data" that is a string is
    not rejected: fetch_page returns the string, and the harvester adds its
    characters, one by one, to the merged list. *)
Theorem fetch_page_on_a_malformed_body (w : world) (page : Z) (body : value) :
  listing w page = HttpReply 200 (Ok body) ->
  ((forall d, body <> VDict d) ->
   fetch_page w page
   = ([HttpGet page; fetch_exception_log page AttributeError], Ok (VList [])))
  /\ (forall d v,
         body = VDict d -> dict_get "data" d = Some v ->
         v = VNone \/ (exists b, v = VBool b) \/ (exists z, v = VInt z) ->
         fetch_page w page
         = ([HttpGet page; fetch_exception_log page TypeError], Ok (VList [])))
  /\ (forall d s,
         body = VDict d -> dict_get "data" d = Some (VStr s) ->
         outcome (fetch_page w page) = Ok (VStr s)
         /\ contribution w page = chars s).
Proof.
  intros H. split; [|split].
  - intros Hb. unfold fetch_page, fetch_page_try. rewrite H.
    destruct body; try reflexivity. now destruct (Hb d).
  - intros d v -> Hd Hv. unfold fetch_page, fetch_page_try. rewrite H.
    cbn. rewrite Hd. destruct Hv as [-> | [[b ->] | [z ->]]]; reflexivity.
  - intros d s -> Hd. unfold contribution, fetch_page, fetch_page_try. rewrite H.
    cbn. rewrite Hd. split; reflexivity.
Qed.

Lemma fetch_page_on_a_malformed_body_witness :
  fetch_page (sample_world (page_of []) (fun _ => HttpReply 200 (Ok (VList [])))) 2
  = ([HttpGet 2; fetch_exception_log 2 AttributeError], Ok (VList [])).
Proof.
  apply (proj1 (fetch_page_on_a_malformed_body
                  (sample_world (page_of []) (fun _ => HttpReply 200 (Ok (VList []))))
                  2 (VList []) eq_refl)).
  discriminate.
Defined.

(** The merged list of fetch_all_submissions is a rearrangement of the
    pages' contributions taken in page order: which entries are fetched,
    and how many, does not depend on the order in which the page tasks
    complete. *)
Theorem merged_list_is_schedule_independent (w : world) (n : Z) :
  fair w ->
  exists all,
    outcome (fetch_all_submissions w (VInt n)) = Ok all
    /\ Permutation all (flat_map (contribution w) (range 1 (n + 1)))
    /\ List.length all = List.length (flat_map (contribution w) (range 1 (n + 1))).
Proof.
  intros Hw.
  destruct (fetch_all_merged w (VInt n) (n + 1) Hw eq_refl) as (order & Hp & Ho).
  eexists. split; [exact Ho|].
  assert (P : Permutation (flat_map (contribution w) order)
                          (flat_map (contribution w) (range 1 (n + 1))))
    by now apply Permutation_flat_map.
  split; [exact P | now apply Permutation_length].
Qed.

Lemma merged_list_is_schedule_independent_witness :
  exists all,
    outcome (fetch_all_submissions page_two_down (VInt 3)) = Ok all
    /\ Permutation all (flat_map (contribution page_two_down) (range 1 (3 + 1)))
    /\ List.length all
       = List.length (flat_map (contribution page_two_down) (range 1 (3 + 1))).
Proof.
  apply merged_list_is_schedule_independent. apply sample_world_fair.
Defined.

(** The page count at its bounds.  With a count of zero or less no page
    task is dispatched and the merged list is empty; with a count that is
    not an integer (None, a string, a list, an object) the computation of
    the page range raises TypeError before any request is sent, and
    fetch_all_submissions lets it through. *)
Theorem fetch_all_submissions_at_the_bounds (w : world) :
  (forall n, fair w -> n <= 0 -> fetch_all_submissions w (VInt n) = ([], Ok []))
  /\ (forall total_pages,
         py_succ total_pages = Raise TypeError ->
         fetch_all_submissions w total_pages = ([], Raise TypeError))
  /\ (forall total_pages,
         total_pages = VNone \/ (exists s, total_pages = VStr s)
         \/ (exists l, total_pages = VList l) \/ (exists d, total_pages = VDict d) ->
         py_succ total_pages = Raise TypeError).
Proof.
  split; [|split].
  - intros n Hw Hn. unfold fetch_all_submissions. cbn [py_succ lift bind].
    assert (Hr : range 1 (n + 1) = []).
    { unfold range. replace (Z.to_nat (n + 1 - 1)) with 0%nat by lia. reflexivity. }
    rewrite Hr. cbn [map].
    assert (Hc : completion w (Z * M value) [] = []).
    { apply Permutation_nil, Permutation_sym, Hw. }
    rewrite Hc. reflexivity.
  - intros v Hv. unfold fetch_all_submissions. now rewrite Hv.
  - intros v [-> | [[s ->] | [[l ->] | [d ->]]]]; reflexivity.
Qed.

Lemma fetch_all_submissions_at_the_bounds_witness :
  fetch_all_submissions page_two_down (VInt 0) = ([], Ok [])
  /\ fetch_all_submissions page_two_down (VStr "12") = ([], Raise TypeError).
Proof.
  split.
  - apply (proj1 (fetch_all_submissions_at_the_bounds page_two_down) 0);
      [apply sample_world_fair | lia].
  - apply (proj1 (proj2 (fetch_all_submissions_at_the_bounds page_two_down))).
    reflexivity.
Defined.

(** ** Stages that write to no file *)

Lemma select_bind_ok {X A B} (pick : event -> option X) (m : M A) (k : A -> M B) (a : A) :
  outcome m = Ok a ->
  select pick (trace (bind m k)) = select pick (trace m) ++ select pick (trace (k a)).
Proof. intros H. now rewrite select_bind, H. Qed.

Lemma outcome_bind_ok {A B} (m : M A) (k : A -> M B) (a : A) :
  outcome m = Ok a -> outcome (bind m k) = outcome (k a).
Proof. intros H. now rewrite outcome_bind, H. Qed.

Lemma select_map {X A} (pick : event -> option X) (f : A -> event) (g : A -> X)
      (l : list A) :
  (forall a, pick (f a) = Some (g a)) -> select pick (map f l) = map g l.
Proof.
  intros H. induction l as [|a l IH]; [reflexivity|].
  cbn [map select]. now rewrite H, IH.
Qed.

Lemma select_none {X A} (pick : event -> option X) (f : A -> event) (l : list A) :
  (forall a, pick (f a) = None) -> select pick (map f l) = [].
Proof.
  intros H. induction l as [|a l IH]; [reflexivity|].
  cbn [map select]. now rewrite H, IH.
Qed.

Section Files.

Context {X : Type} (pick : event -> option X).

(** [pick] looks at what is written to files only. *)
Hypothesis files_only :
  forall ev, match ev with
             | WriteRow _ _ | WriteLine _ _ => True
             | _ => pick ev = None
             end.

Lemma without_emit (ev : event) : pick ev = None -> without pick (emit ev).
Proof. intros H. unfold without. cbn. now rewrite H. Qed.

Lemma without_foldM_Forall {A S} (f : S -> A -> M S) (l : list A) (s : S) :
  Forall (fun x => forall s, without pick (f s x)) l -> without pick (foldM f l s).
Proof.
  intros H; revert s; induction H as [|x l Hx _ IH]; intros s; [reflexivity|].
  cbn [foldM]. apply without_bind; auto.
Qed.

Ltac silent :=
  repeat first
    [ assumption
    | apply without_ret | apply without_lift
    | apply without_log; apply (files_only (Log _ _ _))
    | apply without_emit;
      first [ apply (files_only (HttpGet _)) | apply (files_only (StartSession _))
            | apply (files_only (Navigate _)) ]
    | apply without_scan_votes; intros; apply (files_only (Log _ _ _))
    | apply without_bind; [|intros]
    | apply without_try; [|intros]
    | match goal with
      | |- without _ (raise _) => reflexivity
      | |- without _ (if ?b then _ else _) => destruct b
      | |- without _ (match ?x with _ => _ end) => destruct x
      | |- without _ (let (_, _) := ?x in _) => destruct x
      end ].

Lemma silent_fetch_page (w : world) (page : Z) : without pick (fetch_page w page).
Proof. unfold fetch_page, fetch_page_try. silent. Qed.

Lemma silent_fetch_all (w : world) (total_pages : value) :
  fair w -> without pick (fetch_all_submissions w total_pages).
Proof.
  intros Hw. unfold fetch_all_submissions. apply without_bind; [apply without_lift|].
  intros stop. apply without_foldM_Forall, fair_Forall; [assumption|].
  rewrite Forall_map. apply Forall_forall. intros page _ s.
  pose proof (silent_fetch_page w page). unfold collect_page. silent.
Qed.

Lemma silent_harv_prepare (all : list value) (state : list value * list string) :
  without pick (Harv.prepare all state).
Proof.
  unfold Harv.prepare. apply without_foldM. intros [data urls] e.
  unfold Harv.prepare_one. silent.
Qed.


Lemma silent_harv_extract (w : world) (s : value) : without pick (Harv.extract_votes w s).
Proof.
  unfold Harv.extract_votes, Harv.extract_votes_try, Harv.extract_votes_except,
    Harv.close_driver.
  silent.
Qed.


Lemma silent_harv_extract_all (w : world) (data : list value) :
  fair w -> without pick (Harv.extract_all_votes w data).
Proof.
  intros Hw. unfold Harv.extract_all_votes.
  apply without_foldM_Forall, fair_Forall; [assumption|].
  rewrite Forall_map. apply Forall_forall. intros s _ acc.
  pose proof (silent_harv_extract w s). unfold Harv.collect_votes. silent.
Qed.


Lemma silent_harv_discover (w : world) : without pick (Harv.discover w).
Proof. unfold Harv.discover. silent. Qed.


Lemma select_log lvl text args : select pick (trace (log lvl text args)) = [].
Proof. apply (without_log pick), (files_only (Log lvl text args)). Qed.

End Files.

Lemma pick_row_files :
  forall ev, match ev with
             | WriteRow _ _ | WriteLine _ _ => True
             | _ => pick_row ev = None
             end.
Proof. now intros []. Qed.

Lemma pick_line_files :
  forall ev, match ev with
             | WriteRow _ _ | WriteLine _ _ => True
             | _ => pick_line ev = None
             end.
Proof. now intros []. Qed.

(** ** Saving the results *)

Lemma dict_get_in_keys (k : string) (d : list (string * value)) (v : value) :
  dict_get k d = Some v -> In k (dict_keys d).
Proof.
  induction d as [|[k' v'] d IH]; [discriminate|]. cbn.
  destruct (String.eqb k k') eqn:Ek; [|auto].
  intros _. left. symmetry. now apply String.eqb_eq.
Qed.

Lemma has_hash_key (r : value) :
  has_hash r = true -> exists d, r = VDict d /\ In "hash" (dict_keys d).
Proof.
  destruct r as [| | | | |d]; try discriminate. cbn [has_hash]. unfold field.
  destruct (dict_get "hash" d) as [v|] eqn:Eh; [|discriminate].
  intros _. exists d. split; [reflexivity|]. eapply dict_get_in_keys, Eh.
Qed.

Lemma foldM_emit {A} (f : A -> event) (l : list A) :
  foldM (fun _ x => emit (f x)) l tt = (map f l, Ok tt).
Proof.
  induction l as [|a l IH]; [reflexivity|].
  cbn [foldM emit bind map]. now rewrite IH.
Qed.

Lemma harv_save_csv_run (w : world) (updated : list value) :
  open_csv w = Ok tt ->
  Forall (fun r => has_hash r = true) updated ->
  Harv.save_csv w updated
  = ([Log INFO "\nSaving submission data to 'submissions.csv'..." [];
      WriteRow "submissions.csv" Harv.keys;
      match updated with
      | [] => Log INFO "Submission data has been saved to 'submissions.csv'." []
      | _ :: _ => Log ERROR "Error writing to CSV: {e}" [E ValueError]
      end], Ok tt).
Proof.
  intros Ho H. unfold Harv.save_csv. rewrite Ho.
  destruct H as [|r rest Hr _]; [reflexivity|].
  destruct (has_hash_key r Hr) as (d & -> & Hd).
  unfold writerows. cbn [foldM]. now rewrite (harv_writer_rejects_hash d Hd).
Qed.

Lemma harv_save_urls_run (w : world) (urls : list string) :
  open_urls w = Ok tt ->
  Harv.save_urls w urls
  = (Log INFO "\nSaving submission URLs to 'submission_urls.txt'..." []
       :: map (WriteLine urls_txt) urls
       ++ [Log INFO "Submission URLs have been saved to 'submission_urls.txt'." []],
     Ok tt).
Proof.
  intros Ho. unfold Harv.save_urls. rewrite Ho.
  rewrite (foldM_emit (WriteLine "submission_urls.txt")). reflexivity.
Qed.

Lemma htv_write_lines (updated : list value) :
  Forall is_dict updated ->
  foldM (fun _ submission =>
           url <- lift (py_get submission "url" (VStr "No URL")) ;;
           emit (WriteLine "submission_urls.txt" (str url))) updated tt
  = (map (fun r => WriteLine urls_txt (url_line r)) updated, Ok tt).
Proof.
  induction 1 as [|r updated [d ->] _ IH]; [reflexivity|].
  cbn [foldM map].
  change (url <- lift (py_get (VDict d) "url" (VStr "No URL")) ;;
          emit (WriteLine "submission_urls.txt" (str url)))
    with ([WriteLine urls_txt (url_line (VDict d))], Ok tt).
  cbn [bind]. now rewrite IH.
Qed.

Lemma htv_save_urls_run (w : world) (updated : list value) :
  open_urls w = Ok tt -> Forall is_dict updated ->
  HarvTitlesVotes.save_urls w updated
  = (Log INFO "\nSaving submission URLs to 'submission_urls.txt'..." []
       :: map (fun r => WriteLine urls_txt (url_line r)) updated
       ++ [Log INFO "Submission URLs have been saved to 'submission_urls.txt'." []],
     Ok tt).
Proof.
  intros Ho H. unfold HarvTitlesVotes.save_urls. rewrite Ho.
  rewrite (htv_write_lines updated H). reflexivity.
Qed.

Lemma logged_handler_returns (m : M unit) (h : exn -> event) :
  outcome (try_except m (fun e => emit (h e))) = Ok tt.
Proof. rewrite outcome_try. now destruct (outcome m) as [[]|e]. Qed.

Lemma harv_save_csv_returns (w : world) (updated : list value) :
  outcome (Harv.save_csv w updated) = Ok tt.
Proof.
  unfold Harv.save_csv. rewrite outcome_bind. cbn [log emit outcome snd].
  apply (logged_handler_returns _ (fun e => Log ERROR "Error writing to CSV: {e}" [E e])).
Qed.

Lemma harv_save_urls_returns (w : world) (urls : list string) :
  outcome (Harv.save_urls w urls) = Ok tt.
Proof.
  unfold Harv.save_urls. rewrite outcome_bind. cbn [log emit outcome snd].
  apply (logged_handler_returns _
           (fun e => Log ERROR "Error writing submission URLs to text file: {e}" [E e])).
Qed.

Lemma htv_save_csv_returns (w : world) (updated : list value) :
  outcome (HarvTitlesVotes.save_csv w updated) = Ok tt.
Proof.
  unfold HarvTitlesVotes.save_csv. rewrite outcome_bind. cbn [log emit outcome snd].
  apply (logged_handler_returns _ (fun e => Log ERROR "Error writing to CSV: {e}" [E e])).
Qed.

Lemma htv_save_urls_returns (w : world) (updated : list value) :
  outcome (HarvTitlesVotes.save_urls w updated) = Ok tt.
Proof.
  unfold HarvTitlesVotes.save_urls. rewrite outcome_bind. cbn [log emit outcome snd].
  apply (logged_handler_returns _
           (fun e => Log ERROR "Error writing submission URLs to text file: {e}" [E e])).
Qed.

(** harv.py never writes a data row.  Its DictWriter is given the field
    names url, title, name, category, votes, while every record of step 3
    also has the key "hash": the first record makes writerows raise
    ValueError, which step 5 logs.  With records to save, submissions.csv
    holds the header alone and the success message is not logged; only
    with no record at all does step 5 succeed. *)
Theorem harv_csv_gets_no_data_row (w : world) (updated : list value) :
  open_csv w = Ok tt ->
  Forall (fun r => has_hash r = true) updated ->
  Harv.save_csv w updated
  = ([Log INFO "\nSaving submission data to 'submissions.csv'..." [];
      WriteRow "submissions.csv" Harv.keys;
      match updated with
      | [] => Log INFO "Submission data has been saved to 'submissions.csv'." []
      | _ :: _ => Log ERROR "Error writing to CSV: {e}" [E ValueError]
      end], Ok tt).
Proof. exact (harv_save_csv_run w updated). Qed.

Lemma harv_csv_gets_no_data_row_witness :
  Harv.save_csv (sample_world (page_of []) (fun _ => page_of []))
                [VDict (dict_set "votes" (VInt 3) [("url", VStr "u"); ("hash", VStr "abc")])]
  = ([Log INFO "\nSaving submission data to 'submissions.csv'..." [];
      WriteRow "submissions.csv" Harv.keys;
      Log ERROR "Error writing to CSV: {e}" [E ValueError]], Ok tt).
Proof.
  apply (harv_csv_gets_no_data_row
           (sample_world (page_of []) (fun _ => page_of []))
           [VDict (dict_set "votes" (VInt 3) [("url", VStr "u"); ("hash", VStr "abc")])]).
  - reflexivity.
  - repeat constructor.
Defined.

(** Step 6, when the url file opens: the file gets one line per url, in
    order, between the two log records.  harv.py writes the urls step 3
    collected; harv_titles_votes.py writes the "url" of each enriched
    record, and the text No URL for a record that has none (a record whose
    driver did not start, unless the listing gave it a url). *)
Theorem url_file_has_one_line_per_record (w : world) :
  open_urls w = Ok tt ->
  (forall urls : list string,
      Harv.save_urls w urls
      = (Log INFO "\nSaving submission URLs to 'submission_urls.txt'..." []
           :: map (WriteLine urls_txt) urls
           ++ [Log INFO "Submission URLs have been saved to 'submission_urls.txt'." []],
         Ok tt))
  /\ (forall updated : list value,
         Forall is_dict updated ->
         HarvTitlesVotes.save_urls w updated
         = (Log INFO "\nSaving submission URLs to 'submission_urls.txt'..." []
              :: map (fun r => WriteLine urls_txt (url_line r)) updated
              ++ [Log INFO "Submission URLs have been saved to 'submission_urls.txt'." []],
            Ok tt))
  /\ (forall d : list (string * value),
         dict_get "url" d = None -> url_line (VDict d) = "No URL").
Proof.
  intros Ho. split; [|split].
  - intros urls. now apply harv_save_urls_run.
  - intros updated H. now apply htv_save_urls_run.
  - intros d H. unfold url_line, field. now rewrite H.
Qed.

Lemma url_file_has_one_line_per_record_witness :
  HarvTitlesVotes.save_urls (sample_world (page_of []) (fun _ => page_of []))
                            [sample_record; entry "xyz" "Title Sequence"]
  = (Log INFO "\nSaving submission URLs to 'submission_urls.txt'..." []
       :: map (fun r => WriteLine urls_txt (url_line r))
              [sample_record; entry "xyz" "Title Sequence"]
       ++ [Log INFO "Submission URLs have been saved to 'submission_urls.txt'." []],
     Ok tt).
Proof.
  apply (proj1 (proj2 (url_file_has_one_line_per_record
                         (sample_world (page_of []) (fun _ => page_of [])) eq_refl))).
  repeat constructor; now eexists.
Defined.

(** Steps 5 and 6 never raise, whatever the records are: every failure of
    the writing is caught and logged.  When the file cannot be opened,
    nothing is written to it and the exception of open is the one logged. *)
Theorem saving_never_raises (w : world) (updated : list value) (urls : list string) :
  outcome (Harv.save_csv w updated) = Ok tt
  /\ outcome (Harv.save_urls w urls) = Ok tt
  /\ outcome (HarvTitlesVotes.save_csv w updated) = Ok tt
  /\ outcome (HarvTitlesVotes.save_urls w updated) = Ok tt
  /\ (forall e, open_csv w = Raise e ->
        trace (Harv.save_csv w updated)
        = [Log INFO "\nSaving submission data to 'submissions.csv'..." [];
           Log ERROR "Error writing to CSV: {e}" [E e]]
        /\ trace (HarvTitlesVotes.save_csv w updated)
           = [Log INFO "\nSaving submission data to 'titles_votes.csv'..." [];
              Log ERROR "Error writing to CSV: {e}" [E e]])
  /\ (forall e, open_urls w = Raise e ->
        trace (Harv.save_urls w urls)
        = [Log INFO "\nSaving submission URLs to 'submission_urls.txt'..." [];
           Log ERROR "Error writing submission URLs to text file: {e}" [E e]]
        /\ trace (HarvTitlesVotes.save_urls w updated)
           = [Log INFO "\nSaving submission URLs to 'submission_urls.txt'..." [];
              Log ERROR "Error writing submission URLs to text file: {e}" [E e]]).
Proof.
  split; [apply harv_save_csv_returns|].
  split; [apply harv_save_urls_returns|].
  split; [apply htv_save_csv_returns|].
  split; [apply htv_save_urls_returns|].
  split; intros e He.
  - unfold Harv.save_csv, HarvTitlesVotes.save_csv. rewrite He. split; reflexivity.
  - unfold Harv.save_urls, HarvTitlesVotes.save_urls. rewrite He. split; reflexivity.
Qed.

Lemma saving_never_raises_witness :
  trace (Harv.save_csv unwritable_disk [sample_record])
  = [Log INFO "\nSaving submission data to 'submissions.csv'..." [];
     Log ERROR "Error writing to CSV: {e}" [E OSError]]
  /\ outcome (Harv.save_csv unwritable_disk [sample_record]) = Ok tt.
Proof.
  pose proof (saving_never_raises unwritable_disk [sample_record] []) as (H1 & _ & _ & _ & H5 & _).
  split; [exact (proj1 (H5 OSError eq_refl)) | exact H1].
Defined.

(** ** The whole run *)

Section Runs.

Context {X : Type} (pick : event -> option X).

Hypothesis files_only :
  forall ev, match ev with
             | WriteRow _ _ | WriteLine _ _ => True
             | _ => pick ev = None
             end.

Ltac hush H :=
  let S := fresh "S" in
  pose proof H as S; unfold without in S; rewrite S; clear S.

(** Of a run of harv.py only steps 5 and 6 write to a file. *)
Lemma harv_harvest_select (w : world) (last_page : value) (all out : list value)
      (state : list value * list string) :
  fair w ->
  outcome (fetch_all_submissions w last_page) = Ok all ->
  outcome (Harv.prepare all ([], [])) = Ok state ->
  outcome (Harv.extract_all_votes w (fst state)) = Ok out ->
  select pick (trace (Harv.harvest w last_page))
  = select pick (trace (Harv.save_csv w out))
      ++ select pick (trace (Harv.save_urls w (snd state)))
  /\ outcome (Harv.harvest w last_page) = Ok tt.
Proof.
  intros Hw Hall Hprep Hout. unfold Harv.harvest. split.
  - repeat (erewrite select_bind_ok
              by first [ exact Hall | exact Hprep | exact Hout
                       | apply harv_save_csv_returns | apply harv_save_urls_returns
                       | reflexivity ];
            cbn beta).
    rewrite !(select_log pick files_only).
    hush (silent_fetch_all pick files_only w last_page Hw).
    hush (silent_harv_prepare pick files_only all ([], [])).
    hush (silent_harv_extract_all pick files_only w (fst state) Hw).
    cbn [app]. now rewrite app_nil_r.
  - repeat (erewrite outcome_bind_ok
              by first [ exact Hall | exact Hprep | exact Hout
                       | apply harv_save_csv_returns | apply harv_save_urls_returns
                       | reflexivity ];
            cbn beta).
    reflexivity.
Qed.


Lemma harv_main_select (w : world) (last_page : value) :
  outcome (Harv.discover w) = Ok (Some last_page) ->
  select pick (trace (Harv.main w)) = select pick (trace (Harv.harvest w last_page))
  /\ outcome (Harv.main w) = outcome (Harv.harvest w last_page).
Proof.
  intros H. unfold Harv.main. split.
  - rewrite (select_bind_ok pick _ _ _ H).
    hush (silent_harv_discover pick files_only w). reflexivity.
  - now rewrite (outcome_bind_ok _ _ _ H).
Qed.


End Runs.

Lemma Forall_contributions (w : world) (P : value -> Prop) (order : list Z) :
  (forall page, Forall P (contribution w page)) ->
  Forall P (flat_map (contribution w) order).
Proof. intros H. apply Forall_flat_map, Forall_forall. auto. Qed.


Lemma harv_prepared_have_hash (all : list value) :
  Forall (fun r => has_hash r = true) (map harv_record (filter has_hash all)).
Proof.
  rewrite Forall_map. apply Forall_forall. intros e He.
  apply filter_In in He. now apply harv_record_has_hash.
Qed.

(** A whole run of harv.py, when the first page announces [n] pages, every
    page lists objects, and both files open.  The run ends normally with
    a submissions.csv that holds the header and no record at all, however
    many records were harvested; the url file has one line per listed
    entry with a hash, in the order the pages completed. *)
Theorem harv_run_leaves_a_csv_without_records (w : world) (n : Z) :
  fair w ->
  (forall page, Forall is_dict (contribution w page)) ->
  open_csv w = Ok tt -> open_urls w = Ok tt ->
  outcome (Harv.discover w) = Ok (Some (VInt n)) ->
  exists order,
    Permutation order (range 1 (n + 1))
    /\ select pick_row (trace (Harv.main w)) = [("submissions.csv", Harv.keys)]
    /\ select pick_line (trace (Harv.main w))
       = map (fun e => (urls_txt, harv_url e))
             (filter has_hash (flat_map (contribution w) order))
    /\ outcome (Harv.main w) = Ok tt.
Proof.
  intros Hw Hd Hoc Hou Hdisc.
  destruct (fetch_all_merged w (VInt n) (n + 1) Hw eq_refl) as (order & Hp & Hall).
  exists order. split; [exact Hp|].
  set (all := flat_map (contribution w) order) in *.
  assert (Hdict : Forall is_dict all) by now apply Forall_contributions.
  pose proof (harv_prepare_outcome all [] [] Hdict) as Hprep. cbn [app] in Hprep.
  destruct (harv_extract_all_has_hash w _ Hw (harv_prepared_have_hash all))
    as (out & Hout & Hhash).
  destruct (harv_main_select pick_row pick_row_files w _ Hdisc) as [Hr Ho].
  destruct (harv_main_select pick_line pick_line_files w _ Hdisc) as [Hl _].
  destruct (harv_harvest_select pick_row pick_row_files w _ all out _ Hw Hall Hprep Hout)
    as [Hr' Ho'].
  destruct (harv_harvest_select pick_line pick_line_files w _ all out _ Hw Hall Hprep Hout)
    as [Hl' _].
  rewrite Hr, Hr', Hl, Hl', Ho, Ho'.
  rewrite (harv_save_csv_run w out Hoc Hhash), (harv_save_urls_run w _ Hou).
  cbn [snd trace fst].
  split; [|split; [|reflexivity]].
  - destruct out; cbn [select pick_row app];
      rewrite select_app, (select_none pick_row (WriteLine urls_txt)) by reflexivity;
      reflexivity.
  - destruct out; cbn [select pick_line app];
      rewrite select_app,
        (select_map pick_line (WriteLine urls_txt) (fun u => (urls_txt, u)))
        by reflexivity;
      cbn [select pick_line]; now rewrite app_nil_r, map_map.
Qed.

Lemma harv_run_leaves_a_csv_without_records_witness :
  exists order,
    Permutation order (range 1 (2 + 1))
    /\ select pick_row (trace (Harv.main twice_listed)) = [("submissions.csv", Harv.keys)]
    /\ select pick_line (trace (Harv.main twice_listed))
       = map (fun e => (urls_txt, harv_url e))
             (filter has_hash (flat_map (contribution twice_listed) order))
    /\ outcome (Harv.main twice_listed) = Ok tt.
Proof.
  apply (harv_run_leaves_a_csv_without_records twice_listed 2).
  - apply sample_world_fair.
  - intros page. change (contribution twice_listed page) with [entry "abc" "Trailer"].
    repeat constructor. now eexists.
  - reflexivity.
  - reflexivity.
  - reflexivity.
Defined.



(** ** Failures that are not caught *)

Lemma harv_harvest_type_error (w : world) (last_page : value) :
  py_succ last_page = Raise TypeError ->
  Harv.harvest w last_page = ([fetching_log], Raise TypeError).
Proof. intros H. unfold Harv.harvest, fetch_all_submissions. now rewrite H. Qed.

Lemma htv_harvest_type_error (w : world) (last_page : value) :
  py_succ last_page = Raise TypeError ->
  HarvTitlesVotes.harvest w last_page = ([fetching_log], Raise TypeError).
Proof. intros H. unfold HarvTitlesVotes.harvest, fetch_all_submissions. now rewrite H. Qed.

(** Step 1 takes whatever the first page gives as meta.last_page, and
    nothing checks it before step 2 adds one to it.  When it is not an
    integer (null, or a number sent as a string), both scripts die with
    an uncaught TypeError right after announcing the fetch: no page is
    requested by the pool and no file is written. *)
Theorem main_dies_on_a_page_count_that_is_no_integer (w : world) (last_page : value) :
  py_succ last_page = Raise TypeError ->
  (outcome (Harv.discover w) = Ok (Some last_page) ->
   Harv.main w = (trace (Harv.discover w) ++ [fetching_log], Raise TypeError))
  /\ (outcome (HarvTitlesVotes.discover w) = Ok (Some last_page) ->
      HarvTitlesVotes.main w
      = (trace (HarvTitlesVotes.discover w) ++ [fetching_log], Raise TypeError)).
Proof.
  intros Hv. split; intros Hd.
  - rewrite (M_eta (Harv.main w)). unfold Harv.main.
    rewrite trace_bind, outcome_bind, Hd, (harv_harvest_type_error w _ Hv). reflexivity.
  - rewrite (M_eta (HarvTitlesVotes.main w)). unfold HarvTitlesVotes.main.
    rewrite trace_bind, outcome_bind, Hd, (htv_harvest_type_error w _ Hv). reflexivity.
Qed.

Lemma main_dies_on_a_page_count_that_is_no_integer_witness :
  Harv.main null_page_count
  = ([HttpGet 1; total_pages_log VNone; fetching_log], Raise TypeError).
Proof.
  apply (proj1 (main_dies_on_a_page_count_that_is_no_integer
                  null_page_count VNone eq_refl)).
  reflexivity.
Defined.

(** Step 3 trusts the shape of the listing.  The first entry that is not
    an object makes both scripts raise AttributeError, uncaught, after the
    entries before it were handled; harv_titles_votes.py also raises on an
    object whose category is not a string (it calls strip on it), an entry
    that harv.py accepts. *)
Theorem step3_dies_on_a_malformed_entry :
  (forall (pre post : list value) (e : value) (state : list value * list string),
      Forall is_dict pre -> ~ is_dict e ->
      outcome (Harv.prepare (pre ++ e :: post) state) = Raise AttributeError)
  /\ (forall (pre post : list value) (e : value),
         Forall entry_ok pre -> ~ entry_ok e ->
         outcome (HarvTitlesVotes.prepare (pre ++ e :: post)) = Raise AttributeError)
  /\ (forall (d : list (string * value)) (v : value) (state : list value * list string),
         dict_get "category" d = Some v -> (forall s, v <> VStr s) ->
         ~ entry_ok (VDict d)
         /\ exists state', outcome (Harv.prepare_one state (VDict d)) = Ok state').
Proof.
  split; [|split].
  - intros pre post e [data urls] Hpre He. unfold Harv.prepare.
    rewrite foldM_app, outcome_bind.
    change (foldM Harv.prepare_one pre (data, urls)) with (Harv.prepare pre (data, urls)).
    rewrite (harv_prepare_outcome pre data urls Hpre). cbn [foldM].
    now rewrite (harv_prepare_one_not_dict _ e He).
  - intros pre post e Hpre He. unfold HarvTitlesVotes.prepare.
    rewrite foldM_app, outcome_bind, (htv_prepare_outcome_from pre [] Hpre). cbn [foldM].
    now rewrite (htv_prepare_one_not_ok _ e He).
  - intros d v state Hc Hv. split.
    + intros (d' & [= <-] & s & Hs). unfold field in Hs. rewrite Hc in Hs.
      now apply (Hv s).
    + destruct state as [data urls]. eexists.
      apply (proj1 (harv_prepare_one_run data urls (VDict d) (ex_intro _ d eq_refl))).
Qed.

Lemma step3_dies_on_a_malformed_entry_witness :
  outcome (HarvTitlesVotes.prepare
             ([entry "abc" "Trailer"] ++ VStr "x" :: [entry "xyz" "Trailer"]))
  = Raise AttributeError.
Proof.
  apply (proj1 (proj2 step3_dies_on_a_malformed_entry)).
  - repeat constructor. eexists; (split; [reflexivity|]); eexists; reflexivity.
  - intros (d & Hd & _). discriminate Hd.
Defined.

(** ** What the two pools ask for *)

Lemma gets_select (t : list event) : gets t = select pick_get t.
Proof. induction t as [|[] t IH]; cbn; congruence. Qed.

Lemma select_loop {X A S} (pick : event -> option X) (f : S -> A -> M S)
      (g : A -> list X) (P : A -> Prop) (l : list A) (s : S) :
  (forall s x, P x -> (exists s', outcome (f s x) = Ok s')
                      /\ select pick (trace (f s x)) = g x) ->
  Forall P l ->
  select pick (trace (foldM f l s)) = flat_map g l.
Proof.
  intros Hf H; revert s; induction H as [|x l Hx _ IH]; intros s; [reflexivity|].
  cbn [foldM flat_map]. destruct (Hf s x Hx) as [[s' Hs] Hg].
  now rewrite (select_bind_ok pick _ _ s' Hs), Hg, IH.
Qed.

Section Pools.

Context {X : Type} (pick : event -> option X).
Hypothesis pick_log : forall lvl text args, pick (Log lvl text args) = None.

Lemma collect_page_select (acc : list value) (page : Z) (future : M value) :
  select pick (trace (collect_page acc (page, future))) = select pick (trace future).
Proof.
  unfold collect_page. destruct future as [t [v|e]]; cbn [bind].
  - destruct (py_iter v) as [items|e];
      cbn [lift bind ret try_except log emit trace fst app];
      rewrite ?app_nil_r, ?select_app; cbn [select];
      rewrite ?pick_log, ?app_nil_r; reflexivity.
  - cbn [lift bind ret try_except log emit trace fst app].
    rewrite select_app. cbn [select]. now rewrite pick_log, app_nil_r.
Qed.

Lemma harv_collect_select (acc : list value) (future : M value)
      (d : list (string * value)) :
  select pick (trace (Harv.collect_votes acc (future, VDict d)))
  = select pick (trace future).
Proof.
  unfold Harv.collect_votes. destruct future as [t [v|e]];
    cbn [py_get py_setitem lift bind ret try_except log emit trace fst app];
    rewrite ?app_nil_r, ?select_app; cbn [select];
    rewrite ?pick_log, ?app_nil_r; reflexivity.
Qed.

Lemma htv_collect_select (acc : list value) (future : M value)
      (d : list (string * value)) :
  select pick (trace (HarvTitlesVotes.collect_details acc (future, VDict d)))
  = select pick (trace future).
Proof.
  unfold HarvTitlesVotes.collect_details. destruct future as [t [v|e]];
    cbn [py_get py_setitem lift bind ret try_except log emit trace fst app];
    rewrite ?app_nil_r, ?select_app; cbn [select];
    rewrite ?pick_log, ?app_nil_r; reflexivity.
Qed.

(** What a pool emits is what its tasks emit, task after task in
    completion order. *)
Lemma page_pool_select (w : world) (n : Z) :
  fair w ->
  exists order,
    Permutation order (range 1 (n + 1))
    /\ select pick (trace (fetch_all_submissions w (VInt n)))
       = flat_map (fun page => select pick (trace (fetch_page w page))) order.
Proof.
  intros Hw.
  set (futures := map (fun page => (page, fetch_page w page)) (range 1 (n + 1))).
  exists (map fst (completion w _ futures)). split.
  - replace (range 1 (n + 1)) with (map fst futures).
    + apply Permutation_map, Hw.
    + unfold futures. rewrite map_map. cbn. apply map_id.
  - unfold fetch_all_submissions.
    rewrite (select_bind_ok pick (lift (py_succ (VInt n))) _ (n + 1) eq_refl).
    cbn [lift trace fst select app]. fold futures.
    assert (Hf : Forall (fun task => snd task = fetch_page w (fst task))
                        (completion w _ futures)).
    { apply fair_Forall; [assumption|]. unfold futures. rewrite Forall_map.
      now apply Forall_forall. }
    rewrite (select_loop pick collect_page
               (fun task => select pick (trace (fetch_page w (fst task))))
               (fun task => snd task = fetch_page w (fst task))).
    + symmetry.
      apply (flat_map_of_map fst (fun page => select pick (trace (fetch_page w page)))).
    + intros s [page future] Hx. cbn [fst snd] in *. subst future. split.
      * eexists. apply collect_page_outcome.
      * apply collect_page_select.
    + exact Hf.
Qed.

Lemma harv_pool_select (w : world) (data : list value) :
  fair w -> Forall is_dict data ->
  exists order,
    Permutation order data
    /\ select pick (trace (Harv.extract_all_votes w data))
       = flat_map (fun s => select pick (trace (Harv.extract_votes w s))) order.
Proof.
  intros Hw Hd.
  set (futures := map (fun s => (Harv.extract_votes w s, s)) data).
  exists (map snd (completion w _ futures)). split.
  - assert (Hs : map snd futures = data)
      by (unfold futures; rewrite map_map; apply map_id).
    eapply perm_trans; [apply Permutation_map, Hw|].
    rewrite Hs. apply Permutation_refl.
  - unfold Harv.extract_all_votes. fold futures.
    assert (Hf : Forall (fun task => is_dict (snd task)
                                     /\ fst task = Harv.extract_votes w (snd task))
                        (completion w _ futures)).
    { apply fair_Forall; [assumption|]. unfold futures. rewrite Forall_map.
      eapply Forall_impl; [|exact Hd]. now intros s Hs. }
    rewrite (select_loop pick Harv.collect_votes
               (fun task => select pick (trace (Harv.extract_votes w (snd task))))
               (fun task => is_dict (snd task)
                            /\ fst task = Harv.extract_votes w (snd task))).
    + symmetry.
      apply (flat_map_of_map snd (fun s => select pick (trace (Harv.extract_votes w s)))).
    + intros s [future s'] Hx. cbn [fst snd] in *. destruct Hx as [[d ->] ->]. split.
      * eexists. apply harv_collect_votes_outcome. now eexists.
      * apply harv_collect_select.
    + exact Hf.
Qed.

Lemma htv_pool_select (w : world) (data : list value) :
  fair w -> Forall is_dict data ->
  exists order,
    Permutation order data
    /\ select pick (trace (HarvTitlesVotes.extract_all_submission_details w data))
       = flat_map (fun s => select pick
                              (trace (HarvTitlesVotes.extract_submission_details w s)))
                  order.
Proof.
  intros Hw Hd.
  set (futures := map (fun s => (HarvTitlesVotes.extract_submission_details w s, s)) data).
  exists (map snd (completion w _ futures)). split.
  - assert (Hs : map snd futures = data)
      by (unfold futures; rewrite map_map; apply map_id).
    eapply perm_trans; [apply Permutation_map, Hw|].
    rewrite Hs. apply Permutation_refl.
  - unfold HarvTitlesVotes.extract_all_submission_details. fold futures.
    assert (Hf : Forall (fun task =>
                           is_dict (snd task)
                           /\ fst task
                              = HarvTitlesVotes.extract_submission_details w (snd task))
                        (completion w _ futures)).
    { apply fair_Forall; [assumption|]. unfold futures. rewrite Forall_map.
      eapply Forall_impl; [|exact Hd]. now intros s Hs. }
    rewrite (select_loop pick HarvTitlesVotes.collect_details
               (fun task => select pick
                              (trace (HarvTitlesVotes.extract_submission_details
                                        w (snd task))))
               (fun task =>
                  is_dict (snd task)
                  /\ fst task = HarvTitlesVotes.extract_submission_details w (snd task))).
    + symmetry.
      apply (flat_map_of_map snd
               (fun s => select pick
                           (trace (HarvTitlesVotes.extract_submission_details w s)))).
    + intros s [future s'] Hx. cbn [fst snd] in *. destruct Hx as [[d ->] ->]. split.
      * eexists. apply htv_collect_details_outcome. now eexists.
      * apply htv_collect_select.
    + exact Hf.
Qed.

End Pools.

Lemma fetch_page_select_get (w : world) (page : Z) :
  select pick_get (trace (fetch_page w page)) = [page].
Proof. rewrite <- gets_select. apply gets_fetch_page. Qed.

Lemma flat_map_filter_map {A B} (u : A -> B) (keep : B -> bool) (l : list A) :
  flat_map (fun a => if keep (u a) then [u a] else []) l = filter keep (map u l).
Proof.
  induction l as [|a l IH]; [reflexivity|].
  cbn [flat_map map filter]. destruct (keep (u a)); cbn [app]; now rewrite IH.
Qed.

(** The pool of fetch_all_submissions requests every page from 1 to
    total_pages exactly once, whatever the replies are and in whatever
    order the tasks complete: a failed page is not asked for again, and
    nothing else is requested. *)
Theorem every_page_is_requested_once (w : world) (n : Z) :
  fair w ->
  Permutation (gets (trace (fetch_all_submissions w (VInt n)))) (range 1 (n + 1)).
Proof.
  intros Hw. rewrite gets_select.
  destruct (page_pool_select pick_get (fun _ _ _ => eq_refl) w n Hw) as (order & Hp & ->).
  rewrite (flat_map_ext_in _ (fun page => [page]) order
             (fun page _ => fetch_page_select_get w page)).
  now rewrite (flat_map_singleton (fun page => page)), map_id.
Qed.

Lemma every_page_is_requested_once_witness :
  Permutation (gets (trace (fetch_all_submissions page_two_down (VInt 3))))
              (range 1 (3 + 1)).
Proof. apply every_page_is_requested_once. apply sample_world_fair. Defined.

(** The detail pool of harv.py asks for a Chrome session at most once per
    record: exactly once, on the url of the record, for every record whose
    driver installation succeeded, and never otherwise.  It navigates
    exactly once in every session whose initialisation completed, and
    never otherwise, whatever the pages show and in whatever order the
    tasks complete. *)
Theorem harv_pool_sessions_follow_the_records (w : world) (data : list value) :
  fair w -> Forall is_dict data ->
  Permutation (select pick_session (trace (Harv.extract_all_votes w data)))
              (filter (installs w) (map harv_session_url data))
  /\ Permutation (select pick_navigate (trace (Harv.extract_all_votes w data)))
                 (filter (launches w) (map harv_session_url data)).
Proof.
  intros Hw Hd. split.
  - destruct (harv_pool_select pick_session (fun _ _ _ => eq_refl) w data Hw Hd)
      as (order & Hp & ->).
    assert (Ho : Forall is_dict order).
    { apply Forall_forall. intros s Hs. rewrite Forall_forall in Hd.
      apply Hd. eapply Permutation_in; [exact Hp | exact Hs]. }
    rewrite (flat_map_ext_in _
               (fun s => if installs w (harv_session_url s)
                         then [harv_session_url s] else []) order).
    + rewrite <- (flat_map_filter_map harv_session_url (installs w) data).
      now apply Permutation_flat_map.
    + intros s Hs. rewrite Forall_forall in Ho. destruct (Ho s Hs) as [d ->].
      apply harv_extract_sessions.
  - destruct (harv_pool_select pick_navigate (fun _ _ _ => eq_refl) w data Hw Hd)
      as (order & Hp & ->).
    assert (Ho : Forall is_dict order).
    { apply Forall_forall. intros s Hs. rewrite Forall_forall in Hd.
      apply Hd. eapply Permutation_in; [exact Hp | exact Hs]. }
    rewrite (flat_map_ext_in _
               (fun s => if launches w (harv_session_url s)
                         then [harv_session_url s] else []) order).
    + rewrite <- (flat_map_filter_map harv_session_url (launches w) data).
      now apply Permutation_flat_map.
    + intros s Hs. rewrite Forall_forall in Ho. destruct (Ho s Hs) as [d ->].
      apply harv_extract_navigations.
Qed.

Lemma harv_pool_sessions_follow_the_records_witness :
  Permutation (select pick_session
                 (trace (Harv.extract_all_votes stubborn_browser
                                                [no_driver_record; no_cdp_record;
                                                 sample_record])))
              [VStr "https://editfest.filmsupply.com/submissions/nocdp";
               VStr "https://editfest.filmsupply.com/submissions/abc"]
  /\ Permutation (select pick_navigate
                    (trace (Harv.extract_all_votes stubborn_browser
                                                   [no_driver_record; no_cdp_record;
                                                    sample_record])))
                 [VStr "https://editfest.filmsupply.com/submissions/abc"].
Proof.
  apply (harv_pool_sessions_follow_the_records
           stubborn_browser [no_driver_record; no_cdp_record; sample_record]).
  - intros A l. apply Permutation_refl.
  - repeat constructor; now eexists.
Defined.

(** The same for harv_titles_votes.py, whose sessions are asked for on the
    url built from the hash of the record. *)
Theorem htv_pool_sessions_follow_the_records (w : world) (data : list value) :
  fair w -> Forall is_dict data ->
  Permutation (select pick_session
                 (trace (HarvTitlesVotes.extract_all_submission_details w data)))
              (filter (installs w) (map htv_session_url data))
  /\ Permutation (select pick_navigate
                    (trace (HarvTitlesVotes.extract_all_submission_details w data)))
                 (filter (launches w) (map htv_session_url data)).
Proof.
  intros Hw Hd. split.
  - destruct (htv_pool_select pick_session (fun _ _ _ => eq_refl) w data Hw Hd)
      as (order & Hp & ->).
    assert (Ho : Forall is_dict order).
    { apply Forall_forall. intros s Hs. rewrite Forall_forall in Hd.
      apply Hd. eapply Permutation_in; [exact Hp | exact Hs]. }
    rewrite (flat_map_ext_in _
               (fun s => if installs w (htv_session_url s)
                         then [htv_session_url s] else []) order).
    + rewrite <- (flat_map_filter_map htv_session_url (installs w) data).
      now apply Permutation_flat_map.
    + intros s Hs. rewrite Forall_forall in Ho. destruct (Ho s Hs) as [d ->].
      apply htv_extract_sessions.
  - destruct (htv_pool_select pick_navigate (fun _ _ _ => eq_refl) w data Hw Hd)
      as (order & Hp & ->).
    assert (Ho : Forall is_dict order).
    { apply Forall_forall. intros s Hs. rewrite Forall_forall in Hd.
      apply Hd. eapply Permutation_in; [exact Hp | exact Hs]. }
    rewrite (flat_map_ext_in _
               (fun s => if launches w (htv_session_url s)
                         then [htv_session_url s] else []) order).
    + rewrite <- (flat_map_filter_map htv_session_url (launches w) data).
      now apply Permutation_flat_map.
    + intros s Hs. rewrite Forall_forall in Ho. destruct (Ho s Hs) as [d ->].
      apply htv_extract_navigations.
Qed.

Lemma htv_pool_sessions_follow_the_records_witness :
  Permutation (select pick_session
                 (trace (HarvTitlesVotes.extract_all_submission_details
                           stubborn_browser
                           [no_driver_record; no_cdp_record; sample_record])))
              [VStr "https://editfest.filmsupply.com/submissions/nocdp";
               VStr "https://editfest.filmsupply.com/submissions/abc"]
  /\ Permutation (select pick_navigate
                    (trace (HarvTitlesVotes.extract_all_submission_details
                              stubborn_browser
                              [no_driver_record; no_cdp_record; sample_record])))
                 [VStr "https://editfest.filmsupply.com/submissions/abc"].
Proof.
  apply (htv_pool_sessions_follow_the_records
           stubborn_browser [no_driver_record; no_cdp_record; sample_record]).
  - intros A l. apply Permutation_refl.
  - repeat constructor; now eexists.
Defined.
